(** * livechat-ws: connection registry, broadcast, presence store, lifecycle

    A shallow embedding of [internal/delivery/ws_manager.go] together with the
    Redis client ([AddUserToSession], [RemoveUserFromSession],
    [GetSessionUsers], [SetUserTyping], [GetTypingUsers]), the Kafka
    producer ([SendMessage], [getTopicForMessage]), the handlers of bus
    messages ([HandleTypingIndicator], [HandleConnectionStatus]), the
    monitoring functions and the status query of the REST server.

    Go code is written as computations in a small state-and-output monad
    [M]: the state is the [World] (the registry map of the [WSManager], the
    Redis hashes and typing keys, the clock, call counters) and the output is
    the list of [Event]s the code performs, in order.  What the collaborators
    answer (a socket write that fails, a Redis command or a Kafka write that
    returns an error, what [uuid.Parse] accepts) is given by an [Env]. *)

From stdpp Require Import gmap strings list fin_maps.

Set Warnings "-register-all,-clear-no-such-hyp".
Set Default Proof Using "Type".
Open Scope string_scope.
Open Scope list_scope.

(** ** Values *)

(** A Go [interface{}] holding decoded JSON, or what the code puts in a
    [map[string]interface{}].  [VTime t] is a [time.Time] (or its RFC 3339
    rendering) for the instant [t], in seconds. *)
Inductive value : Type :=
| VNil
| VBool (b : bool)
| VNum (n : Z)
| VStr (s : string)
| VTime (t : Z)
| VMap (m : gmap string value).

(** A string stored in Redis, up to JSON decoding: either the encoding of a
    value or a text that [json.Unmarshal] rejects. *)
Inductive text : Type :=
| Json (v : value)
| NotJson (raw : string).

Definition json_Marshal (v : value) : text := Json v.

(** [json.Unmarshal(data, &userInfo)] with [userInfo map[string]interface{}]:
    an object decodes to a map, [null] leaves the map nil, and anything else
    is an error. *)
Definition json_Unmarshal_map (data : text) : option value :=
  match data with
  | Json (VMap m) => Some (VMap m)
  | Json VNil => Some VNil
  | _ => None
  end.

(** [m[key]] on a map that may be nil. *)
Definition index (m : value) (key : string) : option value :=
  match m with
  | VMap fields => fields !! key
  | _ => None
  end.

(** [v, _ := x.(string)]: the zero value when the assertion fails. *)
Definition as_string (x : option value) : string :=
  match x with
  | Some (VStr s) => s
  | _ => ""
  end.

(** ** Domain types *)

Record WSConnection : Type := mkWSConnection {
  Conn : nat;          (* the socket, by identity *)
  UserID : string;
  UserType : string;
  SessionID : string
}.

Record WebSocketMessage : Type := mkWebSocketMessage {
  msg_Type : string;
  msg_SessionID : string;
  msg_UserID : string;
  msg_UserType : string;
  msg_Data : value;
  msg_Timestamp : Z
}.

Record WebSocketResponse : Type := mkWebSocketResponse {
  resp_Type : string;
  resp_Success : bool;
  resp_Data : value;
  resp_Error : string
}.

(** What the producer is given to publish. *)
Inductive BusMessage : Type :=
| TypingMessage (type sessionID userID userType : string) (isTyping : bool)
    (timestamp : Z)
| ConnectionStatusMessage (type sessionID : string) (connectionStatus : value)
    (timestamp : Z).

Inductive RedisCmd : Type :=
| HSET (session field : string) (v : text)
| HDEL (session field : string)
| HGETALL (session : string)
| SETEX (session user : string) (ttl : Z)
| DEL (session user : string)
| KEYS (session : string).

(** The steps a run performs, in order.  [ok] is what the callee answered. *)
Inductive Event : Type :=
| EvAddConnection (sessionID : string) (c : WSConnection)
| EvRemoveConnection (sessionID userID : string)
| EvWriteJSON (conn : nat) (m : WebSocketResponse) (ok : bool)
| EvRedis (cmd : RedisCmd) (ok : bool)
| EvKafka (topic : string) (m : BusMessage) (ok : bool)
| EvClose (conn : nat).

(** ** Environment and state *)

Record Env : Type := mkEnv {
  write_fails : nat → bool;          (* WriteJSON on this socket errors *)
  redis_fails : nat → bool;          (* the n-th Redis command errors *)
  kafka_fails : nat → bool;          (* the n-th WriteMessages errors *)
  uuid_Parse : string → option string; (* the UUID in canonical form *)
  uuid_New : nat → string
}.

(** Redis holds one hash per session ([session:{id}:users], field = user id)
    and one expiring key per session and user ([session:{id}:typing:{user}]).
    Session ids are UUIDs, so the two families of keys never meet and a pair
    names a typing key.  A typing key is kept with the instant it expires. *)
Record World : Type := mkWorld {
  connections : gmap string (list WSConnection);
  session_users : gmap string (gmap string text);
  typing_keys : gmap (string * string) Z;
  clock : Z;
  redis_n : nat;
  kafka_n : nat;
  uuid_n : nat
}.

Definition NewWSManager : gmap string (list WSConnection) := ∅.

Definition M (A : Type) : Type := World → A * World * list Event.

Definition ret {A} (a : A) : M A := λ w, (a, w, []).

Definition bind {A B} (m : M A) (k : A → M B) : M B :=
  λ w, let '(a, w1, e1) := m w in
       let '(b, w2, e2) := k a w1 in
       (b, w2, e1 ++ e2).

Declare Scope go_scope.
Delimit Scope go_scope with go.
Notation "x <- m ;; k" := (bind m (λ x, k))
  (at level 100, m at next level, right associativity) : go_scope.
Notation "m ;;; k" := (bind m (λ _, k))
  (at level 100, right associativity) : go_scope.
Open Scope go_scope.

Definition emit (e : Event) : M unit := λ w, (tt, w, [e]).
Definition get {A} (f : World → A) : M A := λ w, (f w, w, []).
Definition modify (f : World → World) : M unit := λ w, (tt, f w, []).

Definition result {A} (r : A * World * list Event) : A := r.1.1.
Definition world {A} (r : A * World * list Event) : World := r.1.2.
Definition events {A} (r : A * World * list Event) : list Event := r.2.

Definition set_connections (f : gmap string (list WSConnection) →
    gmap string (list WSConnection)) (w : World) : World :=
  mkWorld (f (connections w)) (session_users w) (typing_keys w) (clock w)
    (redis_n w) (kafka_n w) (uuid_n w).

Definition set_session_users (f : gmap string (gmap string text) →
    gmap string (gmap string text)) (w : World) : World :=
  mkWorld (connections w) (f (session_users w)) (typing_keys w) (clock w)
    (redis_n w) (kafka_n w) (uuid_n w).

Definition set_typing_keys (f : gmap (string * string) Z →
    gmap (string * string) Z) (w : World) : World :=
  mkWorld (connections w) (session_users w) (f (typing_keys w)) (clock w)
    (redis_n w) (kafka_n w) (uuid_n w).

Definition tick_redis (w : World) : World :=
  mkWorld (connections w) (session_users w) (typing_keys w) (clock w)
    (S (redis_n w)) (kafka_n w) (uuid_n w).

Definition tick_kafka (w : World) : World :=
  mkWorld (connections w) (session_users w) (typing_keys w) (clock w)
    (redis_n w) (S (kafka_n w)) (uuid_n w).

Definition tick_uuid (w : World) : World :=
  mkWorld (connections w) (session_users w) (typing_keys w) (clock w)
    (redis_n w) (kafka_n w) (S (uuid_n w)).

(** Time passing between two calls. *)
Definition elapse (d : Z) (w : World) : World :=
  mkWorld (connections w) (session_users w) (typing_keys w) (clock w + d)
    (redis_n w) (kafka_n w) (uuid_n w).

(** ** Registry: [w.connections] *)

(** The index of the first connection of [userID], as the [for ... range]
    loop with its [break] finds it. *)
Fixpoint find_user (userID : string) (conns : list WSConnection) : option nat :=
  match conns with
  | [] => None
  | conn :: rest =>
      if bool_decide (UserID conn = userID) then Some 0%nat
      else S <$> find_user userID rest
  end.

(** [append(connections[:i], connections[i+1:]...)] *)
Definition cut {A} (i : nat) (l : list A) : list A := take i l ++ drop (S i) l.

Definition registry_add (sessionID : string) (conn : WSConnection)
    (reg : gmap string (list WSConnection)) : gmap string (list WSConnection) :=
  let reg1 :=
    match reg !! sessionID with
    | Some _ => reg
    | None => <[sessionID := []]> reg
    end in
  <[sessionID := default [] (reg1 !! sessionID) ++ [conn]]> reg1.

Definition registry_remove (sessionID userID : string)
    (reg : gmap string (list WSConnection)) : gmap string (list WSConnection) :=
  match reg !! sessionID with
  | Some conns =>
      let reg1 :=
        match find_user userID conns with
        | Some i => <[sessionID := cut i conns]> reg
        | None => reg
        end in
      (* Clean up empty session *)
      if bool_decide (length (default [] (reg1 !! sessionID)) = 0%nat)
      then delete sessionID reg1
      else reg1
  | None => reg
  end.

(** ** Redis and Kafka clients *)

Definition hash_of (db : gmap string (gmap string text)) (sessionID : string)
    : gmap string text :=
  default ∅ (db !! sessionID).

Definition hset (sessionID field : string) (v : text)
    (db : gmap string (gmap string text)) : gmap string (gmap string text) :=
  <[sessionID := <[field := v]> (hash_of db sessionID)]> db.

(** Redis drops a hash when its last field goes. *)
Definition hdel (sessionID field : string)
    (db : gmap string (gmap string text)) : gmap string (gmap string text) :=
  match db !! sessionID with
  | Some h =>
      if decide (delete field h = ∅) then delete sessionID db
      else <[sessionID := delete field h]> db
  | None => db
  end.

(** A key with an expiry is there until the clock reaches it. *)
Definition live (w : World) (sessionID userID : string) : bool :=
  match typing_keys w !! (sessionID, userID) with
  | Some expiry => bool_decide (clock w < expiry)%Z
  | None => false
  end.

Definition getTopicForMessage (message : BusMessage) : string :=
  match message with
  | TypingMessage _ _ _ _ _ _ => "typing-indicators"
  | ConnectionStatusMessage _ _ _ _ => "connection-status"
  end.

(** One pass of the loop of [GetSessionUsers] over a field of the hash. *)
Definition count_user (userID : string) (userJSON : text)
    (acc : gmap string value * nat * nat) : gmap string value * nat * nat :=
  let '(result, customerCount, agentCount) := acc in
  match json_Unmarshal_map userJSON with
  | None => acc
  | Some userInfo =>
      let userType := as_string (index userInfo "user_type") in
      let '(customerCount, agentCount) :=
        if bool_decide (userType = "customer")
        then (S customerCount, agentCount)
        else if bool_decide (userType = "agent")
        then (customerCount, S agentCount)
        else (customerCount, agentCount) in
      (<[userID := userInfo]> result, customerCount, agentCount)
  end.

(** What [GetSessionUsers] builds from the fields [HGetAll] returned. *)
Definition session_status (users : gmap string text) : value :=
  let '(result, customerCount, agentCount) :=
    map_fold count_user (∅, 0%nat, 0%nat) users in
  VMap (<["users" := VMap result]>
       (<["customer_connected" := VBool (bool_decide (0 < customerCount)%nat)]>
       (<["agent_connected" := VBool (bool_decide (0 < agentCount)%nat)]>
       (<["total_customer" := VNum (Z.of_nat customerCount)]>
       (<["total_agent" := VNum (Z.of_nat agentCount)]> ∅))))).

Section Model.

Variable env : Env.

Definition addConnection (sessionID : string) (conn : WSConnection) : M unit :=
  modify (set_connections (registry_add sessionID conn));;;
  emit (EvAddConnection sessionID conn).

Definition removeConnection (sessionID userID : string) : M unit :=
  modify (set_connections (registry_remove sessionID userID));;;
  emit (EvRemoveConnection sessionID userID).

(** A Redis command: it errors when the environment says so, and then has
    no effect. *)
Definition redis (cmd : RedisCmd) (apply : World → World) : M bool :=
  λ w, let ok := negb (redis_fails env (redis_n w)) in
       (ok, tick_redis (if ok then apply w else w), [EvRedis cmd ok]).

Definition time_Now : M Z := get clock.

Definition AddUserToSession (sessionID userID userType : string) : M bool :=
  now <- time_Now;;
  let userInfo : gmap string value :=
    <["user_id" := VStr userID]>
    (<["user_type" := VStr userType]>
    (<["joined_at" := VTime now]> ∅)) in
  let userJSON := json_Marshal (VMap userInfo) in
  redis (HSET sessionID userID userJSON)
    (set_session_users (hset sessionID userID userJSON)).

Definition RemoveUserFromSession (sessionID userID userType : string) : M bool :=
  redis (HDEL sessionID userID) (set_session_users (hdel sessionID userID)).

(** [None] is the error of [HGetAll]. *)
Definition GetSessionUsers (sessionID : string) : M (option value) :=
  users <- get (λ w, hash_of (session_users w) sessionID);;
  ok <- redis (HGETALL sessionID) id;;
  ret (if ok then Some (session_status users) else None).

Definition SetUserTyping (sessionID userID : string) (isTyping : bool) : M bool :=
  if isTyping then
    now <- time_Now;;
    redis (SETEX sessionID userID 30)
      (set_typing_keys (<[(sessionID, userID) := (now + 30)%Z]>))
  else
    redis (DEL sessionID userID)
      (set_typing_keys (delete (sessionID, userID))).

(** The users of the live keys [session:{id}:typing:*]; a key that is only
    the prefix is skipped. *)
Definition GetTypingUsers (sessionID : string) : M (option (list string)) :=
  w <- get id;;
  ok <- redis (KEYS sessionID) id;;
  let keys := filter (λ k, k.1 = sessionID ∧ live w k.1 k.2)
                (map fst (map_to_list (typing_keys w))) in
  let typingUsers :=
    omap (λ k : string * string,
            if bool_decide (0 < String.length k.2)%nat then Some k.2 else None)
         keys in
  ret (if ok then Some typingUsers else None).

Definition SendMessage (message : BusMessage) : M bool :=
  λ w, let ok := negb (kafka_fails env (kafka_n w)) in
       (ok, tick_kafka w, [EvKafka (getTopicForMessage message) message ok]).

(** ** Writing to sockets *)

(** [c.WriteJSON(message)]; [true] when it returned no error. *)
Definition safeWriteToConn (c : nat) (message : WebSocketResponse) : M bool :=
  let ok := negb (write_fails env c) in
  emit (EvWriteJSON c message ok);;; ret ok.

Definition safeWriteJSON (conn : WSConnection) (message : WebSocketResponse)
    : M bool :=
  safeWriteToConn (Conn conn) message.

(** The body of one delivery goroutine of [broadcastToSession]. *)
Definition deliver (sessionID : string) (message : WebSocketResponse)
    (c : WSConnection) : M unit :=
  ok <- safeWriteJSON c message;;
  if ok then ret tt
  else removeConnection sessionID (UserID c).

Fixpoint deliver_all (sessionID : string) (message : WebSocketResponse)
    (conns : list WSConnection) : M unit :=
  match conns with
  | [] => ret tt
  | c :: rest =>
      deliver sessionID message c;;; deliver_all sessionID message rest
  end.

(** The deliveries run one after the other, in the order of the copied
    slice.  The goroutines may run in any order; each writes to its own
    socket and the removals are serialized by the mutex, so a run is one
    order of the deliveries, and the registry that results is the same for
    all of them ([prune_any_order] below). *)
Definition broadcastToSession (sessionID : string) (message : WebSocketResponse)
    : M unit :=
  conns <- get (λ w, default [] (connections w !! sessionID));;
  deliver_all sessionID message conns.

Definition sendWelcomeMessage (c : nat) (sessionID userID userType : string)
    : M unit :=
  now <- time_Now;;
  let response := {|
    resp_Type := "connection_established";
    resp_Success := true;
    resp_Data := VMap (<["session_id" := VStr sessionID]>
                      (<["user_id" := VStr userID]>
                      (<["user_type" := VStr userType]>
                      (<["timestamp" := VTime now]>
                      (<["message" :=
                          VStr "Successfully connected to chat session"]> ∅)))));
    resp_Error := "" |} in
  safeWriteToConn c response;;; ret tt.

Definition sendErrorResponse (c : nat) (errorMsg : string) : M unit :=
  let response := {|
    resp_Type := "error";
    resp_Success := false;
    resp_Data := VNil;
    resp_Error := errorMsg |} in
  safeWriteToConn c response;;; ret tt.

(** ** Handlers *)

Definition typing_indicator (sessionID userID userType : string)
    (isTyping : bool) (now : Z) : WebSocketResponse := {|
  resp_Type := "typing_indicator";
  resp_Success := false;
  resp_Data := VMap (<["session_id" := VStr sessionID]>
                    (<["user_id" := VStr userID]>
                    (<["sender_type" := VStr userType]>
                    (<["is_typing" := VBool isTyping]>
                    (<["timestamp" := VTime now]> ∅)))));
  resp_Error := "" |}.

Definition handleTypingIndicator (sessionID userID userType : string)
    (isTyping : bool) : M unit :=
  (* Set typing status in Redis *)
  SetUserTyping sessionID userID isTyping;;;
  (* Broadcast typing status directly to WebSocket clients *)
  now <- time_Now;;
  broadcastToSession sessionID
    (typing_indicator sessionID userID userType isTyping now);;;
  (* Also send typing status via Kafka for other services *)
  match uuid_Parse env sessionID with
  | None => ret tt
  | Some sessionUUID =>
      now <- time_Now;;
      SendMessage (TypingMessage "typing_indicator" sessionUUID userID userType
                     isTyping now);;;
      ret tt
  end.

Definition handleSendMessage (c : nat) (msg : WebSocketMessage) : M unit :=
  n <- get uuid_n;;
  modify tick_uuid;;;
  now <- time_Now;;
  let response := {|
    resp_Type := "message_sent";
    resp_Success := true;
    resp_Data := VMap (<["message_id" := VStr (uuid_New env n)]>
                      (<["timestamp" := VTime now]> ∅));
    resp_Error := "" |} in
  safeWriteToConn c response;;; ret tt.

Definition connection_status_update (sessionID : string) (status : value)
    (now : Z) (eventType eventUserID : string) : WebSocketResponse :=
  let messageData : gmap string value :=
    <["session_id" := VStr sessionID]>
    (<["connection_status" := status]>
    (<["timestamp" := VTime now]> ∅)) in
  let messageData :=
    if bool_decide (eventType ≠ "")
    then <["event_type" := VStr eventType]> messageData
    else messageData in
  let messageData :=
    if bool_decide (eventUserID ≠ "")
    then <["event_user_id" := VStr eventUserID]> messageData
    else messageData in
  {| resp_Type := "connection_status_update";
     resp_Success := false;
     resp_Data := VMap messageData;
     resp_Error := "" |}.

Definition broadcastConnectionStatusWithContext
    (sessionID eventType eventUserID : string) : M unit :=
  (* Get connection status from Redis *)
  r <- GetSessionUsers sessionID;;
  match r with
  | None => ret tt
  | Some status =>
      now <- time_Now;;
      broadcastToSession sessionID
        (connection_status_update sessionID status now eventType eventUserID);;;
      (* Also send connection status via Kafka for other services *)
      match uuid_Parse env sessionID with
      | None => ret tt
      | Some sessionUUID =>
          now <- time_Now;;
          SendMessage (ConnectionStatusMessage "connection_status" sessionUUID
                         status now);;;
          ret tt
      end
  end.

(** The [is_typing] a [typing_start] or [agent_typing] frame asks for. *)
Definition requested_typing (data : value) : bool :=
  match data with
  | VMap dataMap =>
      match dataMap !! "is_typing" with
      | Some (VBool typing) => typing
      | _ => true
      end
  | _ => true
  end.

Definition handleIncomingMessage (c : nat) (msg : WebSocketMessage)
    (sessionID userID userType : string) : M unit :=
  let ty := msg_Type msg in
  if bool_decide (ty = "join_session") then
    now <- time_Now;;
    let response := {|
      resp_Type := "session_joined";
      resp_Success := true;
      resp_Data := VMap (<["session_id" := VStr sessionID]>
                        (<["user_id" := VStr userID]>
                        (<["user_type" := VStr userType]>
                        (<["timestamp" := VTime now]> ∅))));
      resp_Error := "" |} in
    safeWriteToConn c response;;; ret tt
  else if bool_decide (ty = "typing_start" ∨ ty = "agent_typing") then
    handleTypingIndicator sessionID userID userType
      (requested_typing (msg_Data msg))
  else if bool_decide (ty = "typing_stop") then
    handleTypingIndicator sessionID userID userType false
  else if bool_decide (ty = "send_message") then
    handleSendMessage c msg
  else if bool_decide (ty = "ping") then
    now <- time_Now;;
    let response := {|
      resp_Type := "pong";
      resp_Success := true;
      resp_Data := VMap (<["timestamp" := VTime now]> ∅);
      resp_Error := "" |} in
    safeWriteToConn c response;;; ret tt
  else
    sendErrorResponse c ("Unknown message type: " +:+ ty).

(** ** Connection lifecycle *)

(** The read loop: [inbox] are the frames [ReadJSON] returns before the read
    that fails. *)
Fixpoint read_loop (c : nat) (sessionID userID userType : string)
    (inbox : list WebSocketMessage) : M unit :=
  match inbox with
  | [] => ret tt
  | msg :: rest =>
      handleIncomingMessage c msg sessionID userID userType;;;
      read_loop c sessionID userID userType rest
  end.

(** The calls [HandleConnection] defers. *)
Inductive Deferred : Type :=
| DClose (c : nat)
| DDisconnect (sessionID userID userType : string)
| DRemoveUser (sessionID userID userType : string).

Definition run_deferred (d : Deferred) : M unit :=
  match d with
  | DClose c => emit (EvClose c)
  | DDisconnect sessionID userID userType =>
      (* Remove from connections map and Redis *)
      removeConnection sessionID userID;;;
      (* Then: Broadcast updated connection status AFTER user removed *)
      broadcastConnectionStatusWithContext sessionID "user_disconnected" userID
  | DRemoveUser sessionID userID userType =>
      RemoveUserFromSession sessionID userID userType;;; ret tt
  end.

(** Deferred calls run when the function returns, last deferred first: the
    stack grows at its head. *)
Fixpoint run_defers (stack : list Deferred) : M unit :=
  match stack with
  | [] => ret tt
  | d :: below => run_deferred d;;; run_defers below
  end.

Definition HandleConnection (c : nat) (sessionID userID userType : string)
    (inbox : list WebSocketMessage) : M unit :=
  let defers := [DClose c] in
  match uuid_Parse env sessionID with
  | None =>
      sendErrorResponse c "Invalid session ID format";;;
      run_defers defers
  | Some _ =>
      let wsConn := {| Conn := c; UserID := userID; UserType := userType;
                       SessionID := sessionID |} in
      (* Add to connections map *)
      addConnection sessionID wsConn;;;
      let defers := DDisconnect sessionID userID userType :: defers in
      (* Add to Redis *)
      AddUserToSession sessionID userID userType;;;
      let defers := DRemoveUser sessionID userID userType :: defers in
      (* Send connection status updates with connect context *)
      broadcastConnectionStatusWithContext sessionID "user_connected" userID;;;
      (* Send welcome message *)
      sendWelcomeMessage c sessionID userID userType;;;
      (* Handle incoming messages *)
      read_loop c sessionID userID userType inbox;;;
      run_defers defers
  end.

End Model.

(** ** A concrete environment for the examples *)

Definition is_hex (a : Ascii.ascii) : bool :=
  let n := Ascii.nat_of_ascii a in
  ((48 <=? n) && (n <=? 57) || (97 <=? n) && (n <=? 102))%nat.

Fixpoint canonical_from (i : nat) (s : string) : bool :=
  match s with
  | EmptyString => (i =? 36)%nat
  | String a rest =>
      (if (i =? 8)%nat || (i =? 13)%nat || (i =? 18)%nat || (i =? 23)%nat
       then Ascii.eqb a (Ascii.ascii_of_nat 45) else is_hex a)
      && canonical_from (S i) rest
  end.

(** [uuid.Parse] on the lower-case canonical form
    [xxxxxxxx-xxxx-xxxx-xxxx-xxxxxxxxxxxx], the only one the examples use. *)
Definition parse_canonical (s : string) : option string :=
  if canonical_from 0 s then Some s else None.

Definition all_up : Env := {|
  write_fails := λ _, false;
  redis_fails := λ _, false;
  kafka_fails := λ _, false;
  uuid_Parse := parse_canonical;
  uuid_New := λ n, "00000000-0000-4000-8000-000000000000"
|}.

Definition session1 : string := "123e4567-e89b-12d3-a456-426614174000".

Definition start : World := {|
  connections := NewWSManager;
  session_users := ∅;
  typing_keys := ∅;
  clock := 0;
  redis_n := 0;
  kafka_n := 0;
  uuid_n := 0
|}.

(** The registries the manager can hold: it starts empty and is only
    changed by [addConnection] and [removeConnection]. *)
Inductive reachable : gmap string (list WSConnection) → Prop :=
| reach_new : reachable NewWSManager
| reach_add sessionID conn reg :
    reachable reg → reachable (registry_add sessionID conn reg)
| reach_remove sessionID userID reg :
    reachable reg → reachable (registry_remove sessionID userID reg).

(** ** Notions the statements use *)

Definition no_empty_session (reg : gmap string (list WSConnection)) : Prop :=
  ∀ sessionID conns, reg !! sessionID = Some conns → conns ≠ [].

(** The role a field of the hash records, when the field is an entry at
    all. *)
Definition role_of (userJSON : text) : option string :=
  match json_Unmarshal_map userJSON with
  | Some userInfo => Some (as_string (index userInfo "user_type"))
  | None => None
  end.

Definition has_role (role : string) (entry : string * text) : Prop :=
  role_of entry.2 = Some role.

#[global] Instance has_role_dec (role : string) (entry : string * text)
  : Decision (has_role role entry).
Proof. unfold has_role. apply _. Defined.

Definition entries_with_role (role : string) (users : gmap string text) : nat :=
  size (filter (has_role role) users).

(** The entry [AddUserToSession] writes. *)
Definition presence_entry (userID userType : string) (joinedAt : Z) : text :=
  Json (VMap (<["user_id" := VStr userID]>
             (<["user_type" := VStr userType]>
             (<["joined_at" := VTime joinedAt]> ∅)))).

(** A status as a record of its five fields. *)
Definition status_fields (status : value)
    : option (value * value * value * value * value) :=
  users ← index status "users";
  cc ← index status "customer_connected";
  ac ← index status "agent_connected";
  tc ← index status "total_customer";
  ta ← index status "total_agent";
  Some (users, cc, ac, tc, ta).

(** A sequence of [Join] calls on one session, each after some time has
    passed: (delay, user id, role). *)
Fixpoint join_all (env : Env) (sessionID : string)
    (joins : list (Z * string * string)) : M unit :=
  match joins with
  | [] => ret tt
  | (delay, userID, userType) :: rest =>
      modify (elapse delay);;;
      AddUserToSession env sessionID userID userType;;;
      join_all env sessionID rest
  end.

(** The role of the last join of [userID] in the sequence. *)
Definition last_role (userID : string) (joins : list (Z * string * string))
    : option string :=
  foldl (λ acc j, if bool_decide (j.1.2 = userID) then Some j.2 else acc)
    None joins.

(** The hash after a sequence of accepted joins. *)
Fixpoint apply_joins (now : Z) (users : gmap string text)
    (joins : list (Z * string * string)) : gmap string text :=
  match joins with
  | [] => users
  | (delay, userID, userType) :: rest =>
      apply_joins (now + delay)
        (<[userID := presence_entry userID userType (now + delay)]> users) rest
  end.

(** What one delivery does, as events and on the registry. *)
Definition delivery_events (env : Env) (sessionID : string)
    (message : WebSocketResponse) (c : WSConnection) : list Event :=
  if write_fails env (Conn c)
  then [EvWriteJSON (Conn c) message false;
        EvRemoveConnection sessionID (UserID c)]
  else [EvWriteJSON (Conn c) message true].

Definition broadcast_events (env : Env) (sessionID : string)
    (message : WebSocketResponse) (conns : list WSConnection) : list Event :=
  flat_map (delivery_events env sessionID message) conns.

Definition prune (env : Env) (sessionID : string) (conns : list WSConnection)
    (reg : gmap string (list WSConnection)) : gmap string (list WSConnection) :=
  foldl (λ reg c, if write_fails env (Conn c)
                  then registry_remove sessionID (UserID c) reg else reg)
    reg conns.

(** [HandleConnection] up to the end of its read loop, for a session id
    that parses: what runs before the deferred calls. *)
Definition serve (env : Env) (c : nat) (sessionID userID userType : string)
    (inbox : list WebSocketMessage) : M unit :=
  addConnection sessionID
    {| Conn := c; UserID := userID; UserType := userType;
       SessionID := sessionID |};;;
  AddUserToSession env sessionID userID userType;;;
  broadcastConnectionStatusWithContext env sessionID "user_connected" userID;;;
  sendWelcomeMessage env c sessionID userID userType;;;
  read_loop env c sessionID userID userType inbox.

(** The deferred calls of a connection that was served, top of the stack
    first. *)
Definition closing (env : Env) (c : nat) (sessionID userID userType : string)
    : M unit :=
  run_defers env [DRemoveUser sessionID userID userType;
                  DDisconnect sessionID userID userType; DClose c].

(** The three steps of closing, as they show in the events. *)
Definition is_registry_remove (sessionID userID : string) (e : Event) : bool :=
  match e with
  | EvRemoveConnection s u => bool_decide (s = sessionID ∧ u = userID)
  | _ => false
  end.

Definition is_presence_leave (sessionID userID : string) (e : Event) : bool :=
  match e with
  | EvRedis (HDEL s u) _ => bool_decide (s = sessionID ∧ u = userID)
  | _ => false
  end.

Definition is_status_read (sessionID : string) (e : Event) : bool :=
  match e with
  | EvRedis (HGETALL s) _ => bool_decide (s = sessionID)
  | _ => false
  end.

Definition is_write (e : Event) : bool :=
  match e with
  | EvWriteJSON _ _ _ => true
  | _ => false
  end.

(** The index of the first event that satisfies [p]. *)
Fixpoint position (p : Event → bool) (l : list Event) : option nat :=
  match l with
  | [] => None
  | e :: rest => if p e then Some 0%nat else S <$> position p rest
  end.

(** A [p] step happens, and before the first [q] step. *)
Definition precedes (p q : Event → bool) (l : list Event) : Prop :=
  ∃ i j, position p l = Some i ∧ position q l = Some j ∧ (i < j)%nat.

(** A frame of type [typing_indicator] for [userID] saying [isTyping]. *)
Definition says_typing (userID : string) (isTyping : bool) (e : Event) : bool :=
  match e with
  | EvWriteJSON _ m _ =>
      match index (resp_Data m) "user_id", index (resp_Data m) "is_typing" with
      | Some (VStr u), Some (VBool b) =>
          bool_decide (resp_Type m = "typing_indicator" ∧ u = userID ∧
                       b = isTyping)
      | _, _ => false
      end
  | _ => false
  end.

Definition recognized (ty : string) : Prop :=
  ty ∈ ["join_session"; "typing_start"; "typing_stop"; "agent_typing";
        "send_message"; "ping"].

(** The publish step the two handlers end with. *)
Definition kafka_events (env : Env) (sessionID : string)
    (mk : string → BusMessage) (w : World) : list Event :=
  match uuid_Parse env sessionID with
  | None => []
  | Some sessionUUID =>
      [EvKafka (getTopicForMessage (mk sessionUUID)) (mk sessionUUID)
         (negb (kafka_fails env (kafka_n w)))]
  end.

Definition after_kafka (env : Env) (sessionID : string) (w : World) : World :=
  match uuid_Parse env sessionID with
  | None => w
  | Some _ => tick_kafka w
  end.

(** A frame of the given type is written. *)
Definition is_frame (ty : string) (e : Event) : bool :=
  match e with
  | EvWriteJSON _ m _ => bool_decide (resp_Type m = ty)
  | _ => false
  end.

(** The list without the first connection of [userID]. *)
Definition remove_first (userID : string) (conns : list WSConnection)
    : list WSConnection :=
  match find_user userID conns with
  | Some i => cut i conns
  | None => conns
  end.

(** ** Inputs of the examples *)

Definition cust1_conn : WSConnection := mkWSConnection 1 "cust1" "customer" session1.
Definition agent1_conn : WSConnection := mkWSConnection 2 "agent1" "agent" session1.

(** [cust1] and [agent1] are connected to [session1]. *)
Definition two_users : World := {|
  connections :=
    registry_add session1 agent1_conn
      (registry_add session1 cust1_conn NewWSManager);
  session_users :=
    hset session1 "agent1" (presence_entry "agent1" "agent" 0)
      (hset session1 "cust1" (presence_entry "cust1" "customer" 0) ∅);
  typing_keys := ∅;
  clock := 5;
  redis_n := 2;
  kafka_n := 2;
  uuid_n := 0
|}.

(** Only an [admin] is in [session1]. *)
Definition admin_only : World := {|
  connections :=
    registry_add session1 (mkWSConnection 3 "admin1" "admin" session1)
      NewWSManager;
  session_users :=
    hset session1 "admin1" (presence_entry "admin1" "admin" 0) ∅;
  typing_keys := ∅;
  clock := 1;
  redis_n := 1;
  kafka_n := 1;
  uuid_n := 0
|}.

(** The socket of connection 1 is broken. *)
Definition socket1_down : Env := {|
  write_fails := λ c, bool_decide (c = 1%nat);
  redis_fails := λ _, false;
  kafka_fails := λ _, false;
  uuid_Parse := parse_canonical;
  uuid_New := λ n, "00000000-0000-4000-8000-000000000000"
|}.

(** Redis answers every command with an error. *)
Definition redis_down : Env := {|
  write_fails := λ _, false;
  redis_fails := λ _, true;
  kafka_fails := λ _, false;
  uuid_Parse := parse_canonical;
  uuid_New := λ n, "00000000-0000-4000-8000-000000000000"
|}.

(** The same user [u1] on two sockets: tab B registered first, then tab A. *)
Definition tab_a : WSConnection := mkWSConnection 1 "u1" "customer" session1.
Definition tab_b : WSConnection := mkWSConnection 2 "u1" "customer" session1.

Definition two_tabs : World := {|
  connections :=
    registry_add session1 tab_a (registry_add session1 tab_b NewWSManager);
  session_users :=
    hset session1 "u1" (presence_entry "u1" "customer" 0) ∅;
  typing_keys := ∅;
  clock := 5;
  redis_n := 2;
  kafka_n := 2;
  uuid_n := 0
|}.

(** [agent1] alone is connected to [session1]. *)
Definition agent_waiting : World := {|
  connections := registry_add session1 agent1_conn NewWSManager;
  session_users :=
    hset session1 "agent1" (presence_entry "agent1" "agent" 0) ∅;
  typing_keys := ∅;
  clock := 2;
  redis_n := 2;
  kafka_n := 1;
  uuid_n := 0
|}.

(** [cust1] connects to [session1], sends nothing and leaves. *)
Definition cust1_visit (env : Env) : unit * World * list Event :=
  HandleConnection env 1 session1 "cust1" "customer" [] agent_waiting.

(** A [typing_start] frame whose data says [is_typing: false], and a plain
    one. *)
Definition typing_start_false : WebSocketMessage :=
  mkWebSocketMessage "typing_start" session1 "cust1" "customer"
    (VMap {["is_typing" := VBool false]}) 0.

Definition typing_start_plain : WebSocketMessage :=
  mkWebSocketMessage "typing_start" session1 "cust1" "customer" VNil 0.

Definition typing_stop_plain : WebSocketMessage :=
  mkWebSocketMessage "typing_stop" session1 "cust1" "customer" VNil 0.

(** Redis rejects its third command (counting from 0: the command number
    2) and Kafka rejects every write. *)
Definition join_rejected : Env := {|
  write_fails := λ _, false;
  redis_fails := λ n, bool_decide (n = 2%nat);
  kafka_fails := λ _, true;
  uuid_Parse := parse_canonical;
  uuid_New := λ n, "00000000-0000-4000-8000-000000000000"
|}.

(** [cust1] is registered next to [agent1], but its entry was not stored. *)
Definition cust1_unrecorded : World :=
  tick_redis (set_connections (registry_add session1 cust1_conn) agent_waiting).

(** Redis rejects the command number 4: in the visit of [cust1] to
    [agent_waiting] that is the [HDEL] of the closing. *)
Definition leave_rejected : Env := {|
  write_fails := λ _, false;
  redis_fails := λ n, bool_decide (n = 4%nat);
  kafka_fails := λ _, false;
  uuid_Parse := parse_canonical;
  uuid_New := λ n, "00000000-0000-4000-8000-000000000000"
|}.

(** The [total_customer] a status frame carries. *)
Definition frame_total_customer (e : Event) : option value :=
  match e with
  | EvWriteJSON _ m _ =>
      status ← index (resp_Data m) "connection_status";
      index status "total_customer"
  | _ => None
  end.

(** ** Monitoring, bus relay and status query *)

(** [GetActiveConnections]: the number of connections of every session. *)
Definition GetActiveConnections (w : World) : gmap string nat :=
  map_fold (λ sessionID conns result, <[sessionID := length conns]> result)
    ∅ (connections w).

Definition GetSessionConnectionCount (sessionID : string) (w : World) : nat :=
  match connections w !! sessionID with
  | Some conns => length conns
  | None => 0%nat
  end.

(** [HandleTypingIndicator] of the Kafka [MessageHandler]: [sessionID] is
    [msg.SessionID.String()], the canonical text of the UUID. *)
Definition HandleTypingIndicator (env : Env)
    (sessionID userID userType : string) (isTyping : bool) (timestamp : Z)
    : M unit :=
  let wsMessage := {|
    resp_Type := "typing_indicator";
    resp_Success := false;
    resp_Data := VMap (<["session_id" := VStr sessionID]>
                      (<["user_id" := VStr userID]>
                      (<["sender_type" := VStr userType]>
                      (<["is_typing" := VBool isTyping]>
                      (<["timestamp" := VTime timestamp]> ∅)))));
    resp_Error := "" |} in
  broadcastToSession env sessionID wsMessage.

(** [HandleConnectionStatus] of the Kafka [MessageHandler]. *)
Definition HandleConnectionStatus (env : Env) (sessionID : string)
    (connectionStatus : value) (timestamp : Z) : M unit :=
  let wsMessage := {|
    resp_Type := "connection_status_update";
    resp_Success := false;
    resp_Data := VMap (<["session_id" := VStr sessionID]>
                      (<["connection_status" := connectionStatus]>
                      (<["timestamp" := VTime timestamp]> ∅)));
    resp_Error := "" |} in
  broadcastToSession env sessionID wsMessage.

(** What a bus message does when the consumer hands it to its handler. *)
Definition relay (env : Env) (message : BusMessage) : M unit :=
  match message with
  | TypingMessage _ sessionID userID userType isTyping timestamp =>
      HandleTypingIndicator env sessionID userID userType isTyping timestamp
  | ConnectionStatusMessage _ sessionID connectionStatus timestamp =>
      HandleConnectionStatus env sessionID connectionStatus timestamp
  end.

(** The texts of [err.Error()], which are the libraries'. *)
Record ErrorTexts : Type := mkErrorTexts {
  parse_error : string → string;   (* of [uuid.Parse] on this input *)
  redis_error : string
}.

Record HTTPResponse : Type := mkHTTPResponse {
  http_status : nat;
  http_body : value
}.

(** [GET /api/session/:session_id/connection-status]. *)
Definition handleGetSessionConnectionStatus (env : Env) (texts : ErrorTexts)
    (sessionIDStr : string) : M HTTPResponse :=
  match uuid_Parse env sessionIDStr with
  | None =>
      ret {| http_status := 400;
             http_body := VMap (<["success" := VBool false]>
                               (<["message" := VStr "Invalid session ID"]>
                               (<["error" :=
                                   VStr (parse_error texts sessionIDStr)]> ∅)))
          |}
  | Some sessionID =>
      (* Get connection status from Redis *)
      r <- GetSessionUsers env sessionID;;
      match r with
      | None =>
          ret {| http_status := 500;
                 http_body :=
                   VMap (<["success" := VBool false]>
                        (<["message" :=
                            VStr "Failed to get connection status"]>
                        (<["error" := VStr (redis_error texts)]> ∅))) |}
      | Some status =>
          ret {| http_status := 200;
                 http_body :=
                   VMap (<["success" := VBool true]>
                        (<["message" :=
                            VStr "Connection status retrieved successfully"]>
                        (<["data" := status]> ∅))) |}
      end
  end.

(** ** Notions the further statements use *)

Definition has_user (userID : string) (conns : list WSConnection) : Prop :=
  Exists (λ c, UserID c = userID) conns.

(** The frame a write event carries, to which socket and with what
    outcome. *)
Definition written (e : Event) : option (nat * WebSocketResponse * bool) :=
  match e with
  | EvWriteJSON conn m ok => Some (conn, m, ok)
  | _ => None
  end.

(** A step of the presence store on one session. *)
Inductive PresenceOp : Type :=
| Join (userID userType : string)
| Leave (userID userType : string).

Definition presence_op (env : Env) (sessionID : string) (op : PresenceOp)
    : M bool :=
  match op with
  | Join userID userType => AddUserToSession env sessionID userID userType
  | Leave userID userType =>
      RemoveUserFromSession env sessionID userID userType
  end.

Fixpoint presence_ops (env : Env) (sessionID : string)
    (ops : list PresenceOp) : M unit :=
  match ops with
  | [] => ret tt
  | op :: rest =>
      presence_op env sessionID op;;; presence_ops env sessionID rest
  end.

(** The users present after the steps, when each of them is accepted. *)
Definition present_after (present : gset string) (ops : list PresenceOp)
    : gset string :=
  foldl (λ present op,
           match op with
           | Join userID _ => present ∪ {[userID]}
           | Leave userID _ => present ∖ {[userID]}
           end) present ops.

(** The frames that are broadcast to a session rather than sent to one
    socket. *)
Definition broadcast_type (ty : string) : Prop :=
  ty = "typing_indicator" ∨ ty = "connection_status_update".

(** What an event of a connection on socket [c] may be: a write to [c]
    itself, a write of a broadcast frame, and anything but closing. *)
Definition own_or_broadcast (c : nat) (e : Event) : Prop :=
  match e with
  | EvWriteJSON conn m _ => conn = c ∨ broadcast_type (resp_Type m)
  | EvClose _ => False
  | _ => True
  end.

(** Every field of the hash is an entry that decodes. *)
Definition all_decode (users : gmap string text) : Prop :=
  ∀ userID userJSON,
    users !! userID = Some userJSON → is_Some (json_Unmarshal_map userJSON).

(** What a handler does to the registry: nothing, or the pruning of a
    broadcast to the session. *)
Definition pruned_or_same (env : Env) (sessionID : string) (w w' : World)
    : Prop :=
  connections w' = connections w ∨
  connections w' =
    prune env sessionID (default [] (connections w !! sessionID))
      (connections w).

(** What an event publishes on the bus: topic, message, outcome. *)
Definition published (e : Event) : option (string * BusMessage * bool) :=
  match e with
  | EvKafka topic m ok => Some (topic, m, ok)
  | _ => None
  end.

(** The socket of the connection takes writes. *)
Definition healthy (env : Env) (c : WSConnection) : Prop :=
  write_fails env (Conn c) = false.

#[global] Instance healthy_dec (env : Env) (c : WSConnection)
  : Decision (healthy env c).
Proof. unfold healthy. apply _. Defined.

(** The user ids of the connections whose socket is broken. *)
Definition broken_users (env : Env) (conns : list WSConnection) : list string :=
  UserID <$> filter (λ c, ¬ healthy env c) conns.

(** * Properties *)

(** ** The monad *)

Lemma bind_run {A B} (m : M A) (k : A → M B) w :
  bind m k w =
  (result (k (result (m w)) (world (m w))),
   world (k (result (m w)) (world (m w))),
   events (m w) ++ events (k (result (m w)) (world (m w)))).
Proof.
  unfold bind, result, world, events.
  destruct (m w) as [[a w1] e1]; simpl.
  by destruct (k a w1) as [[b w2] e2].
Qed.

Lemma world_triple {A} (a : A) w e : world (a, w, e) = w.
Proof. reflexivity. Qed.

Lemma events_triple {A} (a : A) w e : events (a, w, e) = e.
Proof. reflexivity. Qed.

Lemma world_bind {A B} (m : M A) (k : A → M B) w :
  world (bind m k w) = world (k (result (m w)) (world (m w))).
Proof. by rewrite bind_run. Qed.

Lemma events_bind {A B} (m : M A) (k : A → M B) w :
  events (bind m k w) = events (m w) ++ events (k (result (m w)) (world (m w))).
Proof. by rewrite bind_run. Qed.

Lemma result_bind {A B} (m : M A) (k : A → M B) w :
  result (bind m k w) = result (k (result (m w)) (world (m w))).
Proof. by rewrite bind_run. Qed.

(** ** Registry *)

Lemma find_user_split userID conns i :
  find_user userID conns = Some i →
  ∃ before conn after,
    conns = before ++ conn :: after ∧ length before = i ∧
    UserID conn = userID ∧ Forall (λ x, UserID x ≠ userID) before.
Proof.
  revert i. induction conns as [|x rest IH]; intros i; simpl; [done|].
  case_bool_decide as Hx.
  - intros [= <-]. by exists [], x, rest.
  - destruct (find_user userID rest) as [j|] eqn:Hj; simpl; [|done].
    intros [= <-]. destruct (IH j eq_refl) as (l1 & c & l2 & -> & <- & Hc & Hl1).
    exists (x :: l1), c, l2. repeat split; auto.
Qed.

Lemma find_user_first userID before conn after :
  UserID conn = userID → Forall (λ x, UserID x ≠ userID) before →
  find_user userID (before ++ conn :: after) = Some (length before).
Proof.
  intros Hc. induction 1 as [|x l Hx _ IH]; simpl.
  - by rewrite bool_decide_eq_true_2.
  - rewrite bool_decide_eq_false_2 by done. by rewrite IH.
Qed.

Lemma find_user_absent userID conns :
  Forall (λ x, UserID x ≠ userID) conns → find_user userID conns = None.
Proof.
  induction 1 as [|x l Hx _ IH]; simpl; [done|].
  rewrite bool_decide_eq_false_2 by done. by rewrite IH.
Qed.

Lemma cut_middle {A} (before after : list A) x :
  cut (length before) (before ++ x :: after) = before ++ after.
Proof.
  unfold cut. induction before as [|y l IH]; simpl.
  - by rewrite drop_0.
  - by rewrite IH.
Qed.

Lemma registry_remove_found sessionID userID reg before conn after :
  reg !! sessionID = Some (before ++ conn :: after) →
  UserID conn = userID → Forall (λ x, UserID x ≠ userID) before →
  registry_remove sessionID userID reg =
  if bool_decide (before ++ after = []) then delete sessionID reg
  else <[sessionID := before ++ after]> reg.
Proof.
  intros Hs Hc Hb. unfold registry_remove. rewrite Hs.
  rewrite (find_user_first _ _ _ _ Hc Hb), cut_middle.
  rewrite lookup_insert_eq. simpl.
  destruct (before ++ after) as [|y l] eqn:E.
  - rewrite (bool_decide_eq_true_2 (length [] = 0%nat)) by done.
    rewrite (bool_decide_eq_true_2 ([] = [])) by done.
    by rewrite delete_insert_eq.
  - rewrite (bool_decide_eq_false_2 (length (y :: l) = 0%nat)) by done.
    by rewrite (bool_decide_eq_false_2 (y :: l = [])) by done.
Qed.

Lemma registry_remove_no_session sessionID userID reg :
  reg !! sessionID = None → registry_remove sessionID userID reg = reg.
Proof. intros Hs. unfold registry_remove. by rewrite Hs. Qed.

Lemma registry_remove_no_user sessionID userID reg conns :
  reg !! sessionID = Some conns → conns ≠ [] →
  Forall (λ x, UserID x ≠ userID) conns →
  registry_remove sessionID userID reg = reg.
Proof.
  intros Hs Hne Hall. unfold registry_remove.
  rewrite Hs, (find_user_absent _ _ Hall), Hs. simpl.
  rewrite bool_decide_eq_false_2; [done|]. by destruct conns.
Qed.

Lemma registry_add_no_empty sessionID conn reg :
  no_empty_session reg → no_empty_session (registry_add sessionID conn reg).
Proof.
  intros Hreg s conns. unfold registry_add.
  destruct (decide (s = sessionID)) as [->|Hne].
  - rewrite lookup_insert_eq. intros [= <-]. by destruct (default _ _).
  - rewrite lookup_insert_ne by done.
    destruct (reg !! sessionID); [|rewrite lookup_insert_ne by done]; apply Hreg.
Qed.

Lemma registry_remove_no_empty sessionID userID reg :
  no_empty_session reg → no_empty_session (registry_remove sessionID userID reg).
Proof.
  intros Hreg s conns. unfold registry_remove.
  destruct (reg !! sessionID) as [cs|] eqn:Hs; [|apply Hreg].
  set (reg1 := match find_user userID cs with
               | Some i => <[sessionID:=cut i cs]> reg | None => reg end).
  assert (Hother : ∀ s', s' ≠ sessionID → reg1 !! s' = reg !! s').
  { intros s' Hne. unfold reg1. destruct (find_user userID cs); [|done].
    by rewrite lookup_insert_ne. }
  case_bool_decide as Hlen.
  - destruct (decide (s = sessionID)) as [->|Hne].
    + by rewrite lookup_delete_eq.
    + rewrite lookup_delete_ne by done. rewrite Hother by done. apply Hreg.
  - destruct (decide (s = sessionID)) as [->|Hne].
    + intros Hl ->. rewrite Hl in Hlen. by apply Hlen.
    + rewrite Hother by done. apply Hreg.
Qed.

Lemma reachable_no_empty reg : reachable reg → no_empty_session reg.
Proof.
  induction 1 as [|s c reg _ IH|s u reg _ IH].
  - intros s conns. unfold NewWSManager. by rewrite lookup_empty.
  - by apply registry_add_no_empty.
  - by apply registry_remove_no_empty.
Qed.

Lemma removeConnection_run sessionID userID w :
  removeConnection sessionID userID w =
  (tt, set_connections (registry_remove sessionID userID) w,
   [EvRemoveConnection sessionID userID]).
Proof. reflexivity. Qed.

Lemma addConnection_run sessionID conn w :
  addConnection sessionID conn w =
  (tt, set_connections (registry_add sessionID conn) w,
   [EvAddConnection sessionID conn]).
Proof. reflexivity. Qed.

(** C6. [removeConnection] takes out exactly the first connection of the
    session whose user id is [userID]; when no connection is left the session
    key is deleted; and when the session key is absent, or no connection of
    the session carries [userID], the registry is left as it was.  Nothing
    else of the state changes and no error is reported (the function returns
    nothing). *)
Theorem removeConnection_first_match sessionID userID w :
  reachable (connections w) →
  let w' := world (removeConnection sessionID userID w) in
  (∀ before conn after,
      connections w !! sessionID = Some (before ++ conn :: after) →
      UserID conn = userID → Forall (λ x, UserID x ≠ userID) before →
      (before ++ after ≠ [] →
         connections w' = <[sessionID := before ++ after]> (connections w)) ∧
      (before ++ after = [] →
         connections w' = delete sessionID (connections w)
         ∧ connections w' !! sessionID = None)) ∧
  (connections w !! sessionID = None → w' = w) ∧
  (∀ conns, connections w !! sessionID = Some conns →
      Forall (λ x, UserID x ≠ userID) conns → w' = w) ∧
  session_users w' = session_users w ∧ typing_keys w' = typing_keys w.
Proof.
  intros Hreach w'. subst w'. rewrite removeConnection_run, world_triple.
  split; [|split; [|split; [|by split]]].
  - intros before conn after Hs Hconn Hbefore.
    cbn [connections set_connections].
    rewrite (registry_remove_found _ _ _ _ _ _ Hs Hconn Hbefore).
    split.
    + intros Hne. by rewrite bool_decide_eq_false_2.
    + intros Hnil. rewrite bool_decide_eq_true_2 by done.
      split; [done|apply lookup_delete_eq].
  - intros Hs. unfold set_connections.
    rewrite registry_remove_no_session by done. by destruct w.
  - intros conns Hs Hall. unfold set_connections.
    rewrite (registry_remove_no_user _ _ _ conns); [by destruct w|done| |done].
    by apply (reachable_no_empty _ Hreach sessionID).
Qed.

(** In [two_users], removing [cust1] leaves [agent1] alone in the session. *)
Lemma removeConnection_first_match_witness :
  reachable (connections two_users) ∧
  connections (world (removeConnection session1 "cust1" two_users)) =
  <[session1 := [agent1_conn]]> (connections two_users).
Proof.
  assert (reachable (connections two_users)) as Hreach
    by (repeat constructor).
  split; [exact Hreach|].
  destruct (removeConnection_first_match session1 "cust1" two_users Hreach)
    as [Hfirst _].
  apply (Hfirst [] cust1_conn [agent1_conn]);
    [reflexivity | reflexivity | constructor | discriminate].
Defined.

(** ** Presence store *)

Lemma role_of_presence_entry userID userType joinedAt :
  role_of (presence_entry userID userType joinedAt) = Some userType.
Proof. reflexivity. Qed.

Lemma count_users_fold (users : gmap string text) :
  map_fold count_user (∅, 0%nat, 0%nat) users =
  (omap json_Unmarshal_map users,
   entries_with_role "customer" users, entries_with_role "agent" users).
Proof.
  unfold entries_with_role.
  apply (map_fold_weak_ind (λ r m,
    r = (omap json_Unmarshal_map m, size (filter (has_role "customer") m),
         size (filter (has_role "agent") m)))).
  - by rewrite omap_empty, !map_filter_empty, map_size_empty.
  - intros i x m r Hi ->. unfold count_user.
    assert (Hf : ∀ role, filter (has_role role) m !! i = None).
    { intros role. by rewrite map_lookup_filter_None; left. }
    assert (Hskip : ∀ role, ¬ has_role role (i, x) →
              filter (has_role role) (<[i:=x]> m) = filter (has_role role) m).
    { intros role Hno. rewrite map_filter_insert_False by done.
      by rewrite delete_id. }
    assert (Htake : ∀ role, has_role role (i, x) →
              size (filter (has_role role) (<[i:=x]> m)) =
              S (size (filter (has_role role) m))).
    { intros role Hyes. rewrite map_filter_insert_True by done.
      by rewrite map_size_insert_None. }
    destruct (json_Unmarshal_map x) as [info|] eqn:Hx.
    + rewrite (omap_insert_Some _ _ _ _ info) by done.
      assert (Hrole : role_of x = Some (as_string (index info "user_type"))).
      { unfold role_of. by rewrite Hx. }
      assert (Hiff : ∀ role, has_role role (i, x) ↔
                as_string (index info "user_type") = role).
      { intros role. unfold has_role. cbn [snd]. rewrite Hrole.
        split; congruence. }
      case_bool_decide as Hc; [|case_bool_decide as Ha].
      * rewrite (Htake "customer") by (by apply Hiff).
        rewrite (Hskip "agent"); [done|]. rewrite Hiff, Hc. done.
      * rewrite (Htake "agent") by (by apply Hiff).
        rewrite (Hskip "customer"); [done|]. by rewrite Hiff.
      * rewrite !Hskip; [done| |]; by rewrite Hiff.
    + rewrite omap_insert_None by done.
      rewrite delete_id by (by rewrite lookup_omap, Hi).
      rewrite !Hskip; [done| |]; unfold has_role, role_of; simpl; by rewrite Hx.
Qed.

Lemma session_status_eq (users : gmap string text) :
  session_status users =
  VMap (<["users" := VMap (omap json_Unmarshal_map users)]>
       (<["customer_connected" :=
           VBool (bool_decide (0 < entries_with_role "customer" users)%nat)]>
       (<["agent_connected" :=
           VBool (bool_decide (0 < entries_with_role "agent" users)%nat)]>
       (<["total_customer" :=
           VNum (Z.of_nat (entries_with_role "customer" users))]>
       (<["total_agent" :=
           VNum (Z.of_nat (entries_with_role "agent" users))]> ∅))))).
Proof. unfold session_status. by rewrite count_users_fold. Qed.

Lemma status_fields_eq (users : gmap string text) :
  status_fields (session_status users) =
  Some (VMap (omap json_Unmarshal_map users),
        VBool (bool_decide (0 < entries_with_role "customer" users)%nat),
        VBool (bool_decide (0 < entries_with_role "agent" users)%nat),
        VNum (Z.of_nat (entries_with_role "customer" users)),
        VNum (Z.of_nat (entries_with_role "agent" users))).
Proof. rewrite session_status_eq. reflexivity. Qed.

Lemma GetSessionUsers_run env sessionID w :
  GetSessionUsers env sessionID w =
  (if redis_fails env (redis_n w) then None
   else Some (session_status (hash_of (session_users w) sessionID)),
   tick_redis w,
   [EvRedis (HGETALL sessionID) (negb (redis_fails env (redis_n w)))]).
Proof.
  unfold GetSessionUsers, bind, get, redis, ret; simpl.
  by destruct (redis_fails env (redis_n w)).
Qed.

Lemma AddUserToSession_run env sessionID userID userType w :
  AddUserToSession env sessionID userID userType w =
  let entry := presence_entry userID userType (clock w) in
  let ok := negb (redis_fails env (redis_n w)) in
  (ok,
   tick_redis (if ok then set_session_users (hset sessionID userID entry) w
               else w),
   [EvRedis (HSET sessionID userID entry) ok]).
Proof. reflexivity. Qed.

Lemma RemoveUserFromSession_run env sessionID userID userType w :
  RemoveUserFromSession env sessionID userID userType w =
  let ok := negb (redis_fails env (redis_n w)) in
  (ok,
   tick_redis (if ok then set_session_users (hdel sessionID userID) w else w),
   [EvRedis (HDEL sessionID userID) ok]).
Proof. reflexivity. Qed.

Lemma hash_of_hset db sessionID field v :
  hash_of (hset sessionID field v db) sessionID =
  <[field := v]> (hash_of db sessionID).
Proof. unfold hash_of at 1, hset. by rewrite lookup_insert_eq. Qed.

Lemma hash_of_hset_ne db sessionID other field v :
  sessionID ≠ other →
  hash_of (hset sessionID field v db) other = hash_of db other.
Proof. intros Hne. unfold hash_of, hset. by rewrite lookup_insert_ne. Qed.

Lemma hash_of_hdel db sessionID field :
  hash_of (hdel sessionID field db) sessionID =
  delete field (hash_of db sessionID).
Proof.
  unfold hash_of, hdel. destruct (db !! sessionID) as [h|] eqn:Hs; simpl.
  - case_decide as He.
    + by rewrite lookup_delete_eq, He.
    + by rewrite lookup_insert_eq.
  - by rewrite Hs, delete_empty.
Qed.

Lemma hash_of_hdel_ne db sessionID other field :
  sessionID ≠ other →
  hash_of (hdel sessionID field db) other = hash_of db other.
Proof.
  intros Hne. unfold hash_of, hdel. destruct (db !! sessionID) as [h|]; [|done].
  case_decide; by rewrite ?lookup_delete_ne, ?lookup_insert_ne by done.
Qed.

Lemma bool_decide_Some (a b : string) :
  bool_decide (Some a = Some b) = bool_decide (a = b).
Proof. apply bool_decide_ext. split; congruence. Qed.

Lemma entries_with_role_empty role : entries_with_role role ∅ = 0%nat.
Proof. unfold entries_with_role. by rewrite map_filter_empty, map_size_empty. Qed.

(** An entry counts once for its own role and not at all for the others. *)
Lemma entries_with_role_split role (users : gmap string text) userID entry :
  users !! userID = Some entry →
  entries_with_role role users =
  ((if bool_decide (role_of entry = Some role) then 1 else 0) +
   entries_with_role role (delete userID users))%nat.
Proof.
  intros Hu. unfold entries_with_role.
  rewrite <-(insert_delete_id users userID entry) at 1 by done.
  case_bool_decide as Hr.
  - rewrite map_filter_insert_True by done.
    rewrite map_size_insert_None; [done|].
    rewrite map_lookup_filter_None. left. apply lookup_delete_eq.
  - rewrite map_filter_insert_False by done. by rewrite delete_delete_eq.
Qed.

(** C7. When [HGetAll] answers, [GetSessionUsers] returns a status built
    from all the fields of the session's hash: its [users] map holds every
    field that decodes, under its user id; [total_customer] and [total_agent]
    are the numbers of entries whose role is ["customer"] and ["agent"];
    [customer_connected] and [agent_connected] are true exactly when the
    respective number is positive; and for a session without entries the
    status is the zeroed one and not an error. *)
Theorem GetSessionUsers_folds_entries env sessionID w :
  redis_fails env (redis_n w) = false →
  let users := hash_of (session_users w) sessionID in
  let customers := entries_with_role "customer" users in
  let agents := entries_with_role "agent" users in
  ∃ status usersMap customerConnected agentConnected,
    result (GetSessionUsers env sessionID w) = Some status ∧
    status_fields status =
      Some (VMap usersMap, VBool customerConnected, VBool agentConnected,
            VNum (Z.of_nat customers), VNum (Z.of_nat agents)) ∧
    (∀ userID userInfo,
        usersMap !! userID = Some userInfo ↔
        ∃ userJSON, users !! userID = Some userJSON ∧
                    json_Unmarshal_map userJSON = Some userInfo) ∧
    (customerConnected = true ↔ (0 < customers)%nat) ∧
    (agentConnected = true ↔ (0 < agents)%nat) ∧
    (users = ∅ →
       usersMap = ∅ ∧ customers = 0%nat ∧ agents = 0%nat ∧
       customerConnected = false ∧ agentConnected = false).
Proof.
  intros Hup users customers agents.
  exists (session_status users), (omap json_Unmarshal_map users),
    (bool_decide (0 < customers)%nat), (bool_decide (0 < agents)%nat).
  rewrite GetSessionUsers_run, Hup.
  split; [done|]. split; [apply status_fields_eq|].
  split.
  { intros u info. rewrite lookup_omap_Some.
    split; intros (x & ? & ?); by exists x. }
  split; [apply bool_decide_eq_true|]. split; [apply bool_decide_eq_true|].
  intros Hempty.
  assert (customers = 0%nat) as Hc
    by (subst customers; rewrite Hempty; apply entries_with_role_empty).
  assert (agents = 0%nat) as Ha
    by (subst agents; rewrite Hempty; apply entries_with_role_empty).
  rewrite Hempty, omap_empty, Hc, Ha. by repeat split.
Qed.

(** In [two_users] the status counts one customer and one agent. *)
Lemma GetSessionUsers_folds_entries_witness :
  redis_fails all_up (redis_n two_users) = false ∧
  ∃ status usersMap,
    result (GetSessionUsers all_up session1 two_users) = Some status ∧
    status_fields status =
      Some (VMap usersMap, VBool true, VBool true, VNum 1, VNum 1).
Proof.
  split; [reflexivity|].
  destruct (GetSessionUsers_folds_entries all_up session1 two_users eq_refl)
    as (status & usersMap & cc & ac & Hres & Hfields & _ & Hcc & Hac & _).
  exists status, usersMap. split; [exact Hres|].
  rewrite Hfields.
  assert (cc = true) as -> by (apply Hcc; vm_compute; lia).
  assert (ac = true) as -> by (apply Hac; vm_compute; lia).
  vm_compute. reflexivity.
Defined.

(** C10. A user whose role is neither ["customer"] nor ["agent"] is listed
    in the [users] map of the status but adds to neither [total_customer]
    nor [total_agent]: both totals are those of the other entries.  So when
    the other entries hold no customer and no agent, the [users] map is not
    empty while [customer_connected] and [agent_connected] are both false. *)
Theorem other_role_listed_not_counted env sessionID w userID userJSON userInfo :
  redis_fails env (redis_n w) = false →
  let users := hash_of (session_users w) sessionID in
  users !! userID = Some userJSON →
  json_Unmarshal_map userJSON = Some userInfo →
  as_string (index userInfo "user_type") ≠ "customer" →
  as_string (index userInfo "user_type") ≠ "agent" →
  ∃ status usersMap customerConnected agentConnected,
    result (GetSessionUsers env sessionID w) = Some status ∧
    status_fields status =
      Some (VMap usersMap, VBool customerConnected, VBool agentConnected,
            VNum (Z.of_nat (entries_with_role "customer" (delete userID users))),
            VNum (Z.of_nat (entries_with_role "agent" (delete userID users)))) ∧
    usersMap !! userID = Some userInfo ∧
    (entries_with_role "customer" (delete userID users) = 0%nat →
     entries_with_role "agent" (delete userID users) = 0%nat →
     usersMap ≠ ∅ ∧ customerConnected = false ∧ agentConnected = false).
Proof.
  intros Hup users Hu Hdec Hnc Hna.
  assert (Hrole : role_of userJSON = Some (as_string (index userInfo "user_type")))
    by (unfold role_of; by rewrite Hdec).
  assert (Hc : entries_with_role "customer" users =
               entries_with_role "customer" (delete userID users)).
  { rewrite (entries_with_role_split _ _ _ _ Hu).
    rewrite bool_decide_eq_false_2; [done|]. rewrite Hrole. congruence. }
  assert (Ha : entries_with_role "agent" users =
               entries_with_role "agent" (delete userID users)).
  { rewrite (entries_with_role_split _ _ _ _ Hu).
    rewrite bool_decide_eq_false_2; [done|]. rewrite Hrole. congruence. }
  exists (session_status users), (omap json_Unmarshal_map users),
    (bool_decide (0 < entries_with_role "customer" users)%nat),
    (bool_decide (0 < entries_with_role "agent" users)%nat).
  rewrite GetSessionUsers_run, Hup.
  split; [done|]. split; [by rewrite status_fields_eq, Hc, Ha|].
  assert (Hin : omap json_Unmarshal_map users !! userID = Some userInfo).
  { rewrite lookup_omap_Some. by exists userJSON. }
  split; [exact Hin|].
  intros Hc0 Ha0. rewrite Hc, Ha, Hc0, Ha0. split; [|by split].
  intros Hempty. by rewrite Hempty, lookup_empty in Hin.
Qed.

(** In [admin_only] the status lists the admin and both flags are false. *)
Lemma other_role_listed_not_counted_witness :
  ∃ status usersMap,
    result (GetSessionUsers all_up session1 admin_only) = Some status ∧
    status_fields status =
      Some (VMap usersMap, VBool false, VBool false, VNum 0, VNum 0) ∧
    usersMap ≠ ∅.
Proof.
  destruct (other_role_listed_not_counted all_up session1 admin_only "admin1"
              (presence_entry "admin1" "admin" 0)
              (VMap (<["user_id" := VStr "admin1"]>
                    (<["user_type" := VStr "admin"]>
                    (<["joined_at" := VTime 0]> ∅))))
              eq_refl eq_refl eq_refl ltac:(discriminate) ltac:(discriminate))
    as (status & usersMap & cc & ac & Hres & Hfields & _ & Hflags).
  destruct Hflags as (Hne & -> & ->); [reflexivity | reflexivity |].
  exists status, usersMap. split; [exact Hres|]. split; [exact Hfields|exact Hne].
Defined.

(** ** Joining *)

Lemma apply_joins_other now users joins userID :
  userID ∉ joins.*1.*2 → apply_joins now users joins !! userID = users !! userID.
Proof.
  revert now users. induction joins as [|[[d u] r] rest IH]; intros now users;
    simpl; [done|].
  rewrite not_elem_of_cons. intros [Hne Hrest].
  rewrite IH by done. by rewrite lookup_insert_ne.
Qed.

Lemma last_role_other userID joins acc :
  userID ∉ joins.*1.*2 →
  foldl (λ acc (j : Z * string * string),
           if bool_decide (j.1.2 = userID) then Some j.2 else acc) acc joins
  = acc.
Proof.
  revert acc. induction joins as [|[[d u] r] rest IH]; intros acc; simpl; [done|].
  rewrite not_elem_of_cons. intros [Hne Hrest].
  rewrite IH by done. by rewrite bool_decide_eq_false_2.
Qed.

Lemma last_role_acc userID joins acc :
  userID ∈ joins.*1.*2 →
  foldl (λ acc (j : Z * string * string),
           if bool_decide (j.1.2 = userID) then Some j.2 else acc) acc joins
  = last_role userID joins.
Proof.
  unfold last_role. generalize (@None string).
  revert acc. induction joins as [|[[d u] r] rest IH]; intros acc acc'; simpl.
  - by rewrite elem_of_nil.
  - intros Hin. destruct (decide (userID ∈ rest.*1.*2)) as [Hrest|Hrest].
    + by apply IH.
    + rewrite !last_role_other by done.
      apply elem_of_cons in Hin as [->|?]; [|done].
      by rewrite !bool_decide_eq_true_2.
Qed.

(** After a sequence of joins the entry of a joined user is the one of its
    last join. *)
Lemma apply_joins_last now users joins userID :
  userID ∈ joins.*1.*2 →
  ∃ userType joinedAt,
    last_role userID joins = Some userType ∧
    apply_joins now users joins !! userID =
    Some (presence_entry userID userType joinedAt).
Proof.
  revert now users. induction joins as [|[[d u] r] rest IH]; intros now users;
    simpl.
  - by rewrite elem_of_nil.
  - intros Hin. destruct (decide (userID ∈ rest.*1.*2)) as [Hrest|Hrest].
    + destruct (IH (now + d)%Z
                  (<[u := presence_entry u r (now + d)]> users) Hrest)
        as (ty & t & Hlast & Hl).
      exists ty, t. split; [|done].
      unfold last_role; simpl. rewrite last_role_acc by done. exact Hlast.
    + apply elem_of_cons in Hin as [->|?]; [|done].
      exists r, (now + d)%Z. split.
      * unfold last_role; simpl. rewrite last_role_other by done.
        by rewrite bool_decide_eq_true_2.
      * rewrite apply_joins_other by done. by rewrite lookup_insert_eq.
Qed.

Lemma apply_joins_dom now users joins :
  dom (apply_joins now users joins) = dom users ∪ list_to_set joins.*1.*2.
Proof.
  revert now users. induction joins as [|[[d u] r] rest IH]; intros now users;
    simpl.
  - set_solver.
  - rewrite IH, dom_insert_L. set_solver.
Qed.

Lemma world_AddUserToSession env sessionID userID userType w :
  redis_fails env (redis_n w) = false →
  world (AddUserToSession env sessionID userID userType w) =
  tick_redis (set_session_users
    (hset sessionID userID (presence_entry userID userType (clock w))) w).
Proof. intros Hup. rewrite AddUserToSession_run. unfold world; simpl. by rewrite Hup. Qed.

Lemma join_all_run env sessionID joins w :
  (∀ i, (i < length joins)%nat → redis_fails env (redis_n w + i) = false) →
  let w' := world (join_all env sessionID joins w) in
  hash_of (session_users w') sessionID =
    apply_joins (clock w) (hash_of (session_users w) sessionID) joins ∧
  redis_n w' = (redis_n w + length joins)%nat ∧
  connections w' = connections w.
Proof.
  revert w. induction joins as [|[[d u] r] rest IH]; intros w Hup.
  - unfold world; simpl. by rewrite Nat.add_0_r.
  - cbn [join_all apply_joins length]. cbv zeta. rewrite !world_bind.
    change (world (modify (elapse d) w)) with (elapse d w).
    rewrite world_AddUserToSession.
    2:{ cbn [redis_n elapse]. rewrite <-(Nat.add_0_r (redis_n w)).
        apply Hup. simpl. lia. }
    match goal with |- context [join_all env sessionID rest ?w1] =>
      destruct (IH w1) as (Hh & Hn & Hc) end.
    { intros i Hi. cbn [redis_n tick_redis set_session_users elapse].
      replace (S (redis_n w) + i)%nat with (redis_n w + S i)%nat by lia.
      apply Hup. simpl. lia. }
    rewrite Hh, Hn, Hc.
    cbn [redis_n clock session_users connections tick_redis set_session_users
         elapse].
    rewrite hash_of_hset. split; [done|]. split; [lia|done].
Qed.

(** C8. After any sequence of [AddUserToSession] calls the store accepts,
    the users of the session are those it had together with those that
    joined, whatever the number of times each joined; the hash holds for a
    joined user the single entry of its last join; and the status read next
    lists that user under its id and counts it once: once in the total of
    its role and not in the other total. *)
Theorem joins_keep_one_entry_per_user env sessionID joins w :
  (∀ i, (i < length joins)%nat → redis_fails env (redis_n w + i) = false) →
  redis_fails env (redis_n w + length joins) = false →
  let w' := world (join_all env sessionID joins w) in
  let users' := hash_of (session_users w') sessionID in
  dom users' =
    dom (hash_of (session_users w) sessionID) ∪ list_to_set joins.*1.*2 ∧
  ∀ userID, userID ∈ joins.*1.*2 →
    ∃ userType joinedAt status usersMap customerConnected agentConnected,
      last_role userID joins = Some userType ∧
      users' !! userID = Some (presence_entry userID userType joinedAt) ∧
      result (GetSessionUsers env sessionID w') = Some status ∧
      status_fields status =
        Some (VMap usersMap, VBool customerConnected, VBool agentConnected,
              VNum (Z.of_nat (entries_with_role "customer" users')),
              VNum (Z.of_nat (entries_with_role "agent" users'))) ∧
      is_Some (usersMap !! userID) ∧
      entries_with_role "customer" users' =
        ((if bool_decide (userType = "customer") then 1 else 0) +
         entries_with_role "customer" (delete userID users'))%nat ∧
      entries_with_role "agent" users' =
        ((if bool_decide (userType = "agent") then 1 else 0) +
         entries_with_role "agent" (delete userID users'))%nat.
Proof.
  intros Hup Hread w' users'.
  destruct (join_all_run env sessionID joins w Hup) as (Hh & Hn & _).
  fold w' in Hh, Hn. fold users' in Hh.
  split; [by rewrite Hh, apply_joins_dom|].
  intros userID Hin.
  destruct (apply_joins_last (clock w) (hash_of (session_users w) sessionID)
              joins userID Hin) as (ty & t & Hlast & Hentry).
  rewrite <-Hh in Hentry.
  exists ty, t, (session_status users'), (omap json_Unmarshal_map users'),
    (bool_decide (0 < entries_with_role "customer" users')%nat),
    (bool_decide (0 < entries_with_role "agent" users')%nat).
  split; [done|]. split; [done|].
  rewrite GetSessionUsers_run, Hn, Hread.
  split; [done|]. split; [apply status_fields_eq|].
  split. { rewrite lookup_omap, Hentry. by eexists. }
  rewrite !(entries_with_role_split _ _ _ _ Hentry), !role_of_presence_entry.
  by rewrite !bool_decide_Some.
Qed.

(** [cust1] joins twice: one customer is counted. *)
Lemma joins_keep_one_entry_per_user_witness :
  let joins := [(0%Z, "cust1", "customer"); (3%Z, "cust1", "customer")] in
  let w' := world (join_all all_up session1 joins start) in
  (∀ i, (i < length joins)%nat → redis_fails all_up (redis_n start + i) = false) ∧
  redis_fails all_up (redis_n start + length joins) = false ∧
  entries_with_role "customer" (hash_of (session_users w') session1) = 1%nat ∧
  entries_with_role "agent" (hash_of (session_users w') session1) = 0%nat.
Proof.
  intros joins w'.
  assert (Hup : ∀ i, (i < length joins)%nat →
                     redis_fails all_up (redis_n start + i) = false)
    by (intros i _; reflexivity).
  split; [exact Hup|]. split; [reflexivity|].
  destruct (joins_keep_one_entry_per_user all_up session1 joins start Hup eq_refl)
    as [_ Hone].
  destruct (Hone "cust1") as (ty & t & st & um & cc & ac & Hlast & _ & _ & _ & _
                              & Hc & Ha).
  { vm_compute. apply list_elem_of_here. }
  injection Hlast as <-.
  fold w' in Hc, Ha. rewrite Hc, Ha. split; vm_compute; reflexivity.
Defined.

(** ** Broadcast *)

Lemma set_connections_id w : set_connections (λ reg, reg) w = w.
Proof. by destruct w. Qed.

Lemma deliver_run env sessionID message c w :
  deliver env sessionID message c w =
  (tt,
   set_connections (λ reg, if write_fails env (Conn c)
                           then registry_remove sessionID (UserID c) reg
                           else reg) w,
   delivery_events env sessionID message c).
Proof.
  unfold deliver, delivery_events, safeWriteJSON, safeWriteToConn, bind, emit,
    ret; simpl.
  destruct (write_fails env (Conn c)); simpl.
  - reflexivity.
  - by rewrite set_connections_id.
Qed.

Lemma deliver_all_run env sessionID message conns w :
  deliver_all env sessionID message conns w =
  (tt, set_connections (prune env sessionID conns) w,
   broadcast_events env sessionID message conns).
Proof.
  revert w. induction conns as [|c rest IH]; intros w; simpl.
  - unfold ret. by rewrite set_connections_id.
  - unfold bind. rewrite deliver_run, IH. reflexivity.
Qed.

Lemma broadcastToSession_run env sessionID message w :
  broadcastToSession env sessionID message w =
  let conns := default [] (connections w !! sessionID) in
  (tt, set_connections (prune env sessionID conns) w,
   broadcast_events env sessionID message conns).
Proof.
  unfold broadcastToSession, bind, get. by rewrite deliver_all_run.
Qed.

(** Every connection of the copied slice is written to once, whatever
    happens to the others. *)
Lemma broadcast_events_write env sessionID message conns c :
  c ∈ conns →
  EvWriteJSON (Conn c) message (negb (write_fails env (Conn c)))
    ∈ broadcast_events env sessionID message conns.
Proof.
  intros Hc. unfold broadcast_events. apply list_elem_of_In, in_flat_map.
  exists c. split; [by apply list_elem_of_In|].
  unfold delivery_events. destruct (write_fails env (Conn c)); simpl; auto.
Qed.

(** The only frames a broadcast writes are the message, to connections of
    the slice. *)
Lemma broadcast_events_only env sessionID message conns conn m ok :
  EvWriteJSON conn m ok ∈ broadcast_events env sessionID message conns →
  m = message ∧ ∃ c, c ∈ conns ∧ Conn c = conn ∧ ok = negb (write_fails env conn).
Proof.
  unfold broadcast_events. rewrite list_elem_of_In, in_flat_map.
  intros (c & Hc & Hin). apply list_elem_of_In in Hc.
  unfold delivery_events in Hin.
  destruct (write_fails env (Conn c)) eqn:Hf; simpl in Hin.
  - destruct Hin as [[= <- <- <-]|[?|[]]]; [|done].
    split; [done|]. exists c. by rewrite Hf.
  - destruct Hin as [[= <- <- <-]|[]].
    split; [done|]. exists c. by rewrite Hf.
Qed.

(** *** The order of the deliveries does not matter *)

Lemma remove_first_cons userID x l :
  remove_first userID (x :: l) =
  if bool_decide (UserID x = userID) then l else x :: remove_first userID l.
Proof.
  unfold remove_first; simpl. case_bool_decide; [reflexivity|].
  by destruct (find_user userID l).
Qed.

Lemma remove_first_comm u v l :
  remove_first u (remove_first v l) = remove_first v (remove_first u l).
Proof.
  induction l as [|x l IH]; [done|].
  rewrite !remove_first_cons.
  destruct (bool_decide (UserID x = v)) eqn:Hv,
           (bool_decide (UserID x = u)) eqn:Hu;
    rewrite ?remove_first_cons, ?Hu, ?Hv; try done.
  - apply bool_decide_eq_true in Hv, Hu. by rewrite <-Hv, <-Hu.
  - by rewrite IH.
Qed.

Lemma registry_remove_alt sessionID userID reg :
  registry_remove sessionID userID reg =
  match reg !! sessionID with
  | Some conns =>
      if bool_decide (length (remove_first userID conns) = 0%nat)
      then delete sessionID reg
      else <[sessionID := remove_first userID conns]> reg
  | None => reg
  end.
Proof.
  unfold registry_remove, remove_first.
  destruct (reg !! sessionID) as [conns|] eqn:Hs; [|done].
  destruct (find_user userID conns) as [i|].
  - rewrite lookup_insert_eq; simpl. case_bool_decide; [|done].
    by rewrite delete_insert_eq.
  - rewrite Hs; simpl. case_bool_decide; [done|]. by rewrite insert_id.
Qed.

Lemma registry_remove_comm sessionID u v reg :
  registry_remove sessionID u (registry_remove sessionID v reg) =
  registry_remove sessionID v (registry_remove sessionID u reg).
Proof.
  assert (Hstep : ∀ a b conns, reg !! sessionID = Some conns →
    registry_remove sessionID a (registry_remove sessionID b reg) =
    if bool_decide (length (remove_first a (remove_first b conns)) = 0%nat)
    then delete sessionID reg
    else <[sessionID := remove_first a (remove_first b conns)]> reg).
  { intros a b conns Hs. rewrite (registry_remove_alt _ b), Hs.
    case_bool_decide as Hb.
    - rewrite registry_remove_alt, lookup_delete_eq.
      apply nil_length_inv in Hb. rewrite Hb.
      by rewrite bool_decide_eq_true_2.
    - rewrite registry_remove_alt, lookup_insert_eq.
      case_bool_decide; [by rewrite delete_insert_eq|].
      by rewrite insert_insert_eq. }
  destruct (reg !! sessionID) as [conns|] eqn:Hs.
  - rewrite (Hstep u v conns), (Hstep v u conns) by done.
    by rewrite remove_first_comm.
  - by rewrite !(registry_remove_no_session _ _ reg).
Qed.

Lemma prune_any_order env sessionID order order' reg :
  order ≡ₚ order' →
  prune env sessionID order reg = prune env sessionID order' reg.
Proof.
  intros Hperm. revert reg.
  induction Hperm as [|x l l' _ IH|x y l|l l' l'' _ IH1 _ IH2]; intros reg.
  - done.
  - unfold prune; simpl. apply IH.
  - unfold prune; simpl. f_equal.
    destruct (write_fails env (Conn x)), (write_fails env (Conn y)); try done.
    apply registry_remove_comm.
  - by rewrite IH1, IH2.
Qed.

Lemma broadcast_events_any_order env sessionID message order order' :
  order ≡ₚ order' →
  broadcast_events env sessionID message order ≡ₚ
  broadcast_events env sessionID message order'.
Proof. intros Hperm. unfold broadcast_events. by apply Permutation_flat_map. Qed.

Lemma prune_healthy env sessionID conns reg :
  Forall (λ c, write_fails env (Conn c) = false) conns →
  prune env sessionID conns reg = reg.
Proof.
  induction 1 as [|c l Hc _ IH]; [done|].
  unfold prune; simpl. by rewrite Hc.
Qed.

Lemma prune_app env sessionID conns conns' reg :
  prune env sessionID (conns ++ conns') reg =
  prune env sessionID conns' (prune env sessionID conns reg).
Proof. unfold prune. by rewrite foldl_app. Qed.

(** When the only connection whose write fails is the first one of its user
    id in the session, the broadcast prunes that very connection. *)
Lemma broadcast_prunes_sole_failure env sessionID message w before a after :
  connections w !! sessionID = Some (before ++ a :: after) →
  write_fails env (Conn a) = true →
  Forall (λ c, write_fails env (Conn c) = false) (before ++ after) →
  Forall (λ c, UserID c ≠ UserID a) before →
  connections (world (broadcastToSession env sessionID message w)) =
  if bool_decide (before ++ after = []) then delete sessionID (connections w)
  else <[sessionID := before ++ after]> (connections w).
Proof.
  intros Hs Ha Hothers Hfirst.
  apply Forall_app in Hothers as [Hb Haft].
  rewrite broadcastToSession_run. cbv zeta. rewrite world_triple, Hs.
  cbn [connections set_connections default]. unfold id.
  rewrite prune_app, (prune_healthy _ _ before) by done.
  change (prune env sessionID (a :: after) (connections w)) with
    (prune env sessionID after
       (if write_fails env (Conn a)
        then registry_remove sessionID (UserID a) (connections w)
        else connections w)).
  rewrite Ha, (prune_healthy _ _ after) by done.
  by apply (registry_remove_found _ _ _ before a after).
Qed.

(** C3, on the code: user [u1] has two connections in the session, B
    (socket 2, registered first) and A (socket 1, broken).  A broadcast
    writes the message to B, fails on A, and then removes the first
    connection that carries A's user id: B goes and the broken A stays
    registered.  The outcome is the same when A's delivery runs first. *)
Theorem broadcast_prunes_first_of_user (message : WebSocketResponse) :
  let r := broadcastToSession socket1_down session1 message two_tabs in
  connections two_tabs !! session1 = Some [tab_b; tab_a] ∧
  events r = [EvWriteJSON 2 message true; EvWriteJSON 1 message false;
              EvRemoveConnection session1 "u1"] ∧
  connections (world r) !! session1 = Some [tab_a] ∧
  connections (world (deliver_all socket1_down session1 message [tab_a; tab_b]
                        two_tabs)) !! session1 = Some [tab_a].
Proof.
  cbv zeta. rewrite broadcastToSession_run, deliver_all_run.
  repeat split; vm_compute; reflexivity.
Qed.

(** ** Handlers, step by step *)

Lemma bind_assoc {A B C} (m : M A) (k : A → M B) (j : B → M C) w :
  bind (bind m k) j w = bind m (λ a, bind (k a) j) w.
Proof.
  unfold bind. destruct (m w) as [[a w1] e1].
  destruct (k a w1) as [[b w2] e2]. destruct (j b w2) as [[c w3] e3].
  by rewrite app_assoc.
Qed.

Lemma bind_cong {A B} (m : M A) (k k' : A → M B) w :
  (∀ a w', k a w' = k' a w') → bind m k w = bind m k' w.
Proof.
  intros Hk. unfold bind. destruct (m w) as [[a w1] e1]. by rewrite Hk.
Qed.

Lemma handleTypingIndicator_run env sessionID userID userType isTyping w :
  handleTypingIndicator env sessionID userID userType isTyping w =
  let ok := negb (redis_fails env (redis_n w)) in
  let w1 := tick_redis
    (if ok then
       set_typing_keys
         (if isTyping then <[(sessionID, userID) := (clock w + 30)%Z]>
          else delete (sessionID, userID)) w
     else w) in
  let conns := default [] (connections w !! sessionID) in
  (tt,
   after_kafka env sessionID (set_connections (prune env sessionID conns) w1),
   EvRedis (if isTyping then SETEX sessionID userID 30
            else DEL sessionID userID) ok ::
   broadcast_events env sessionID
     (typing_indicator sessionID userID userType isTyping (clock w)) conns ++
   kafka_events env sessionID
     (λ id, TypingMessage "typing_indicator" id userID userType isTyping
              (clock w)) w).
Proof.
  unfold handleTypingIndicator, kafka_events, after_kafka.
  unfold bind at 1.
  assert (SetUserTyping env sessionID userID isTyping w =
          (negb (redis_fails env (redis_n w)),
           tick_redis
             (if negb (redis_fails env (redis_n w)) then
                set_typing_keys
                  (if isTyping then <[(sessionID, userID) := (clock w + 30)%Z]>
                   else delete (sessionID, userID)) w
              else w),
           [EvRedis (if isTyping then SETEX sessionID userID 30
                     else DEL sessionID userID)
              (negb (redis_fails env (redis_n w)))])) as ->.
  { unfold SetUserTyping. by destruct isTyping. }
  unfold bind, time_Now, get. rewrite broadcastToSession_run.
  destruct (redis_fails env (redis_n w)), (uuid_Parse env sessionID);
    simpl; by rewrite ?app_nil_r.
Qed.

Lemma broadcastConnectionStatusWithContext_run env sessionID eventType
    eventUserID w :
  broadcastConnectionStatusWithContext env sessionID eventType eventUserID w =
  let status := session_status (hash_of (session_users w) sessionID) in
  let conns := default [] (connections w !! sessionID) in
  if redis_fails env (redis_n w) then
    (tt, tick_redis w, [EvRedis (HGETALL sessionID) false])
  else
    (tt,
     after_kafka env sessionID
       (set_connections (prune env sessionID conns) (tick_redis w)),
     EvRedis (HGETALL sessionID) true ::
     broadcast_events env sessionID
       (connection_status_update sessionID status (clock w) eventType
          eventUserID) conns ++
     kafka_events env sessionID
       (λ id, ConnectionStatusMessage "connection_status" id status (clock w))
       w).
Proof.
  unfold broadcastConnectionStatusWithContext, kafka_events, after_kafka.
  unfold bind at 1. rewrite GetSessionUsers_run.
  destruct (redis_fails env (redis_n w)); [reflexivity|].
  unfold bind, time_Now, get. rewrite broadcastToSession_run.
  destruct (uuid_Parse env sessionID); simpl; by rewrite ?app_nil_r.
Qed.

(** The state and the events of the deferred calls, from the state [w] in
    which the read loop ended. *)
Lemma closing_run env c sessionID userID userType w :
  closing env c sessionID userID userType w =
  let left := negb (redis_fails env (redis_n w)) in
  let w1 := tick_redis
    (if left then set_session_users (hdel sessionID userID) w else w) in
  let w2 := set_connections (registry_remove sessionID userID) w1 in
  (tt,
   world (broadcastConnectionStatusWithContext env sessionID
            "user_disconnected" userID w2),
   EvRedis (HDEL sessionID userID) left ::
   EvRemoveConnection sessionID userID ::
   events (broadcastConnectionStatusWithContext env sessionID
             "user_disconnected" userID w2) ++
   [EvClose c]).
Proof.
  unfold closing, run_defers, run_deferred.
  unfold bind at 1. unfold bind at 1. rewrite RemoveUserFromSession_run.
  cbv zeta. unfold ret at 1. unfold bind at 1. unfold bind at 1.
  rewrite removeConnection_run.
  destruct (broadcastConnectionStatusWithContext env sessionID
              "user_disconnected" userID _) as [[[] w3] e3] eqn:E.
  unfold bind, emit, ret, world, events; simpl.
  by rewrite ?app_nil_r, <-?app_assoc.
Qed.

Lemma HandleConnection_phases env c sessionID userID userType inbox w :
  is_Some (uuid_Parse env sessionID) →
  HandleConnection env c sessionID userID userType inbox w =
  bind (serve env c sessionID userID userType inbox)
    (λ _, closing env c sessionID userID userType) w.
Proof.
  intros [id Hid]. unfold HandleConnection, serve, closing. rewrite Hid.
  symmetry. repeat (rewrite bind_assoc; apply bind_cong; intros ? ?).
  reflexivity.
Qed.

(** ** Closing *)

Lemma broadcast_events_no_redis env sessionID message conns :
  Forall (λ e, match e with EvRedis _ _ => False | _ => True end)
    (broadcast_events env sessionID message conns).
Proof.
  unfold broadcast_events. induction conns as [|c rest IH]; simpl; [done|].
  apply Forall_app. split; [|done].
  unfold delivery_events. destruct (write_fails env (Conn c));
    repeat constructor.
Qed.

Lemma kafka_events_no_redis env sessionID mk w :
  Forall (λ e, match e with EvRedis _ _ => False | _ => True end)
    (kafka_events env sessionID mk w).
Proof.
  unfold kafka_events. destruct (uuid_Parse env sessionID); repeat constructor.
Qed.

Lemma filter_no_redis (p : Event → bool) (l : list Event) :
  (∀ e, p e = true → match e with EvRedis _ _ => True | _ => False end) →
  Forall (λ e, match e with EvRedis _ _ => False | _ => True end) l →
  List.filter p l = [].
Proof.
  intros Hp. induction 1 as [|e l He _ IH]; simpl; [done|].
  destruct (p e) eqn:Hpe; [|done].
  apply Hp in Hpe. by destruct e.
Qed.

Lemma closing_events env c sessionID userID userType w0 :
  let left := negb (redis_fails env (redis_n w0)) in
  let w1 := tick_redis
    (if left then set_session_users (hdel sessionID userID) w0 else w0) in
  let w2 := set_connections (registry_remove sessionID userID) w1 in
  let status := session_status (hash_of (session_users w2) sessionID) in
  let conns := default [] (connections w2 !! sessionID) in
  let read := negb (redis_fails env (redis_n w2)) in
  events (closing env c sessionID userID userType w0) =
    [EvRedis (HDEL sessionID userID) left;
     EvRemoveConnection sessionID userID;
     EvRedis (HGETALL sessionID) read] ++
    (if read then
       broadcast_events env sessionID
         (connection_status_update sessionID status (clock w0)
            "user_disconnected" userID) conns ++
       kafka_events env sessionID
         (λ id, ConnectionStatusMessage "connection_status" id status (clock w0))
         w2
     else []) ++
    [EvClose c].
Proof.
  intros left w1 w2 status conns read.
  rewrite closing_run. cbv zeta. fold left w1 w2.
  unfold events at 1. cbn [snd].
  rewrite broadcastConnectionStatusWithContext_run. cbv zeta.
  fold status conns. subst read.
  assert (clock w2 = clock w0) as ->
    by (subst w2 w1; by destruct left).
  destruct (redis_fails env (redis_n w2)); reflexivity.
Qed.

Lemma HandleConnection_events env c sessionID userID userType inbox w :
  is_Some (uuid_Parse env sessionID) →
  events (HandleConnection env c sessionID userID userType inbox w) =
    events (serve env c sessionID userID userType inbox w) ++
    events (closing env c sessionID userID userType
              (world (serve env c sessionID userID userType inbox w))).
Proof.
  intros Hid. by rewrite (HandleConnection_phases _ _ _ _ _ _ _ Hid), events_bind.
Qed.

(** C2, as the code has it.  When a served connection ends, the deferred
    calls run once, after everything the connection did before, and in this
    order: first the removal from the presence store
    ([RemoveUserFromSession], one [HDEL]), second the removal from the
    registry ([removeConnection]), third the read of the status (one
    [HGETALL]) and, when the store returned it, the broadcast of the
    [connection_status_update] with event type [user_disconnected] and the
    id of the user, to the connections still registered, followed by the
    publication on the bus; closing the socket comes last.  No frame is
    written before the status is read. *)
Theorem closing_steps_in_order env c sessionID userID userType inbox w :
  is_Some (uuid_Parse env sessionID) →
  let w0 := world (serve env c sessionID userID userType inbox w) in
  let left := negb (redis_fails env (redis_n w0)) in
  let w1 := tick_redis
    (if left then set_session_users (hdel sessionID userID) w0 else w0) in
  let w2 := set_connections (registry_remove sessionID userID) w1 in
  let status := session_status (hash_of (session_users w2) sessionID) in
  let conns := default [] (connections w2 !! sessionID) in
  let read := negb (redis_fails env (redis_n w2)) in
  let after_read :=
    if read then
      broadcast_events env sessionID
        (connection_status_update sessionID status (clock w0)
           "user_disconnected" userID) conns ++
      kafka_events env sessionID
        (λ id, ConnectionStatusMessage "connection_status" id status (clock w0))
        w2
    else [] in
  let steps :=
    [EvRedis (HDEL sessionID userID) left;
     EvRemoveConnection sessionID userID;
     EvRedis (HGETALL sessionID) read] ++ after_read ++ [EvClose c] in
  events (HandleConnection env c sessionID userID userType inbox w) =
    events (serve env c sessionID userID userType inbox w) ++ steps ∧
  position (is_presence_leave sessionID userID) steps = Some 0%nat ∧
  position (is_registry_remove sessionID userID) steps = Some 1%nat ∧
  position (is_status_read sessionID) steps = Some 2%nat ∧
  (∀ i, position is_write steps = Some i → (2 < i)%nat) ∧
  length (List.filter (is_presence_leave sessionID userID) steps) = 1%nat ∧
  length (List.filter (is_status_read sessionID) steps) = 1%nat.
Proof.
  intros Hid w0 left w1 w2 status conns read after_read steps.
  split.
  { rewrite (HandleConnection_events _ _ _ _ _ _ _ Hid). f_equal.
    apply closing_events. }
  subst steps.
  assert (Hself : ∀ s u : string, bool_decide (s = s ∧ u = u) = true)
    by (intros; by apply bool_decide_eq_true_2).
  assert (Hs : bool_decide (sessionID = sessionID) = true)
    by (by apply bool_decide_eq_true_2).
  split; [by simpl; rewrite Hself|].
  split; [by simpl; rewrite Hself|].
  split; [by simpl; rewrite Hs|].
  split.
  { simpl. destruct (position is_write _) as [k|]; simpl; [|done].
    intros i [= <-]. lia. }
  assert (Hrest : Forall (λ e, match e with EvRedis _ _ => False | _ => True end)
                    (after_read ++ [EvClose c])).
  { apply Forall_app. split; [|repeat constructor].
    subst after_read. destruct read; [|constructor].
    apply Forall_app. split;
      [apply broadcast_events_no_redis|apply kafka_events_no_redis]. }
  split; simpl; rewrite ?Hself, ?Hs; simpl.
  - rewrite (filter_no_redis _ _ ) ; [done| |done].
    intros e He. destruct e; try done.
  - rewrite (filter_no_redis _ _ ) ; [done| |done].
    intros e He. destruct e; try done.
Qed.

(** The three steps in the visit of [cust1]. *)
Lemma closing_steps_in_order_witness :
  is_Some (uuid_Parse all_up session1) ∧
  ∃ steps,
    events (cust1_visit all_up) =
      events (serve all_up 1 session1 "cust1" "customer" [] agent_waiting)
      ++ steps ∧
    position (is_presence_leave session1 "cust1") steps = Some 0%nat ∧
    position (is_registry_remove session1 "cust1") steps = Some 1%nat ∧
    position (is_status_read session1) steps = Some 2%nat.
Proof.
  assert (Hid : is_Some (uuid_Parse all_up session1)) by (by eexists).
  split; [exact Hid|].
  pose proof (closing_steps_in_order all_up 1 session1 "cust1" "customer" []
                agent_waiting Hid) as H.
  cbv zeta in H. destruct H as (Hev & Hleave & Hremove & Hread & _).
  eexists. split; [exact Hev|]. split; [exact Hleave|].
  split; [exact Hremove|exact Hread].
Defined.

(** C2, as the claim words it, fails: in the visit of [cust1] the registry
    removal does not come before the removal from the presence store. *)
Lemma registry_removal_not_first :
  ¬ precedes (is_registry_remove session1 "cust1")
      (is_presence_leave session1 "cust1") (events (cust1_visit all_up)) ∧
  precedes (is_presence_leave session1 "cust1")
    (is_registry_remove session1 "cust1") (events (cust1_visit all_up)).
Proof.
  split.
  - intros (i & j & Hi & Hj & Hlt).
    vm_compute in Hi. vm_compute in Hj.
    injection Hi as <-. injection Hj as <-. lia.
  - eexists _, _. split; [vm_compute; reflexivity|].
    split; [vm_compute; reflexivity|]. lia.
Qed.

Lemma connection_status_update_data sessionID status now eventType eventUserID :
  let m := connection_status_update sessionID status now eventType eventUserID in
  resp_Type m = "connection_status_update" ∧
  index (resp_Data m) "session_id" = Some (VStr sessionID) ∧
  index (resp_Data m) "connection_status" = Some status ∧
  index (resp_Data m) "event_type" =
    (if bool_decide (eventType ≠ "") then Some (VStr eventType) else None) ∧
  index (resp_Data m) "event_user_id" =
    (if bool_decide (eventUserID ≠ "") then Some (VStr eventUserID) else None).
Proof.
  unfold connection_status_update.
  destruct (bool_decide (eventType ≠ "")), (bool_decide (eventUserID ≠ ""));
    repeat split; vm_compute; reflexivity.
Qed.

(** C1, as the code has it.  When a served connection ends, the removal of
    the user's entry from the presence store is attempted first, then the
    connection is removed from the registry, then the status is read, and
    only then are frames written.  Every frame written while closing is the
    [connection_status_update] whose status is computed from the hash as the
    attempt left it.  When the store accepted the removal, that is the hash
    without the departing user: the [users] map has no entry for that user,
    the totals are the numbers of customers and agents among the other
    entries, and the flags say whether those numbers are positive.  When the
    store rejected the removal, that is the hash as it was: the departing
    user's entry is still listed and counted.  When the store returned the
    status, every connection still registered for the session is written
    that frame. *)
Theorem disconnect_status_after_leave env c sessionID userID userType inbox w :
  is_Some (uuid_Parse env sessionID) →
  let w0 := world (serve env c sessionID userID userType inbox w) in
  let accepted := negb (redis_fails env (redis_n w0)) in
  let hash := hash_of (session_users w0) sessionID in
  let others := if accepted then delete userID hash else hash in
  let status := session_status others in
  let message :=
    connection_status_update sessionID status (clock w0) "user_disconnected"
      userID in
  let remaining :=
    default [] (registry_remove sessionID userID (connections w0) !! sessionID) in
  (∃ read rest,
      events (HandleConnection env c sessionID userID userType inbox w) =
        events (serve env c sessionID userID userType inbox w) ++
        EvRedis (HDEL sessionID userID) accepted ::
        EvRemoveConnection sessionID userID ::
        EvRedis (HGETALL sessionID) read :: rest ∧
      (∀ conn m ok, EvWriteJSON conn m ok ∈ rest → m = message) ∧
      (read = true → ∀ b, b ∈ remaining →
         EvWriteJSON (Conn b) message (negb (write_fails env (Conn b)))
           ∈ rest)) ∧
  index (resp_Data message) "connection_status" = Some status ∧
  index (resp_Data message) "event_type" = Some (VStr "user_disconnected") ∧
  ∃ usersMap customerConnected agentConnected,
    status_fields status =
      Some (VMap usersMap, VBool customerConnected, VBool agentConnected,
            VNum (Z.of_nat (entries_with_role "customer" others)),
            VNum (Z.of_nat (entries_with_role "agent" others))) ∧
    usersMap !! userID =
      (if accepted then None else hash !! userID ≫= json_Unmarshal_map) ∧
    (∀ other, other ≠ userID →
       usersMap !! other = hash !! other ≫= json_Unmarshal_map) ∧
    (customerConnected = true ↔ (0 < entries_with_role "customer" others)%nat) ∧
    (agentConnected = true ↔ (0 < entries_with_role "agent" others)%nat).
Proof.
  intros Hid w0 accepted hash others status message remaining.
  split; [|split; [|split]].
  - pose proof (closing_events env c sessionID userID userType w0) as Hc.
    cbv zeta in Hc. fold accepted in Hc.
    set (w2 := set_connections (registry_remove sessionID userID)
                 (tick_redis
                    (if accepted
                     then set_session_users (hdel sessionID userID) w0
                     else w0)))
      in Hc.
    assert (Hhash : hash_of (session_users w2) sessionID = others).
    { subst w2 others hash. destruct accepted; [apply hash_of_hdel|reflexivity]. }
    assert (Hrem : default [] (connections w2 !! sessionID) = remaining).
    { subst w2 remaining. by destruct accepted. }
    rewrite Hhash, Hrem in Hc. fold status message in Hc.
    eexists _, _. split.
    { rewrite (HandleConnection_events _ _ _ _ _ _ _ Hid). fold w0.
      rewrite Hc. reflexivity. }
    split.
    + intros conn m ok Hin.
      apply elem_of_app in Hin as [Hin|Hin].
      * destruct (negb (redis_fails env (redis_n w2))); [|by apply elem_of_nil in Hin].
        apply elem_of_app in Hin as [Hin|Hin].
        -- by apply broadcast_events_only in Hin as [-> _].
        -- unfold kafka_events in Hin.
           destruct (uuid_Parse env sessionID);
             [apply list_elem_of_singleton in Hin|apply elem_of_nil in Hin];
             done.
      * by apply list_elem_of_singleton in Hin.
    + intros -> b Hb. apply elem_of_app. left. apply elem_of_app. left.
      by apply broadcast_events_write.
  - apply connection_status_update_data.
  - apply connection_status_update_data.
  - exists (omap json_Unmarshal_map others),
      (bool_decide (0 < entries_with_role "customer" others)%nat),
      (bool_decide (0 < entries_with_role "agent" others)%nat).
    split; [apply status_fields_eq|].
    split.
    { rewrite lookup_omap. subst others.
      destruct accepted; [by rewrite lookup_delete_eq|done]. }
    split.
    { intros other Hne. rewrite lookup_omap. subst others.
      destruct accepted; [by rewrite lookup_delete_ne|done]. }
    split; apply bool_decide_eq_true.
Qed.

(** In the visit of [cust1], [agent1] is written a status without [cust1]:
    no customer, one agent. *)
Lemma disconnect_status_after_leave_witness :
  let w0 := world (serve all_up 1 session1 "cust1" "customer" [] agent_waiting) in
  let others := delete "cust1" (hash_of (session_users w0) session1) in
  is_Some (uuid_Parse all_up session1) ∧
  redis_fails all_up (redis_n w0) = false ∧
  ∃ usersMap,
    status_fields (session_status others) =
      Some (VMap usersMap, VBool false, VBool true, VNum 0, VNum 1) ∧
    usersMap !! "cust1" = None ∧
    EvWriteJSON 2
      (connection_status_update session1 (session_status others) (clock w0)
         "user_disconnected" "cust1") true
      ∈ events (cust1_visit all_up).
Proof.
  intros w0 others.
  assert (Hid : is_Some (uuid_Parse all_up session1)) by (by eexists).
  split; [exact Hid|]. split; [reflexivity|].
  pose proof (disconnect_status_after_leave all_up 1 session1 "cust1"
                "customer" [] agent_waiting Hid) as H.
  cbv zeta in H. change (negb (redis_fails all_up _)) with true in H.
  cbv iota in H.
  destruct H
    as ((read & rest & Hev & _ & Hall) & _ & _ & um & cc & ac & Hf & Hnone & _
        & Hcc & Hac).
  fold w0 in Hf, Hnone, Hcc, Hac, Hall, Hev. fold others in Hf, Hcc, Hac, Hall, Hev.
  exists um. split; [|split; [exact Hnone|]].
  - rewrite Hf.
    assert (cc = false) as ->.
    { destruct cc; [|done]. destruct Hcc as [Hcc _].
      specialize (Hcc eq_refl). vm_compute in Hcc. lia. }
    assert (ac = true) as -> by (apply Hac; vm_compute; lia).
    vm_compute. reflexivity.
  - unfold cust1_visit. rewrite Hev.
    assert (read = true) as Hread.
    { pose proof (f_equal (λ l,
        (l !! (length (events (serve all_up 1 session1 "cust1" "customer" []
                                 agent_waiting)) + 2)%nat) ≫= (λ e,
        match e with EvRedis _ ok => Some ok | _ => None end)) Hev) as Hnth.
      vm_compute in Hnth. destruct read; [done|discriminate]. }
    apply elem_of_app. right. do 3 apply list_elem_of_further.
    apply (Hall Hread agent1_conn). vm_compute. apply list_elem_of_here.
Defined.

(** C1, as the claim words it, fails: Redis rejects the [HDEL] of the closing
    while [cust1] leaves the session in which [agent1] is connected.  The
    error is only logged; the registry removal, the read of the presence
    store and the broadcast follow all the same.  The status is computed from
    the hash as it is, and [agent1] is written a [user_disconnected] frame
    that still lists [cust1], counts one customer and says a customer is
    connected. *)
Lemma rejected_leave_still_counted :
  let w0 :=
    world (serve leave_rejected 1 session1 "cust1" "customer" [] agent_waiting) in
  let stale := session_status (hash_of (session_users w0) session1) in
  let frame :=
    connection_status_update session1 stale (clock w0) "user_disconnected"
      "cust1" in
  events (cust1_visit leave_rejected) =
    events (serve leave_rejected 1 session1 "cust1" "customer" [] agent_waiting)
    ++ [EvRedis (HDEL session1 "cust1") false;
        EvRemoveConnection session1 "cust1";
        EvRedis (HGETALL session1) true;
        EvWriteJSON 2 frame true;
        EvKafka "connection-status"
          (ConnectionStatusMessage "connection_status" session1 stale (clock w0))
          true;
        EvClose 1] ∧
  index (resp_Data frame) "event_type" = Some (VStr "user_disconnected") ∧
  index (resp_Data frame) "event_user_id" = Some (VStr "cust1") ∧
  index (resp_Data frame) "connection_status" = Some stale ∧
  ∃ usersMap entry,
    status_fields stale =
      Some (VMap usersMap, VBool true, VBool true, VNum 1, VNum 1) ∧
    usersMap !! "cust1" = Some entry ∧
    index entry "user_type" = Some (VStr "customer").
Proof.
  intros w0 stale frame.
  split; [vm_compute; reflexivity|].
  split; [vm_compute; reflexivity|].
  split; [vm_compute; reflexivity|].
  split; [vm_compute; reflexivity|].
  eexists _, _. split; [vm_compute; reflexivity|].
  split; vm_compute; reflexivity.
Qed.

(** ** Inbound messages *)

Lemma not_recognized ty :
  ¬ recognized ty →
  ty ≠ "join_session" ∧ ¬ (ty = "typing_start" ∨ ty = "agent_typing") ∧
  ty ≠ "typing_stop" ∧ ty ≠ "send_message" ∧ ty ≠ "ping".
Proof.
  unfold recognized. rewrite !elem_of_cons, elem_of_nil. tauto.
Qed.

(** C9.  For an inbound message whose type is none of the recognized ones,
    the handler does one thing: it writes one frame of type [error] to the
    socket of the sender.  It writes to no other connection, calls neither
    Redis nor Kafka, leaves the state as it was and does not close the
    socket; the read loop goes on with the frames that follow. *)
Theorem unknown_type_one_error_frame env c msg sessionID userID userType w rest :
  ¬ recognized (msg_Type msg) →
  let r := handleIncomingMessage env c msg sessionID userID userType w in
  events r =
    [EvWriteJSON c
       {| resp_Type := "error"; resp_Success := false; resp_Data := VNil;
          resp_Error := "Unknown message type: " +:+ msg_Type msg |}
       (negb (write_fails env c))] ∧
  world r = w ∧
  world (read_loop env c sessionID userID userType (msg :: rest) w) =
    world (read_loop env c sessionID userID userType rest w) ∧
  events (read_loop env c sessionID userID userType (msg :: rest) w) =
    events r ++ events (read_loop env c sessionID userID userType rest w).
Proof.
  intros Hty r.
  destruct (not_recognized _ Hty) as (H1 & H2 & H3 & H4 & H5).
  assert (Hr : r = (tt, w,
            [EvWriteJSON c
               {| resp_Type := "error"; resp_Success := false;
                  resp_Data := VNil;
                  resp_Error := "Unknown message type: " +:+ msg_Type msg |}
               (negb (write_fails env c))])).
  { subst r. unfold handleIncomingMessage. cbv zeta.
    rewrite (bool_decide_eq_false_2 _ H1), (bool_decide_eq_false_2 _ H2),
      (bool_decide_eq_false_2 _ H3), (bool_decide_eq_false_2 _ H4),
      (bool_decide_eq_false_2 _ H5).
    reflexivity. }
  split; [by rewrite Hr|]. split; [by rewrite Hr|].
  cbn [read_loop]. rewrite world_bind, events_bind. fold r. by rewrite Hr.
Qed.

(** A frame of type [bogus] gets one error frame and changes nothing. *)
Lemma unknown_type_one_error_frame_witness :
  let msg := mkWebSocketMessage "bogus" session1 "cust1" "customer" VNil 0 in
  ¬ recognized (msg_Type msg) ∧
  events (handleIncomingMessage all_up 1 msg session1 "cust1" "customer"
            two_users) =
    [EvWriteJSON 1
       {| resp_Type := "error"; resp_Success := false; resp_Data := VNil;
          resp_Error := "Unknown message type: bogus" |} true] ∧
  world (handleIncomingMessage all_up 1 msg session1 "cust1" "customer"
           two_users) = two_users.
Proof.
  intros msg.
  assert (Hty : ¬ recognized (msg_Type msg)).
  { unfold recognized. rewrite !elem_of_cons, elem_of_nil.
    intros [H|[H|[H|[H|[H|[H|[]]]]]]]; discriminate H. }
  split; [exact Hty|].
  destruct (unknown_type_one_error_frame all_up 1 msg session1 "cust1"
              "customer" two_users [] Hty) as (Hev & Hw & _).
  split; [exact Hev|exact Hw].
Defined.

Lemma requested_typing_false data :
  requested_typing data = false ↔
  ∃ dataMap, data = VMap dataMap ∧ dataMap !! "is_typing" = Some (VBool false).
Proof.
  unfold requested_typing. split.
  - destruct data as [| | | | |m]; try done.
    destruct (m !! "is_typing") as [[|[]| | | |]|] eqn:E; try done.
    intros _. by exists m.
  - intros (m & -> & ->). done.
Qed.

Lemma after_kafka_typing_keys env sessionID w :
  typing_keys (after_kafka env sessionID w) = typing_keys w ∧
  clock (after_kafka env sessionID w) = clock w.
Proof. unfold after_kafka. by destruct (uuid_Parse env sessionID). Qed.

(** The typing key and the clock after [handleTypingIndicator], when Redis
    took the command. *)
Lemma handleTypingIndicator_key env sessionID userID userType isTyping w :
  redis_fails env (redis_n w) = false →
  let w' := world (handleTypingIndicator env sessionID userID userType
                     isTyping w) in
  typing_keys w' !! (sessionID, userID) =
    (if isTyping then Some (clock w + 30)%Z else None) ∧
  clock w' = clock w.
Proof.
  intros Hup. rewrite handleTypingIndicator_run. cbv zeta.
  unfold world; cbn [fst snd].
  destruct (after_kafka_typing_keys env sessionID
    (set_connections
       (prune env sessionID (default [] (connections w !! sessionID)))
       (tick_redis
          (if negb (redis_fails env (redis_n w))
           then set_typing_keys
                  (if isTyping
                   then <[(sessionID, userID):=(clock w + 30)%Z]>
                   else delete (sessionID, userID)) w
           else w)))) as [-> ->].
  rewrite Hup. cbn. destruct isTyping.
  - by rewrite lookup_insert_eq.
  - by rewrite lookup_delete_eq.
Qed.

Lemma handleTypingIndicator_frames env sessionID userID userType isTyping w :
  let r := handleTypingIndicator env sessionID userID userType isTyping w in
  let frame := typing_indicator sessionID userID userType isTyping (clock w) in
  (∀ x, x ∈ default [] (connections w !! sessionID) →
     EvWriteJSON (Conn x) frame (negb (write_fails env (Conn x))) ∈ events r) ∧
  (∀ conn m ok, EvWriteJSON conn m ok ∈ events r → m = frame).
Proof.
  cbv zeta. rewrite handleTypingIndicator_run. cbv zeta.
  unfold events; cbn [snd]. split.
  - intros x Hx. apply list_elem_of_further, elem_of_app. left.
    by apply broadcast_events_write.
  - intros conn m ok Hin.
    apply elem_of_cons in Hin as [Hin|Hin]; [done|].
    apply elem_of_app in Hin as [Hin|Hin].
    + by apply broadcast_events_only in Hin as [-> _].
    + unfold kafka_events in Hin.
      destruct (uuid_Parse env sessionID);
        [apply list_elem_of_singleton in Hin|apply elem_of_nil in Hin]; done.
Qed.

(** A user [GetTypingUsers] lists has a live typing key. *)
Lemma GetTypingUsers_live env sessionID w users userID :
  result (GetTypingUsers env sessionID w) = Some users →
  userID ∈ users → live w sessionID userID = true.
Proof.
  unfold GetTypingUsers, bind, get, redis, ret, result; simpl.
  destruct (redis_fails env (redis_n w)); simpl; [done|].
  intros [= <-]. rewrite list_elem_of_omap.
  intros ([s u] & Hin & Hsome). simpl in Hsome.
  case_bool_decide; [|done]. injection Hsome as ->.
  apply list_elem_of_filter in Hin as [[Hs Hlive] _]. simpl in Hs, Hlive.
  subst s. by apply Is_true_true.
Qed.

(** C5, as the claim words it, fails: [cust1] sends a [typing_start] whose
    data carries [is_typing: false]; no frame written says that [cust1] is
    typing, and a frame saying that it is not typing is written. *)
Lemma typing_start_may_say_false :
  let evs := events (handleIncomingMessage all_up 1 typing_start_false session1
                       "cust1" "customer" two_users) in
  ¬ (∃ e, In e evs ∧ says_typing "cust1" true e = true) ∧
  (∃ e, In e evs ∧ says_typing "cust1" false e = true).
Proof.
  intros evs. split.
  - intros Hex. apply existsb_exists in Hex. vm_compute in Hex. discriminate.
  - apply existsb_exists. vm_compute. reflexivity.
Qed.

(** C5, as the code has it.  A [typing_start] from user [userID] makes the
    handler write to every connection of the session one
    [typing_indicator] frame for [userID]; its [is_typing] is true unless the
    data of the message is an object whose [is_typing] is the boolean false,
    in which case it is false.  When it is true and Redis took the key, the
    typing key is live for 30 seconds and gone afterwards.  A [typing_stop]
    from [userID] makes the handler write to every connection the frame with
    [is_typing] false, and when Redis took the deletion the typing key is
    absent from then on.  A user without a live key is not among the typing
    users. *)
Theorem typing_round_trip env c msg sessionID userID userType w :
  let r := handleIncomingMessage env c msg sessionID userID userType w in
  let conns := default [] (connections w !! sessionID) in
  (msg_Type msg = "typing_start" →
     let isTyping := requested_typing (msg_Data msg) in
     let frame :=
       typing_indicator sessionID userID userType isTyping (clock w) in
     (isTyping = false ↔
        ∃ dataMap, msg_Data msg = VMap dataMap ∧
                   dataMap !! "is_typing" = Some (VBool false)) ∧
     resp_Type frame = "typing_indicator" ∧
     index (resp_Data frame) "user_id" = Some (VStr userID) ∧
     index (resp_Data frame) "is_typing" = Some (VBool isTyping) ∧
     (∀ x, x ∈ conns →
        EvWriteJSON (Conn x) frame (negb (write_fails env (Conn x)))
          ∈ events r) ∧
     (∀ conn m ok, EvWriteJSON conn m ok ∈ events r → m = frame) ∧
     (isTyping = true → redis_fails env (redis_n w) = false →
        ∀ d, live (elapse d (world r)) sessionID userID =
             bool_decide (d < 30)%Z)) ∧
  (msg_Type msg = "typing_stop" →
     let frame := typing_indicator sessionID userID userType false (clock w) in
     index (resp_Data frame) "user_id" = Some (VStr userID) ∧
     index (resp_Data frame) "is_typing" = Some (VBool false) ∧
     (∀ x, x ∈ conns →
        EvWriteJSON (Conn x) frame (negb (write_fails env (Conn x)))
          ∈ events r) ∧
     (∀ conn m ok, EvWriteJSON conn m ok ∈ events r → m = frame) ∧
     (redis_fails env (redis_n w) = false →
        ∀ d, live (elapse d (world r)) sessionID userID = false)) ∧
  (∀ w' users, live w' sessionID userID = false →
     result (GetTypingUsers env sessionID w') = Some users → userID ∉ users).
Proof.
  intros r conns. split; [|split].
  - intros Hty isTyping frame.
    assert (Hr : r = handleTypingIndicator env sessionID userID userType
                       isTyping w).
    { subst r. unfold handleIncomingMessage. rewrite Hty. reflexivity. }
    split; [apply requested_typing_false|].
    split; [reflexivity|]. split; [reflexivity|]. split; [reflexivity|].
    rewrite Hr.
    split; [apply handleTypingIndicator_frames|].
    split; [apply handleTypingIndicator_frames|].
    intros Htrue Hup d.
    destruct (handleTypingIndicator_key env sessionID userID userType isTyping
                w Hup) as [Hkey Hclock].
    unfold live. cbn [typing_keys clock elapse].
    rewrite Hkey, Hclock, Htrue. apply bool_decide_ext. lia.
  - intros Hty frame.
    assert (Hr : r = handleTypingIndicator env sessionID userID userType
                       false w).
    { subst r. unfold handleIncomingMessage. rewrite Hty. reflexivity. }
    split; [reflexivity|]. split; [reflexivity|].
    rewrite Hr.
    split; [apply handleTypingIndicator_frames|].
    split; [apply handleTypingIndicator_frames|].
    intros Hup d.
    destruct (handleTypingIndicator_key env sessionID userID userType false
                w Hup) as [Hkey _].
    unfold live. cbn [typing_keys clock elapse]. by rewrite Hkey.
  - intros w' users Hdead Hres Hin.
    rewrite (GetTypingUsers_live _ _ _ _ _ Hres Hin) in Hdead. discriminate.
Qed.

(** A plain [typing_start] of [cust1] reaches [agent1] with [is_typing] true;
    the key is live at 29 seconds and gone at 30. *)
Lemma typing_round_trip_witness :
  let start_run := handleIncomingMessage all_up 1 typing_start_plain session1
                     "cust1" "customer" two_users in
  let stop_run := handleIncomingMessage all_up 1 typing_stop_plain session1
                    "cust1" "customer" (world start_run) in
  msg_Type typing_start_plain = "typing_start" ∧
  requested_typing (msg_Data typing_start_plain) = true ∧
  redis_fails all_up (redis_n two_users) = false ∧
  EvWriteJSON 2
    (typing_indicator session1 "cust1" "customer" true (clock two_users)) true
    ∈ events start_run ∧
  live (elapse 29 (world start_run)) session1 "cust1" = true ∧
  live (elapse 30 (world start_run)) session1 "cust1" = false ∧
  msg_Type typing_stop_plain = "typing_stop" ∧
  redis_fails all_up (redis_n (world start_run)) = false ∧
  EvWriteJSON 2
    (typing_indicator session1 "cust1" "customer" false
       (clock (world start_run))) true
    ∈ events stop_run ∧
  live (elapse 0 (world stop_run)) session1 "cust1" = false.
Proof.
  intros start_run stop_run.
  split; [reflexivity|]. split; [reflexivity|]. split; [reflexivity|].
  destruct (typing_round_trip all_up 1 typing_start_plain session1 "cust1"
              "customer" two_users) as [Hstart _].
  destruct (Hstart eq_refl) as (_ & _ & _ & _ & Hall & _ & Hlive).
  destruct (typing_round_trip all_up 1 typing_stop_plain session1 "cust1"
              "customer" (world start_run)) as (_ & Hstop & _).
  destruct (Hstop eq_refl) as (_ & _ & Hall' & _ & Hdead).
  split; [|split; [|split; [|split; [|split; [|split]]]]].
  - apply (Hall agent1_conn). vm_compute.
    apply list_elem_of_further, list_elem_of_here.
  - rewrite (Hlive eq_refl eq_refl). reflexivity.
  - rewrite (Hlive eq_refl eq_refl). reflexivity.
  - reflexivity.
  - reflexivity.
  - apply (Hall' agent1_conn). vm_compute.
    apply list_elem_of_further, list_elem_of_here.
  - apply (Hdead eq_refl).
Defined.

(** ** Collaborator errors *)

Lemma serve_events env c sessionID userID userType inbox w :
  let conn := {| Conn := c; UserID := userID; UserType := userType;
                 SessionID := sessionID |} in
  let w1 := set_connections (registry_add sessionID conn) w in
  let joined := negb (redis_fails env (redis_n w)) in
  let entry := presence_entry userID userType (clock w) in
  let w2 := tick_redis
    (if joined then set_session_users (hset sessionID userID entry) w1
     else w1) in
  ∃ mid,
    events (serve env c sessionID userID userType inbox w) =
      [EvAddConnection sessionID conn;
       EvRedis (HSET sessionID userID entry) joined] ++
      events (broadcastConnectionStatusWithContext env sessionID
                "user_connected" userID w2) ++ mid.
Proof.
  intros conn w1 joined entry w2. unfold serve.
  rewrite events_bind, addConnection_run, world_triple, events_triple.
  fold conn w1.
  rewrite events_bind, AddUserToSession_run. cbv zeta.
  rewrite world_triple, events_triple, events_bind.
  eexists. reflexivity.
Qed.

(** C4, as the claim words it, fails: Redis is down while [cust1] visits the
    session in which [agent1] is connected on a healthy socket.  The registry
    is updated, but no [connection_status_update] frame is written at all,
    neither on connect nor on disconnect: the failed read of the presence
    store suppresses the local broadcast. *)
Lemma failed_status_read_suppresses_broadcast :
  agent1_conn ∈ default [] (connections agent_waiting !! session1) ∧
  write_fails redis_down (Conn agent1_conn) = false ∧
  (∃ e, In e (events (cust1_visit redis_down)) ∧
        is_registry_remove session1 "cust1" e = true) ∧
  ¬ (∃ e, In e (events (cust1_visit redis_down)) ∧
          is_frame "connection_status_update" e = true) ∧
  (∃ e, In e (events (cust1_visit all_up)) ∧
        is_frame "connection_status_update" e = true).
Proof.
  split; [vm_compute; apply list_elem_of_here|]. split; [reflexivity|].
  split; [apply existsb_exists; vm_compute; reflexivity|].
  split; [|apply existsb_exists; vm_compute; reflexivity].
  intros Hex. apply existsb_exists in Hex. vm_compute in Hex. discriminate.
Qed.

Lemma after_kafka_connections env sessionID w :
  connections (after_kafka env sessionID w) = connections w.
Proof. unfold after_kafka. by destruct (uuid_Parse env sessionID). Qed.

(** C4, as the code has it.  Whatever Redis answers to [SetUserTyping] and
    whatever Kafka answers to [SendMessage], [handleTypingIndicator] writes
    the typing frame to every connection of the session and only prunes the
    connections whose write failed.  [broadcastConnectionStatusWithContext]
    does the same with the status frame, whatever Kafka answers, when the
    read of the presence store is answered; when that read fails it writes
    nothing and changes nothing else.  In [HandleConnection] the connection is
    added to the registry before [AddUserToSession] and removed from it after
    [RemoveUserFromSession], whatever these two answer, and either way the
    status broadcast is then attempted on the updated registry; nothing is
    undone. *)
Theorem collaborator_errors_best_effort env c sessionID userID userType
    isTyping eventType eventUserID inbox w :
  let conns := default [] (connections w !! sessionID) in
  (let r := handleTypingIndicator env sessionID userID userType isTyping w in
   let frame :=
     typing_indicator sessionID userID userType isTyping (clock w) in
   (∀ x, x ∈ conns →
      EvWriteJSON (Conn x) frame (negb (write_fails env (Conn x))) ∈ events r) ∧
   connections (world r) = prune env sessionID conns (connections w)) ∧
  (let r := broadcastConnectionStatusWithContext env sessionID eventType
              eventUserID w in
   let frame :=
     connection_status_update sessionID
       (session_status (hash_of (session_users w) sessionID)) (clock w)
       eventType eventUserID in
   (redis_fails env (redis_n w) = false →
      (∀ x, x ∈ conns →
         EvWriteJSON (Conn x) frame (negb (write_fails env (Conn x)))
           ∈ events r) ∧
      connections (world r) = prune env sessionID conns (connections w)) ∧
   (redis_fails env (redis_n w) = true →
      events r = [EvRedis (HGETALL sessionID) false] ∧
      connections (world r) = connections w ∧
      session_users (world r) = session_users w)) ∧
  (is_Some (uuid_Parse env sessionID) →
   let conn := {| Conn := c; UserID := userID; UserType := userType;
                  SessionID := sessionID |} in
   let w0 := world (serve env c sessionID userID userType inbox w) in
   ∃ mid w2 w5,
     connections w2 = registry_add sessionID conn (connections w) ∧
     redis_n w2 = S (redis_n w) ∧
     connections w5 = registry_remove sessionID userID (connections w0) ∧
     redis_n w5 = S (redis_n w0) ∧
     events (HandleConnection env c sessionID userID userType inbox w) =
       [EvAddConnection sessionID conn;
        EvRedis (HSET sessionID userID
                   (presence_entry userID userType (clock w)))
          (negb (redis_fails env (redis_n w)))] ++
       events (broadcastConnectionStatusWithContext env sessionID
                 "user_connected" userID w2) ++
       mid ++
       [EvRedis (HDEL sessionID userID) (negb (redis_fails env (redis_n w0)));
        EvRemoveConnection sessionID userID] ++
       events (broadcastConnectionStatusWithContext env sessionID
                 "user_disconnected" userID w5) ++
       [EvClose c]).
Proof.
  intros conns. split; [|split].
  - cbv zeta. split; [apply handleTypingIndicator_frames|].
    rewrite handleTypingIndicator_run. cbv zeta.
    rewrite world_triple, after_kafka_connections.
    cbn [connections set_connections]. f_equal.
    by destruct (negb _).
  - cbv zeta. rewrite broadcastConnectionStatusWithContext_run. cbv zeta.
    split; intros ->.
    + rewrite world_triple, events_triple, after_kafka_connections.
      split; [|reflexivity].
      intros x Hx. apply list_elem_of_further, elem_of_app. left.
      by apply broadcast_events_write.
    + by rewrite world_triple, events_triple.
  - intros Hid conn w0.
    destruct (serve_events env c sessionID userID userType inbox w)
      as [mid Hserve].
    cbv zeta in Hserve.
    eexists mid, _, _. split; [|split; [|split; [|split]]]; cycle 4.
    + rewrite (HandleConnection_events _ _ _ _ _ _ _ Hid), Hserve.
      fold w0. rewrite closing_run. cbv zeta. rewrite events_triple.
      rewrite <-!app_assoc. reflexivity.
    + destruct (negb (redis_fails env (redis_n w))); reflexivity.
    + destruct (negb (redis_fails env (redis_n w))); reflexivity.
    + destruct (negb (redis_fails env (redis_n w0))); reflexivity.
    + destruct (negb (redis_fails env (redis_n w0))); reflexivity.
Qed.

(** The entry of [cust1] was not stored and Kafka rejects the publication:
    both connections are still written the status frame and stay registered. *)
Lemma collaborator_errors_best_effort_witness :
  let r := broadcastConnectionStatusWithContext join_rejected session1
             "user_connected" "cust1" cust1_unrecorded in
  let frame :=
    connection_status_update session1
      (session_status (hash_of (session_users cust1_unrecorded) session1))
      (clock cust1_unrecorded) "user_connected" "cust1" in
  redis_fails join_rejected (redis_n cust1_unrecorded) = false ∧
  kafka_fails join_rejected (kafka_n cust1_unrecorded) = true ∧
  is_Some (uuid_Parse join_rejected session1) ∧
  EvWriteJSON 2 frame true ∈ events r ∧
  EvWriteJSON 1 frame true ∈ events r ∧
  connections (world r) = connections cust1_unrecorded ∧
  take 2 (events (cust1_visit join_rejected)) =
    [EvAddConnection session1 cust1_conn;
     EvRedis (HSET session1 "cust1"
                (presence_entry "cust1" "customer" (clock agent_waiting)))
       false].
Proof.
  intros r frame.
  assert (Hid : is_Some (uuid_Parse join_rejected session1)) by (by eexists).
  split; [reflexivity|]. split; [reflexivity|]. split; [exact Hid|].
  destruct (collaborator_errors_best_effort join_rejected 1 session1 "cust1"
              "customer" true "user_connected" "cust1" [] cust1_unrecorded)
    as (_ & [Hread _] & _).
  destruct (Hread eq_refl) as [Hall Hreg].
  destruct (collaborator_errors_best_effort join_rejected 1 session1 "cust1"
              "customer" true "user_connected" "cust1" [] agent_waiting)
    as (_ & _ & Hvisit).
  destruct (Hvisit Hid) as (mid & w2 & w5 & _ & _ & _ & _ & Hev).
  split; [|split; [|split]].
  - apply (Hall agent1_conn). vm_compute. apply list_elem_of_here.
  - apply (Hall cust1_conn). vm_compute.
    apply list_elem_of_further, list_elem_of_here.
  - fold r in Hreg. rewrite Hreg. vm_compute. reflexivity.
  - unfold cust1_visit. rewrite Hev. reflexivity.
Defined.

(** When Redis rejects the [HDEL] of the closing and answers the read that
    follows, the broadcast goes on with the entry still in the hash: the
    frame [agent1] gets then counts [cust1], where it counts no customer
    when the [HDEL] is accepted. *)
Lemma leave_rejected_status_still_counts :
  last (omap frame_total_customer (events (cust1_visit leave_rejected))) =
    Some (VNum 1) ∧
  last (omap frame_total_customer (events (cust1_visit all_up))) =
    Some (VNum 0).
Proof. split; vm_compute; reflexivity. Qed.

(** * Further properties *)

(** ** Registry and monitoring *)

Lemma GetActiveConnections_lookup w sessionID :
  GetActiveConnections w !! sessionID = length <$> connections w !! sessionID.
Proof.
  unfold GetActiveConnections.
  apply (map_fold_weak_ind (λ r (m : gmap string (list WSConnection)),
           r !! sessionID = length <$> m !! sessionID)).
  - by rewrite !lookup_empty.
  - intros s conns m r Hs IH.
    destruct (decide (s = sessionID)) as [->|Hne].
    + by rewrite !lookup_insert_eq.
    + by rewrite !lookup_insert_ne.
Qed.

Lemma registry_add_lookup sessionID conn reg :
  registry_add sessionID conn reg !! sessionID =
  Some (default [] (reg !! sessionID) ++ [conn]).
Proof.
  unfold registry_add. rewrite lookup_insert_eq.
  destruct (reg !! sessionID) as [conns|] eqn:Hs.
  - by rewrite Hs.
  - by rewrite lookup_insert_eq.
Qed.

Lemma registry_add_lookup_ne sessionID other conn reg :
  other ≠ sessionID →
  registry_add sessionID conn reg !! other = reg !! other.
Proof.
  intros Hne. unfold registry_add. rewrite lookup_insert_ne by done.
  destruct (reg !! sessionID); [done|]. by rewrite lookup_insert_ne.
Qed.

Lemma registry_remove_lookup_ne sessionID other userID reg :
  other ≠ sessionID →
  registry_remove sessionID userID reg !! other = reg !! other.
Proof.
  intros Hne. rewrite registry_remove_alt.
  destruct (reg !! sessionID) as [conns|]; [|done].
  case_bool_decide; by rewrite ?lookup_delete_ne, ?lookup_insert_ne.
Qed.

(** The connections of the session after a removal, as a list (none when
    the key is gone). *)
Lemma registry_remove_conns sessionID userID reg :
  default [] (registry_remove sessionID userID reg !! sessionID) =
  remove_first userID (default [] (reg !! sessionID)).
Proof.
  rewrite registry_remove_alt.
  destruct (reg !! sessionID) as [conns|] eqn:Hs; simpl.
  - case_bool_decide as Hlen.
    + rewrite lookup_delete_eq. simpl. by apply nil_length_inv in Hlen.
    + by rewrite lookup_insert_eq.
  - by rewrite Hs.
Qed.

Lemma remove_first_absent userID conns :
  ¬ has_user userID conns → remove_first userID conns = conns.
Proof.
  intros Hno. unfold remove_first. rewrite find_user_absent; [done|].
  apply Forall_forall. intros c Hc Hu. apply Hno.
  apply Exists_exists. by exists c.
Qed.

Lemma remove_first_length userID conns :
  has_user userID conns →
  S (length (remove_first userID conns)) = length conns.
Proof.
  induction 1 as [c l Hc|c l _ IH]; rewrite remove_first_cons.
  - by rewrite bool_decide_eq_true_2.
  - case_bool_decide; [done|]. simpl. by rewrite IH.
Qed.

(** X1.  [addConnection] puts the connection at the end of the list of its
    session, creating the list when the session had none, whoever is
    already connected (the same user may be there already): the session
    counts one connection more and its earlier connections keep their
    places; the other sessions and the store are left as they were. *)
Theorem addConnection_appends sessionID conn w :
  let w' := world (addConnection sessionID conn w) in
  connections w' !! sessionID =
    Some (default [] (connections w !! sessionID) ++ [conn]) ∧
  GetSessionConnectionCount sessionID w' =
    S (GetSessionConnectionCount sessionID w) ∧
  (∀ other, other ≠ sessionID →
     connections w' !! other = connections w !! other ∧
     GetSessionConnectionCount other w' = GetSessionConnectionCount other w) ∧
  session_users w' = session_users w ∧ typing_keys w' = typing_keys w.
Proof.
  intros w'. subst w'. rewrite addConnection_run, world_triple.
  cbn [connections set_connections session_users typing_keys].
  split; [apply registry_add_lookup|]. split; [|split; [|done]].
  - unfold GetSessionConnectionCount. cbn [connections set_connections].
    rewrite registry_add_lookup, length_app.
    destruct (connections w !! sessionID); simpl; lia.
  - intros other Hne. unfold GetSessionConnectionCount.
    cbn [connections set_connections].
    by rewrite registry_add_lookup_ne.
Qed.

Lemma registry_add_then_remove sessionID conn reg :
  no_empty_session reg →
  ¬ has_user (UserID conn) (default [] (reg !! sessionID)) →
  registry_remove sessionID (UserID conn) (registry_add sessionID conn reg) =
  reg.
Proof.
  intros Hreg Hnew.
  assert (Hall : Forall (λ x, UserID x ≠ UserID conn)
                   (default [] (reg !! sessionID))).
  { apply Forall_forall. intros c Hc Hu. apply Hnew.
    apply Exists_exists. by exists c. }
  rewrite (registry_remove_found _ _ _ (default [] (reg !! sessionID))
             conn []); [|by rewrite registry_add_lookup|done|done].
  rewrite app_nil_r. unfold registry_add.
  destruct (reg !! sessionID) as [conns|] eqn:Hs; simpl.
  - rewrite bool_decide_eq_false_2 by (by apply (Hreg sessionID)).
    by rewrite insert_insert_eq, insert_id.
  - rewrite !delete_insert_eq. by apply delete_id.
Qed.

(** X2.  Adding a connection of a user who has no connection in the session
    and removing that user again gives back the registry as it was, for a
    registry without empty sessions. *)
Theorem add_then_remove_restores sessionID conn w :
  no_empty_session (connections w) →
  ¬ has_user (UserID conn) (default [] (connections w !! sessionID)) →
  connections
    (world (removeConnection sessionID (UserID conn)
              (world (addConnection sessionID conn w)))) =
  connections w.
Proof.
  intros Hreg Hnew.
  rewrite addConnection_run, removeConnection_run, !world_triple.
  cbn [connections set_connections].
  by apply registry_add_then_remove.
Qed.

(** [agent1] is not connected twice: [cust1] comes and goes. *)
Lemma add_then_remove_restores_witness :
  no_empty_session (connections agent_waiting) ∧
  ¬ has_user (UserID cust1_conn)
      (default [] (connections agent_waiting !! session1)) ∧
  connections
    (world (removeConnection session1 "cust1"
              (world (addConnection session1 cust1_conn agent_waiting)))) =
  connections agent_waiting.
Proof.
  assert (Hreg : no_empty_session (connections agent_waiting))
    by (apply reachable_no_empty; repeat constructor).
  assert (Hnew : ¬ has_user (UserID cust1_conn)
                     (default [] (connections agent_waiting !! session1))).
  { intros H. vm_compute in H. apply Exists_cons in H as [H|H];
      [discriminate|by apply Exists_nil in H]. }
  split; [exact Hreg|]. split; [exact Hnew|].
  exact (add_then_remove_restores session1 cust1_conn agent_waiting Hreg Hnew).
Defined.

(** X3.  The two monitoring functions agree: [GetActiveConnections] lists
    exactly the sessions of the registry, each with the number
    [GetSessionConnectionCount] returns, and a session that is not listed
    counts 0.  In a registry the manager can reach, every listed number is
    positive. *)
Theorem connection_counts_agree w sessionID :
  GetActiveConnections w !! sessionID =
    length <$> connections w !! sessionID ∧
  GetSessionConnectionCount sessionID w =
    default 0%nat (GetActiveConnections w !! sessionID) ∧
  (reachable (connections w) →
   ∀ n, GetActiveConnections w !! sessionID = Some n → (0 < n)%nat).
Proof.
  rewrite GetActiveConnections_lookup. split; [done|]. split.
  - unfold GetSessionConnectionCount. by destruct (connections w !! sessionID).
  - intros Hreach n.
    destruct (connections w !! sessionID) as [conns|] eqn:Hs; [|done].
    intros [= <-]. pose proof (reachable_no_empty _ Hreach _ _ Hs).
    destruct conns; [done|simpl; lia].
Qed.

(** [two_users] counts two connections in [session1]. *)
Lemma connection_counts_agree_witness :
  reachable (connections two_users) ∧
  GetActiveConnections two_users !! session1 = Some 2%nat ∧
  GetSessionConnectionCount session1 two_users = 2%nat.
Proof.
  assert (Hreach : reachable (connections two_users)) by (repeat constructor).
  destruct (connection_counts_agree two_users session1) as (Hlist & Hcount & Hpos).
  split; [exact Hreach|].
  assert (Hl : GetActiveConnections two_users !! session1 = Some 2%nat)
    by (rewrite Hlist; vm_compute; reflexivity).
  split; [exact Hl|].
  pose proof (Hpos Hreach 2%nat Hl) as _.
  rewrite Hcount, Hl. reflexivity.
Defined.

(** X4.  [removeConnection] takes at most one connection away: the session
    counts one connection less when the user has a connection there, and as
    many as before when it has none; the counts of the other sessions do not
    change. *)
Theorem removeConnection_count sessionID userID w :
  let w' := world (removeConnection sessionID userID w) in
  let conns := default [] (connections w !! sessionID) in
  (has_user userID conns →
     S (GetSessionConnectionCount sessionID w') =
     GetSessionConnectionCount sessionID w) ∧
  (¬ has_user userID conns →
     GetSessionConnectionCount sessionID w' =
     GetSessionConnectionCount sessionID w) ∧
  (∀ other, other ≠ sessionID →
     GetSessionConnectionCount other w' = GetSessionConnectionCount other w).
Proof.
  intros w' conns. subst w'. rewrite removeConnection_run, world_triple.
  assert (Hcount : ∀ (reg : gmap string (list WSConnection)) (s : string),
            match reg !! s with Some l => length l | None => 0%nat end =
            length (default [] (reg !! s)))
    by (intros reg s; by destruct (reg !! s)).
  unfold GetSessionConnectionCount. cbn [connections set_connections].
  rewrite !Hcount, registry_remove_conns. fold conns.
  split; [apply remove_first_length|]. split.
  - intros Hno. by rewrite remove_first_absent.
  - intros other Hne. by rewrite !Hcount, registry_remove_lookup_ne.
Qed.

(** [cust1] leaves [two_users]: one connection is left. *)
Lemma removeConnection_count_witness :
  has_user "cust1" (default [] (connections two_users !! session1)) ∧
  ¬ has_user "nobody" (default [] (connections two_users !! session1)) ∧
  GetSessionConnectionCount session1
    (world (removeConnection session1 "cust1" two_users)) = 1%nat ∧
  GetSessionConnectionCount session1
    (world (removeConnection session1 "nobody" two_users)) = 2%nat.
Proof.
  assert (Hyes : has_user "cust1"
                   (default [] (connections two_users !! session1)))
    by (vm_compute; by apply Exists_cons_hd).
  assert (Hno : ¬ has_user "nobody"
                    (default [] (connections two_users !! session1))).
  { intros H. vm_compute in H.
    apply Exists_cons in H as [H|H]; [discriminate|].
    apply Exists_cons in H as [H|H]; [discriminate|by apply Exists_nil in H]. }
  split; [exact Hyes|]. split; [exact Hno|].
  destruct (removeConnection_count session1 "cust1" two_users) as (Hone & _ & _).
  destruct (removeConnection_count session1 "nobody" two_users) as (_ & Hsame & _).
  specialize (Hone Hyes). specialize (Hsame Hno).
  split; [|rewrite Hsame; reflexivity].
  change (GetSessionConnectionCount session1 two_users) with 2%nat in Hone.
  lia.
Defined.

(** ** Broadcast *)

Lemma remove_first_sublist userID conns :
  sublist (remove_first userID conns) conns.
Proof.
  induction conns as [|c l IH]; [done|].
  rewrite remove_first_cons. case_bool_decide.
  - by apply sublist_cons.
  - by apply sublist_skip.
Qed.

Lemma prune_sublist env sessionID conns reg :
  sublist (default [] (prune env sessionID conns reg !! sessionID))
    (default [] (reg !! sessionID)).
Proof.
  revert reg. induction conns as [|c rest IH]; intros reg; [done|].
  change (prune env sessionID (c :: rest) reg) with
    (prune env sessionID rest
       (if write_fails env (Conn c)
        then registry_remove sessionID (UserID c) reg else reg)).
  etrans; [apply IH|].
  destruct (write_fails env (Conn c)); [|done].
  rewrite registry_remove_conns. apply remove_first_sublist.
Qed.

Lemma prune_lookup_ne env sessionID other conns reg :
  other ≠ sessionID → prune env sessionID conns reg !! other = reg !! other.
Proof.
  intros Hne. revert reg. induction conns as [|c rest IH]; intros reg; [done|].
  change (prune env sessionID (c :: rest) reg) with
    (prune env sessionID rest
       (if write_fails env (Conn c)
        then registry_remove sessionID (UserID c) reg else reg)).
  rewrite IH. destruct (write_fails env (Conn c)); [|done].
  by apply registry_remove_lookup_ne.
Qed.

Lemma broadcast_events_written env sessionID message conns :
  omap written (broadcast_events env sessionID message conns) =
  map (λ c, (Conn c, message, negb (write_fails env (Conn c)))) conns.
Proof.
  unfold broadcast_events. induction conns as [|c rest IH]; [done|].
  simpl. rewrite omap_app, IH. unfold delivery_events.
  by destruct (write_fails env (Conn c)).
Qed.

(** X5.  A broadcast writes the message once to every connection the
    session has when it starts, in the order of the list, and writes nothing
    else; a failed write does not keep the later connections from being
    written.  Afterwards the connections of the session are some of those it
    had, in the same order; the other sessions, the presence store and the
    typing keys are untouched, and neither Redis nor Kafka is called. *)
Theorem broadcast_one_write_each env sessionID message w :
  let r := broadcastToSession env sessionID message w in
  let conns := default [] (connections w !! sessionID) in
  omap written (events r) =
    map (λ c, (Conn c, message, negb (write_fails env (Conn c)))) conns ∧
  sublist (default [] (connections (world r) !! sessionID)) conns ∧
  (∀ other, other ≠ sessionID →
     connections (world r) !! other = connections w !! other) ∧
  session_users (world r) = session_users w ∧
  typing_keys (world r) = typing_keys w ∧
  redis_n (world r) = redis_n w ∧ kafka_n (world r) = kafka_n w.
Proof.
  intros r conns. subst r. rewrite broadcastToSession_run. cbv zeta.
  rewrite world_triple, events_triple. fold conns.
  cbn [connections set_connections session_users typing_keys redis_n kafka_n].
  split; [apply broadcast_events_written|].
  split; [apply prune_sublist|].
  split; [|done]. intros other Hne. by apply prune_lookup_ne.
Qed.

(** X6.  When no write fails, a broadcast changes nothing at all: the state
    after it is the state before, and its events are the successful writes,
    one per connection.  For a session without connections there is no
    event. *)
Theorem broadcast_healthy_changes_nothing env sessionID message w :
  let conns := default [] (connections w !! sessionID) in
  Forall (λ c, write_fails env (Conn c) = false) conns →
  let r := broadcastToSession env sessionID message w in
  world r = w ∧
  events r = map (λ c, EvWriteJSON (Conn c) message true) conns ∧
  (connections w !! sessionID = None → events r = []).
Proof.
  intros conns Hok r. subst r. rewrite broadcastToSession_run. cbv zeta.
  rewrite world_triple, events_triple. fold conns.
  assert (Hev : broadcast_events env sessionID message conns =
                map (λ c, EvWriteJSON (Conn c) message true) conns).
  { unfold broadcast_events. induction Hok as [|c l Hc _ IH]; [done|].
    simpl. rewrite IH. unfold delivery_events. by rewrite Hc. }
  split; [|split; [exact Hev|]].
  - unfold set_connections. rewrite (prune_healthy _ _ _ _ Hok).
    by destruct w.
  - intros Hs. rewrite Hev. subst conns. by rewrite Hs.
Qed.

(** Both sockets of [two_users] are healthy. *)
Lemma broadcast_healthy_changes_nothing_witness :
  Forall (λ c, write_fails all_up (Conn c) = false)
    (default [] (connections two_users !! session1)) ∧
  ∀ message,
    world (broadcastToSession all_up session1 message two_users) = two_users ∧
    events (broadcastToSession all_up session1 message two_users) =
      [EvWriteJSON 1 message true; EvWriteJSON 2 message true].
Proof.
  assert (Hok : Forall (λ c, write_fails all_up (Conn c) = false)
                  (default [] (connections two_users !! session1)))
    by (apply Forall_forall; intros c _; reflexivity).
  split; [exact Hok|]. intros message.
  destruct (broadcast_healthy_changes_nothing all_up session1 message two_users
              Hok) as (Hw & Hev & _).
  split; [exact Hw|]. rewrite Hev. reflexivity.
Defined.

(** X7.  The order in which the deliveries of a broadcast run does not
    matter: run in any order, they leave the same registry as in the order
    of the list, and perform the same events up to their order. *)
Theorem broadcast_order_irrelevant env sessionID message order w :
  order ≡ₚ default [] (connections w !! sessionID) →
  connections (world (deliver_all env sessionID message order w)) =
    connections (world (broadcastToSession env sessionID message w)) ∧
  events (deliver_all env sessionID message order w) ≡ₚ
    events (broadcastToSession env sessionID message w).
Proof.
  intros Hperm. rewrite broadcastToSession_run, deliver_all_run. cbv zeta.
  rewrite !world_triple, !events_triple.
  cbn [connections set_connections].
  split; [by apply prune_any_order|by apply broadcast_events_any_order].
Qed.

(** The two tabs of [two_tabs], A before B instead of B before A. *)
Lemma broadcast_order_irrelevant_witness :
  [tab_a; tab_b] ≡ₚ default [] (connections two_tabs !! session1) ∧
  ∀ message,
    connections (world (deliver_all socket1_down session1 message
                          [tab_a; tab_b] two_tabs)) =
    connections (world (broadcastToSession socket1_down session1 message
                          two_tabs)).
Proof.
  assert (Hperm : [tab_a; tab_b] ≡ₚ
                  default [] (connections two_tabs !! session1))
    by (vm_compute; apply Permutation_swap).
  split; [exact Hperm|]. intros message.
  apply (broadcast_order_irrelevant socket1_down session1 message
           [tab_a; tab_b] two_tabs Hperm).
Defined.

(** ** Presence store *)

Lemma world_RemoveUserFromSession env sessionID userID userType w :
  redis_fails env (redis_n w) = false →
  world (RemoveUserFromSession env sessionID userID userType w) =
  tick_redis (set_session_users (hdel sessionID userID) w).
Proof.
  intros Hup. rewrite RemoveUserFromSession_run. cbv zeta.
  by rewrite world_triple, Hup.
Qed.

Lemma all_decode_dom (users : gmap string text) :
  all_decode users → dom (omap json_Unmarshal_map users) = dom users.
Proof.
  intros Hall. apply set_eq. intros u. rewrite !elem_of_dom, lookup_omap.
  destruct (users !! u) as [t|] eqn:Hu; simpl.
  - split; [by eexists|]. intros _. by apply (Hall u).
  - split; intros [? ?]; done.
Qed.

Lemma entries_with_role_insert role (users : gmap string text) userID entry :
  users !! userID = None →
  entries_with_role role (<[userID := entry]> users) =
  ((if bool_decide (role_of entry = Some role) then 1 else 0) +
   entries_with_role role users)%nat.
Proof.
  intros Hu.
  rewrite (entries_with_role_split role (<[userID := entry]> users) userID entry)
    by apply lookup_insert_eq.
  by rewrite delete_insert_id.
Qed.

Lemma totals_bounded (users : gmap string text) :
  (entries_with_role "customer" users + entries_with_role "agent" users ≤
   size (omap json_Unmarshal_map users))%nat ∧
  (size (omap json_Unmarshal_map users) ≤ size users)%nat.
Proof.
  induction users as [|u entry users Hu IH] using map_ind.
  - rewrite !entries_with_role_empty, omap_empty, !map_size_empty. lia.
  - rewrite !entries_with_role_insert by done.
    rewrite (map_size_insert_None _ _ _ Hu).
    destruct (json_Unmarshal_map entry) eqn:Hd.
    + rewrite (omap_insert_Some _ _ _ _ _ Hd).
      rewrite map_size_insert_None by (by rewrite lookup_omap, Hu).
      unfold role_of. rewrite Hd.
      repeat case_bool_decide; simplify_eq; try congruence; lia.
    + rewrite (omap_insert_None _ _ _ _ Hd).
      rewrite delete_id by (by rewrite lookup_omap, Hu).
      unfold role_of. rewrite Hd.
      repeat case_bool_decide; simplify_eq; lia.
Qed.

(** X8.  When the store answers, the totals of a status never exceed the
    number of users it lists, and it lists at most as many users as the hash
    has fields: a user is counted under one role at most, and a field that
    does not decode is left out. *)
Theorem status_totals_bounded env sessionID w :
  redis_fails env (redis_n w) = false →
  ∃ status usersMap customerConnected agentConnected customers agents,
    result (GetSessionUsers env sessionID w) = Some status ∧
    status_fields status =
      Some (VMap usersMap, VBool customerConnected, VBool agentConnected,
            VNum (Z.of_nat customers), VNum (Z.of_nat agents)) ∧
    (customers + agents ≤ size usersMap)%nat ∧
    (size usersMap ≤ size (hash_of (session_users w) sessionID))%nat ∧
    world (GetSessionUsers env sessionID w) = tick_redis w.
Proof.
  intros Hup. rewrite GetSessionUsers_run, Hup.
  eexists _, _, _, _, _, _. split; [reflexivity|].
  split; [apply status_fields_eq|].
  split; [apply totals_bounded|]. split; [apply totals_bounded|done].
Qed.

(** The bound in [admin_only]. *)
Lemma status_totals_bounded_witness :
  redis_fails all_up (redis_n admin_only) = false ∧
  ∃ status usersMap customerConnected agentConnected customers agents,
    result (GetSessionUsers all_up session1 admin_only) = Some status ∧
    status_fields status =
      Some (VMap usersMap, VBool customerConnected, VBool agentConnected,
            VNum (Z.of_nat customers), VNum (Z.of_nat agents)) ∧
    (customers + agents ≤ size usersMap)%nat.
Proof.
  split; [reflexivity|].
  destruct (status_totals_bounded all_up session1 admin_only eq_refl)
    as (status & um & cc & ac & nc & na & Hres & Hf & Hle & _).
  exists status, um, cc, ac, nc, na.
  split; [exact Hres|]. split; [exact Hf|exact Hle].
Defined.

(** X9.  [RemoveUserFromSession], when the store accepts it, removes the
    entry of that user from the hash of that session and nothing else: the
    other entries of the session and the hashes of the other sessions stay,
    and for a user who has no entry (or a session that has no hash) nothing
    changes.  It touches neither the registry nor the typing keys. *)
Theorem leave_removes_only_that_user env sessionID userID userType w :
  redis_fails env (redis_n w) = false →
  let w' := world (RemoveUserFromSession env sessionID userID userType w) in
  hash_of (session_users w') sessionID =
    delete userID (hash_of (session_users w) sessionID) ∧
  (∀ other, other ≠ sessionID →
     hash_of (session_users w') other = hash_of (session_users w) other) ∧
  (hash_of (session_users w) sessionID !! userID = None →
     ∀ s, hash_of (session_users w') s = hash_of (session_users w) s) ∧
  connections w' = connections w ∧ typing_keys w' = typing_keys w.
Proof.
  intros Hup w'. subst w'. rewrite world_RemoveUserFromSession by done.
  cbn [session_users connections typing_keys tick_redis set_session_users].
  split; [apply hash_of_hdel|].
  split; [intros other Hne; by apply hash_of_hdel_ne|].
  split; [|done]. intros Habsent s.
  destruct (decide (s = sessionID)) as [->|Hne].
  - rewrite hash_of_hdel. by apply delete_id.
  - by apply hash_of_hdel_ne.
Qed.

(** [cust1] leaves [two_users]; [nobody] leaves it too. *)
Lemma leave_removes_only_that_user_witness :
  redis_fails all_up (redis_n two_users) = false ∧
  hash_of (session_users two_users) session1 !! "nobody" = None ∧
  dom (hash_of (session_users
         (world (RemoveUserFromSession all_up session1 "cust1" "customer"
                   two_users))) session1) = {["agent1"]} ∧
  hash_of (session_users
    (world (RemoveUserFromSession all_up session1 "nobody" "customer"
              two_users))) session1 =
  hash_of (session_users two_users) session1.
Proof.
  split; [reflexivity|]. split; [reflexivity|].
  destruct (leave_removes_only_that_user all_up session1 "cust1" "customer"
              two_users eq_refl) as (Hdel & _).
  destruct (leave_removes_only_that_user all_up session1 "nobody" "customer"
              two_users eq_refl) as (_ & _ & Hsame & _).
  split; [|apply (Hsame eq_refl)].
  rewrite Hdel. vm_compute. reflexivity.
Defined.

Lemma all_decode_insert users userID userType joinedAt :
  all_decode users →
  all_decode (<[userID := presence_entry userID userType joinedAt]> users).
Proof.
  intros Hall u t. destruct (decide (u = userID)) as [->|Hne].
  - rewrite lookup_insert_eq. intros [= <-]. by eexists.
  - rewrite lookup_insert_ne by done. apply Hall.
Qed.

Lemma all_decode_delete users userID :
  all_decode users → all_decode (delete userID users).
Proof.
  intros Hall u t Hu. apply lookup_delete_Some in Hu as [_ Hu].
  by apply (Hall u).
Qed.

Lemma presence_ops_run env sessionID ops w :
  (∀ i, (i < length ops)%nat → redis_fails env (redis_n w + i) = false) →
  let w' := world (presence_ops env sessionID ops w) in
  dom (hash_of (session_users w') sessionID) =
    present_after (dom (hash_of (session_users w) sessionID)) ops ∧
  (all_decode (hash_of (session_users w) sessionID) →
   all_decode (hash_of (session_users w') sessionID)) ∧
  (∀ other, other ≠ sessionID →
     hash_of (session_users w') other = hash_of (session_users w) other) ∧
  redis_n w' = (redis_n w + length ops)%nat ∧
  connections w' = connections w.
Proof.
  revert w. induction ops as [|op rest IH]; intros w Hup.
  - cbn [presence_ops present_after foldl length]. unfold ret.
    rewrite world_triple, Nat.add_0_r. by repeat split.
  - assert (Hfirst : redis_fails env (redis_n w) = false).
    { rewrite <-(Nat.add_0_r (redis_n w)). apply Hup. simpl. lia. }
    cbn [presence_ops length]. rewrite world_bind.
    set (w1 := world (presence_op env sessionID op w)).
    assert (Hn1 : redis_n w1 = S (redis_n w)).
    { subst w1. destruct op; cbn [presence_op];
        rewrite ?world_AddUserToSession, ?world_RemoveUserFromSession by done;
        reflexivity. }
    assert (Hc1 : connections w1 = connections w).
    { subst w1. destruct op; cbn [presence_op];
        rewrite ?world_AddUserToSession, ?world_RemoveUserFromSession by done;
        reflexivity. }
    destruct (IH w1) as (Hdom & Hdec & Hother & Hn & Hc).
    { intros i Hi. rewrite Hn1.
      replace (S (redis_n w) + i)%nat with (redis_n w + S i)%nat by lia.
      apply Hup. simpl. lia. }
    rewrite Hdom, Hn, Hc, Hn1, Hc1.
    split; [|split; [|split; [|split; [lia|done]]]].
    + unfold present_after at 2. cbn [foldl].
      fold (present_after
              (match op with
               | Join userID _ =>
                   dom (hash_of (session_users w) sessionID) ∪ {[userID]}
               | Leave userID _ =>
                   dom (hash_of (session_users w) sessionID) ∖ {[userID]}
               end) rest).
      f_equal. subst w1. destruct op as [u t|u t]; cbn [presence_op].
      * rewrite world_AddUserToSession by done.
        cbn [session_users tick_redis set_session_users].
        rewrite hash_of_hset, dom_insert_L. set_solver.
      * rewrite world_RemoveUserFromSession by done.
        cbn [session_users tick_redis set_session_users].
        by rewrite hash_of_hdel, dom_delete_L.
    + intros Hall. apply Hdec. subst w1.
      destruct op as [u t|u t]; cbn [presence_op].
      * rewrite world_AddUserToSession by done.
        cbn [session_users tick_redis set_session_users].
        rewrite hash_of_hset. by apply all_decode_insert.
      * rewrite world_RemoveUserFromSession by done.
        cbn [session_users tick_redis set_session_users].
        rewrite hash_of_hdel. by apply all_decode_delete.
    + intros other Hne. rewrite Hother by done. subst w1.
      destruct op as [u t|u t]; cbn [presence_op].
      * rewrite world_AddUserToSession by done.
        cbn [session_users tick_redis set_session_users].
        by apply hash_of_hset_ne.
      * rewrite world_RemoveUserFromSession by done.
        cbn [session_users tick_redis set_session_users].
        by apply hash_of_hdel_ne.
Qed.

(** X10.  After any sequence of joins and leaves on a session that the
    store accepts, the users of the session are those that were there, with
    every user added at each of its joins and taken away at each of its
    leaves (joining twice or leaving twice is as once); the other sessions
    are as they were.  When the entries that were there all decode, the
    status read next lists exactly these users. *)
Theorem presence_follows_joins_and_leaves env sessionID ops w :
  (∀ i, (i < length ops)%nat → redis_fails env (redis_n w + i) = false) →
  redis_fails env (redis_n w + length ops) = false →
  let w' := world (presence_ops env sessionID ops w) in
  let present := present_after (dom (hash_of (session_users w) sessionID)) ops in
  dom (hash_of (session_users w') sessionID) = present ∧
  (∀ other, other ≠ sessionID →
     hash_of (session_users w') other = hash_of (session_users w) other) ∧
  (all_decode (hash_of (session_users w) sessionID) →
   ∃ status usersMap,
     result (GetSessionUsers env sessionID w') = Some status ∧
     index status "users" = Some (VMap usersMap) ∧
     dom usersMap = present).
Proof.
  intros Hup Hread w' present.
  destruct (presence_ops_run env sessionID ops w Hup)
    as (Hdom & Hdec & Hother & Hn & _).
  fold w' in Hdom, Hdec, Hother, Hn.
  split; [exact Hdom|]. split; [exact Hother|].
  intros Hall. rewrite GetSessionUsers_run, Hn, Hread.
  eexists _, _. split; [reflexivity|].
  split; [by rewrite session_status_eq|].
  rewrite all_decode_dom by (by apply Hdec). exact Hdom.
Qed.

(** [a] joins twice, [b] joins and leaves twice: [a] alone is present. *)
Lemma presence_follows_joins_and_leaves_witness :
  let ops := [Join "a" "customer"; Join "b" "agent"; Join "a" "customer";
              Leave "b" "agent"; Leave "b" "agent"] in
  (∀ i, (i < length ops)%nat → redis_fails all_up (redis_n start + i) = false) ∧
  redis_fails all_up (redis_n start + length ops) = false ∧
  all_decode (hash_of (session_users start) session1) ∧
  dom (hash_of (session_users (world (presence_ops all_up session1 ops start)))
         session1) = {["a"]}.
Proof.
  intros ops.
  assert (Hup : ∀ i, (i < length ops)%nat →
                     redis_fails all_up (redis_n start + i) = false)
    by (intros i _; reflexivity).
  assert (Hall : all_decode (hash_of (session_users start) session1)).
  { intros u t Hu. vm_compute in Hu. discriminate. }
  split; [exact Hup|]. split; [reflexivity|]. split; [exact Hall|].
  destruct (presence_follows_joins_and_leaves all_up session1 ops start Hup
              eq_refl) as (Hdom & _ & Hstatus).
  destruct (Hstatus Hall) as (status & um & _ & _ & _).
  rewrite Hdom. vm_compute. reflexivity.
Defined.

(** X11.  A user who has no entry joins and leaves, the store accepting
    both: the hash of the session is as it was, so a status read then is the
    status that would have been read before. *)
Theorem join_then_leave_restores env sessionID userID userType w :
  redis_fails env (redis_n w) = false →
  redis_fails env (S (redis_n w)) = false →
  hash_of (session_users w) sessionID !! userID = None →
  let w' :=
    world (RemoveUserFromSession env sessionID userID userType
             (world (AddUserToSession env sessionID userID userType w))) in
  (∀ s, hash_of (session_users w') s = hash_of (session_users w) s) ∧
  ∀ env', redis_fails env' (redis_n w') = redis_fails env' (redis_n w) →
    result (GetSessionUsers env' sessionID w') =
    result (GetSessionUsers env' sessionID w).
Proof.
  intros Hjoin Hleave Hnew w'.
  assert (Hhash : ∀ s, hash_of (session_users w') s =
                       hash_of (session_users w) s).
  { intros s. subst w'. rewrite world_AddUserToSession by done.
    rewrite world_RemoveUserFromSession by done.
    cbn [session_users tick_redis set_session_users].
    destruct (decide (s = sessionID)) as [->|Hne].
    - rewrite hash_of_hdel, hash_of_hset. by apply delete_insert_id.
    - rewrite hash_of_hdel_ne, hash_of_hset_ne by done. done. }
  split; [exact Hhash|].
  intros env' Henv. rewrite !GetSessionUsers_run. unfold result; cbn [fst].
  by rewrite Henv, Hhash.
Qed.

(** [cust1] joins [agent_waiting] and leaves. *)
Lemma join_then_leave_restores_witness :
  redis_fails all_up (redis_n agent_waiting) = false ∧
  redis_fails all_up (S (redis_n agent_waiting)) = false ∧
  hash_of (session_users agent_waiting) session1 !! "cust1" = None ∧
  hash_of (session_users
    (world (RemoveUserFromSession all_up session1 "cust1" "customer"
       (world (AddUserToSession all_up session1 "cust1" "customer"
                 agent_waiting))))) session1 =
  hash_of (session_users agent_waiting) session1.
Proof.
  split; [reflexivity|]. split; [reflexivity|]. split; [reflexivity|].
  destruct (join_then_leave_restores all_up session1 "cust1" "customer"
              agent_waiting eq_refl eq_refl eq_refl) as [Hhash _].
  exact (Hhash session1).
Defined.

(** ** Typing flags *)

Lemma SetUserTyping_run env sessionID userID isTyping w :
  SetUserTyping env sessionID userID isTyping w =
  let ok := negb (redis_fails env (redis_n w)) in
  (ok,
   tick_redis
     (if ok then
        set_typing_keys
          (if isTyping then <[(sessionID, userID) := (clock w + 30)%Z]>
           else delete (sessionID, userID)) w
      else w),
   [EvRedis (if isTyping then SETEX sessionID userID 30
             else DEL sessionID userID) ok]).
Proof. unfold SetUserTyping. by destruct isTyping. Qed.

Lemma GetTypingUsers_run env sessionID w :
  GetTypingUsers env sessionID w =
  (if redis_fails env (redis_n w) then None
   else Some (omap (λ k : string * string,
                      if bool_decide (0 < String.length k.2)%nat
                      then Some k.2 else None)
                (filter (λ k, k.1 = sessionID ∧ live w k.1 k.2)
                   (map fst (map_to_list (typing_keys w))))),
   tick_redis w,
   [EvRedis (KEYS sessionID) (negb (redis_fails env (redis_n w)))]).
Proof.
  unfold GetTypingUsers, bind, get, redis, ret; simpl.
  by destruct (redis_fails env (redis_n w)).
Qed.

Lemma length_pos_nonempty (s : string) :
  (0 < String.length s)%nat ↔ s ≠ "".
Proof. destruct s; simpl; split; (done || lia). Qed.

Lemma live_is_key w sessionID userID :
  live w sessionID userID = true →
  (sessionID, userID) ∈ map fst (map_to_list (typing_keys w)).
Proof.
  unfold live. destruct (typing_keys w !! (sessionID, userID)) as [t|] eqn:Hk;
    [|done].
  intros _. apply list_elem_of_fmap. exists ((sessionID, userID), t).
  split; [done|]. by apply elem_of_map_to_list.
Qed.

Lemma users_of_keys_NoDup sessionID (keys : list (string * string)) :
  NoDup keys → Forall (λ k, k.1 = sessionID) keys →
  NoDup (omap (λ k : string * string,
                 if bool_decide (0 < String.length k.2)%nat
                 then Some k.2 else None) keys).
Proof.
  induction 1 as [|k l Hk _ IH]; intros Hall; [constructor|].
  apply Forall_cons in Hall as [Hs Hall]. simpl.
  case_bool_decide; [|by apply IH].
  constructor; [|by apply IH].
  rewrite list_elem_of_omap. intros (k' & Hin & Hk').
  case_bool_decide; [|done]. injection Hk' as Hk'.
  apply Hk. replace k with k'; [done|].
  rewrite Forall_forall in Hall. specialize (Hall k' Hin). simpl in Hall.
  destruct k, k'. simpl in *. congruence.
Qed.

Lemma GetTypingUsers_members env sessionID w users userID :
  result (GetTypingUsers env sessionID w) = Some users →
  userID ∈ users ↔ live w sessionID userID = true ∧ userID ≠ "".
Proof.
  rewrite GetTypingUsers_run. unfold result; cbn [fst].
  destruct (redis_fails env (redis_n w)); [done|]. intros [= <-].
  rewrite list_elem_of_omap. split.
  - intros ([s u'] & Hin & Hsome). simpl in Hsome.
    case_bool_decide as Hlen; [|done]. injection Hsome as ->.
    apply list_elem_of_filter in Hin as [[Hs Hlive] _]. simpl in Hs, Hlive.
    subst s. split; [by apply Is_true_true|].
    by apply length_pos_nonempty.
  - intros [Hlive Hne]. exists (sessionID, userID). split.
    + apply list_elem_of_filter. split; [|by apply live_is_key].
      simpl. split; [done|]. by apply Is_true_true.
    + simpl. rewrite bool_decide_eq_true_2; [done|].
      by apply length_pos_nonempty.
Qed.

(** X12.  What [GetTypingUsers] returns, when Redis answers, are the users
    of the session whose typing key has not expired, each once, and never
    the empty user id (a key that is only the prefix is skipped).  It
    changes nothing. *)
Theorem GetTypingUsers_lists_live env sessionID w users :
  result (GetTypingUsers env sessionID w) = Some users →
  NoDup users ∧
  (∀ userID, userID ∈ users ↔ live w sessionID userID = true ∧ userID ≠ "") ∧
  typing_keys (world (GetTypingUsers env sessionID w)) = typing_keys w ∧
  connections (world (GetTypingUsers env sessionID w)) = connections w.
Proof.
  intros Hres.
  split; [|split; [intros u; by apply (GetTypingUsers_members env)|]].
  - rewrite GetTypingUsers_run in Hres. unfold result in Hres; cbn [fst] in Hres.
    destruct (redis_fails env (redis_n w)); [done|]. injection Hres as <-.
    apply (users_of_keys_NoDup sessionID).
    + apply NoDup_filter, NoDup_fst_map_to_list.
    + apply Forall_forall. intros k Hk.
      by apply list_elem_of_filter in Hk as [[Hs _] _].
  - by rewrite GetTypingUsers_run, world_triple.
Qed.

(** [cust1] is typing in [session1] and nobody else. *)
Lemma GetTypingUsers_lists_live_witness :
  let w := world (SetUserTyping all_up session1 "cust1" true two_users) in
  result (GetTypingUsers all_up session1 w) = Some ["cust1"] ∧
  live w session1 "cust1" = true ∧
  live w session1 "agent1" = false.
Proof.
  intros w.
  assert (Hres : result (GetTypingUsers all_up session1 w) = Some ["cust1"])
    by (vm_compute; reflexivity).
  split; [exact Hres|].
  destruct (GetTypingUsers_lists_live all_up session1 w ["cust1"] Hres)
    as (_ & Hiff & _).
  split.
  - apply Hiff. apply list_elem_of_here.
  - destruct (live w session1 "agent1") eqn:Hl; [|reflexivity].
    assert (Hin : "agent1" ∈ ["cust1"]) by (apply Hiff; split; [exact Hl|discriminate]).
    apply list_elem_of_singleton in Hin. discriminate.
Defined.

(** X13.  Setting and reading the typing flag: after [SetUserTyping] with
    [true] is accepted for a user with a non-empty id, [GetTypingUsers]
    lists the user for the next 30 seconds and no longer from then on;
    after [SetUserTyping] with [false] is accepted it does not list the
    user, whatever was set before; either way the flags of the other users
    and sessions are read as before. *)
Theorem typing_flag_set_then_read env sessionID userID isTyping w :
  redis_fails env (redis_n w) = false →
  userID ≠ "" →
  let w' := world (SetUserTyping env sessionID userID isTyping w) in
  (∀ d users,
     result (GetTypingUsers env sessionID (elapse d w')) = Some users →
     (userID ∈ users ↔ isTyping = true ∧ (d < 30)%Z)) ∧
  (∀ d s u, (s, u) ≠ (sessionID, userID) →
     live (elapse d w') s u = live (elapse d w) s u).
Proof.
  intros Hup Hne w'.
  assert (Hw' : w' = tick_redis
            (set_typing_keys
               (if isTyping then <[(sessionID, userID) := (clock w + 30)%Z]>
                else delete (sessionID, userID)) w)).
  { subst w'. rewrite SetUserTyping_run. cbv zeta.
    by rewrite world_triple, Hup. }
  split.
  - intros d users Hres.
    rewrite (GetTypingUsers_members env sessionID (elapse d w') users userID
               Hres).
    rewrite Hw'. unfold live.
    cbn [typing_keys clock elapse tick_redis set_typing_keys].
    destruct isTyping.
    + rewrite lookup_insert_eq. rewrite bool_decide_eq_true.
      split; [intros [? _]; split; [done|lia]|intros [_ ?]; split; [lia|done]].
    + rewrite lookup_delete_eq. split; [by intros [? _]|by intros [? _]].
  - intros d s u Hother. rewrite Hw'. unfold live.
    cbn [typing_keys clock elapse tick_redis set_typing_keys].
    destruct isTyping.
    + by rewrite lookup_insert_ne.
    + by rewrite lookup_delete_ne.
Qed.

(** [cust1] starts typing: listed 10 seconds later, not 30 seconds later. *)
Lemma typing_flag_set_then_read_witness :
  let w' := world (SetUserTyping all_up session1 "cust1" true two_users) in
  redis_fails all_up (redis_n two_users) = false ∧
  "cust1" ≠ "" ∧
  (∀ users,
     result (GetTypingUsers all_up session1 (elapse 10 w')) = Some users →
     "cust1" ∈ users) ∧
  (∀ users,
     result (GetTypingUsers all_up session1 (elapse 30 w')) = Some users →
     "cust1" ∉ users).
Proof.
  intros w'.
  destruct (typing_flag_set_then_read all_up session1 "cust1" true two_users
              eq_refl ltac:(discriminate)) as [Hread _].
  split; [reflexivity|]. split; [discriminate|]. split.
  - intros users Hres. apply (Hread 10%Z users Hres). split; [reflexivity|lia].
  - intros users Hres Hin. apply (Hread 30%Z users Hres) in Hin as [_ Hlt]. lia.
Defined.

(** ** Connection lifecycle *)

Lemma broadcast_events_own_or_broadcast env c sessionID message conns :
  broadcast_type (resp_Type message) →
  Forall (own_or_broadcast c) (broadcast_events env sessionID message conns).
Proof.
  intros Hty. unfold broadcast_events.
  induction conns as [|x rest IH]; simpl; [constructor|].
  apply Forall_app. split; [|done].
  unfold delivery_events. destruct (write_fails env (Conn x)).
  - apply Forall_cons; split; [by right|].
    apply Forall_cons; split; [done|by apply Forall_nil].
  - apply Forall_cons; split; [by right|by apply Forall_nil].
Qed.

Lemma kafka_events_own_or_broadcast env c sessionID mk w :
  Forall (own_or_broadcast c) (kafka_events env sessionID mk w).
Proof.
  unfold kafka_events. destruct (uuid_Parse env sessionID).
  - apply Forall_cons; split; [done|by apply Forall_nil].
  - by apply Forall_nil.
Qed.

Lemma handleTypingIndicator_effect env c sessionID userID userType isTyping w :
  let r := handleTypingIndicator env sessionID userID userType isTyping w in
  session_users (world r) = session_users w ∧
  pruned_or_same env sessionID w (world r) ∧
  Forall (own_or_broadcast c) (events r).
Proof.
  cbv zeta. rewrite handleTypingIndicator_run. cbv zeta.
  rewrite world_triple, events_triple. split; [|split].
  - unfold after_kafka. destruct (uuid_Parse env sessionID), (negb _); done.
  - right. rewrite after_kafka_connections.
    cbn [connections set_connections]. f_equal. by destruct (negb _).
  - constructor; [done|]. apply Forall_app. split.
    + apply broadcast_events_own_or_broadcast. by left.
    + apply kafka_events_own_or_broadcast.
Qed.

Lemma broadcastConnectionStatusWithContext_effect env c sessionID eventType
    eventUserID w :
  let r := broadcastConnectionStatusWithContext env sessionID eventType
             eventUserID w in
  session_users (world r) = session_users w ∧
  pruned_or_same env sessionID w (world r) ∧
  Forall (own_or_broadcast c) (events r).
Proof.
  cbv zeta. rewrite broadcastConnectionStatusWithContext_run. cbv zeta.
  destruct (redis_fails env (redis_n w)); rewrite world_triple, events_triple.
  - split; [done|]. split; [by left|].
    apply Forall_cons; split; [done|by apply Forall_nil].
  - split; [|split].
    + unfold after_kafka. by destruct (uuid_Parse env sessionID).
    + right. by rewrite after_kafka_connections.
    + constructor; [done|]. apply Forall_app. split.
      * apply broadcast_events_own_or_broadcast. right.
        apply connection_status_update_data.
      * apply kafka_events_own_or_broadcast.
Qed.

Lemma handleIncomingMessage_effect env c msg sessionID userID userType w :
  let r := handleIncomingMessage env c msg sessionID userID userType w in
  session_users (world r) = session_users w ∧
  pruned_or_same env sessionID w (world r) ∧
  Forall (own_or_broadcast c) (events r).
Proof.
  cbv zeta. unfold handleIncomingMessage. cbv zeta.
  repeat case_bool_decide;
    try apply handleTypingIndicator_effect;
    (split; [reflexivity|]; split; [by left|]);
    (apply Forall_cons; split; [by left|by apply Forall_nil]).
Qed.

(** A property of registries that removals keep, as far as removals can
    happen: a broadcast removes only when a write fails. *)
Lemma pruned_keeps env sessionID w w'
    (P : gmap string (list WSConnection) → Prop) :
  (∀ x s u reg, write_fails env x = true → P reg →
                P (registry_remove s u reg)) →
  pruned_or_same env sessionID w w' →
  P (connections w) → P (connections w').
Proof.
  intros Hrem [-> | ->]; [done|].
  generalize (default [] (connections w !! sessionID)).
  intros conns. generalize (connections w).
  induction conns as [|x l IHl]; intros reg HP; [done|].
  change (prune env sessionID (x :: l) reg) with
    (prune env sessionID l
       (if write_fails env (Conn x)
        then registry_remove sessionID (UserID x) reg else reg)).
  apply IHl. destruct (write_fails env (Conn x)) eqn:Hx; [|done].
  by apply (Hrem (Conn x)).
Qed.

Lemma read_loop_effect env c sessionID userID userType inbox :
  ∀ w (P : gmap string (list WSConnection) → Prop),
    (∀ x s u reg, write_fails env x = true → P reg →
                  P (registry_remove s u reg)) →
    P (connections w) →
    let r := read_loop env c sessionID userID userType inbox w in
    session_users (world r) = session_users w ∧
    P (connections (world r)) ∧
    Forall (own_or_broadcast c) (events r).
Proof.
  induction inbox as [|msg rest IH]; intros w P Hrem HP.
  - cbn [read_loop]. unfold ret. rewrite world_triple, events_triple.
    by repeat split.
  - cbn [read_loop]. cbv zeta. rewrite world_bind, events_bind.
    destruct (handleIncomingMessage_effect env c msg sessionID userID userType w)
      as (Hs & Hc & He).
    set (w1 := world (handleIncomingMessage env c msg sessionID userID
                        userType w)) in *.
    assert (HP1 : P (connections w1))
      by (by apply (pruned_keeps env sessionID w w1)).
    destruct (IH w1 P Hrem HP1) as (Hs' & HP' & He').
    split; [by rewrite Hs', Hs|]. split; [done|].
    apply Forall_app. by split.
Qed.

Lemma sendWelcomeMessage_run env c sessionID userID userType w :
  ∃ frame,
    sendWelcomeMessage env c sessionID userID userType w =
      (tt, w, [EvWriteJSON c frame (negb (write_fails env c))]) ∧
    resp_Type frame = "connection_established".
Proof. eexists. split; reflexivity. Qed.

Lemma serve_effect env c sessionID userID userType inbox w
    (P : gmap string (list WSConnection) → Prop) :
  (∀ x s u reg, write_fails env x = true → P reg →
                P (registry_remove s u reg)) →
  P (registry_add sessionID
       {| Conn := c; UserID := userID; UserType := userType;
          SessionID := sessionID |} (connections w)) →
  let r := serve env c sessionID userID userType inbox w in
  session_users (world r) =
    (if redis_fails env (redis_n w) then session_users w
     else hset sessionID userID (presence_entry userID userType (clock w))
            (session_users w)) ∧
  P (connections (world r)) ∧
  Forall (own_or_broadcast c) (events r).
Proof.
  intros Hrem HP. cbv zeta. unfold serve.
  rewrite world_bind, events_bind, addConnection_run, world_triple,
    events_triple.
  set (w1 := set_connections _ w).
  rewrite world_bind, events_bind, AddUserToSession_run. cbv zeta.
  rewrite world_triple, events_triple.
  set (w2 := tick_redis _).
  assert (Hs2 : session_users w2 =
                if redis_fails env (redis_n w) then session_users w
                else hset sessionID userID
                       (presence_entry userID userType (clock w))
                       (session_users w)).
  { subst w2 w1. cbn [redis_n set_connections]. by destruct (redis_fails _ _). }
  assert (Hc2 : P (connections w2)).
  { subst w2 w1. cbn [redis_n set_connections].
    by destruct (redis_fails _ _). }
  rewrite world_bind, events_bind.
  destruct (broadcastConnectionStatusWithContext_effect env c sessionID
              "user_connected" userID w2) as (Hs3 & Hc3 & He3).
  set (w3 := world (broadcastConnectionStatusWithContext env sessionID
                      "user_connected" userID w2)) in *.
  assert (HP3 : P (connections w3))
    by (by apply (pruned_keeps env sessionID w2 w3)).
  rewrite world_bind, events_bind.
  destruct (sendWelcomeMessage_run env c sessionID userID userType w3)
    as (frame & -> & Hframe).
  rewrite world_triple, events_triple.
  destruct (read_loop_effect env c sessionID userID userType inbox w3 P Hrem HP3)
    as (Hs4 & HP4 & He4).
  split; [by rewrite Hs4, Hs3|]. split; [done|].
  apply Forall_cons; split; [done|].
  apply Forall_cons; split; [done|].
  apply Forall_app; split; [done|].
  apply Forall_cons; split; [by left|done].
Qed.

Lemma closing_effect env c sessionID userID userType w
    (P : gmap string (list WSConnection) → Prop) :
  (∀ x s u reg, write_fails env x = true → P reg →
                P (registry_remove s u reg)) →
  P (registry_remove sessionID userID (connections w)) →
  let r := closing env c sessionID userID userType w in
  session_users (world r) =
    (if redis_fails env (redis_n w) then session_users w
     else hdel sessionID userID (session_users w)) ∧
  P (connections (world r)) ∧
  ∃ before, events r = before ++ [EvClose c] ∧
            Forall (own_or_broadcast c) before.
Proof.
  intros Hrem HP. cbv zeta. rewrite closing_run. cbv zeta.
  rewrite world_triple, events_triple.
  set (w2 := set_connections _ _).
  destruct (broadcastConnectionStatusWithContext_effect env c sessionID
              "user_disconnected" userID w2) as (Hs3 & Hc3 & He3).
  split; [|split].
  - rewrite Hs3. subst w2. by destruct (redis_fails _ _).
  - apply (pruned_keeps env sessionID w2 _ P Hrem Hc3).
    subst w2. by destruct (negb _).
  - eexists (_ :: _ :: _). split; [reflexivity|].
    apply Forall_cons; split; [done|]. by apply Forall_cons.
Qed.

Lemma invalid_session_id_aux env c sessionID userID userType inbox w :
  uuid_Parse env sessionID = None →
  HandleConnection env c sessionID userID userType inbox w =
  (tt, w,
   [EvWriteJSON c
      {| resp_Type := "error"; resp_Success := false; resp_Data := VNil;
         resp_Error := "Invalid session ID format" |}
      (negb (write_fails env c));
    EvClose c]).
Proof. intros Hid. unfold HandleConnection. by rewrite Hid. Qed.

(** X14.  A connection whose session id does not parse is never
    registered: [HandleConnection] writes one [error] frame saying
    ["Invalid session ID format"] to its socket, closes it and returns,
    without reading a frame, without calling Redis or Kafka and without
    changing the state. *)
Theorem invalid_session_id_rejected env c sessionID userID userType inbox w :
  uuid_Parse env sessionID = None →
  HandleConnection env c sessionID userID userType inbox w =
  (tt, w,
   [EvWriteJSON c
      {| resp_Type := "error"; resp_Success := false; resp_Data := VNil;
         resp_Error := "Invalid session ID format" |}
      (negb (write_fails env c));
    EvClose c]).
Proof. apply invalid_session_id_aux. Qed.

(** A session id that is no UUID. *)
Lemma invalid_session_id_rejected_witness :
  uuid_Parse all_up "not-a-uuid" = None ∧
  world (HandleConnection all_up 7 "not-a-uuid" "cust1" "customer"
           [typing_start_plain] two_users) = two_users ∧
  length (events (HandleConnection all_up 7 "not-a-uuid" "cust1" "customer"
                    [typing_start_plain] two_users)) = 2%nat.
Proof.
  split; [reflexivity|].
  rewrite (invalid_session_id_rejected all_up 7 "not-a-uuid" "cust1" "customer"
             [typing_start_plain] two_users eq_refl).
  split; reflexivity.
Defined.

(** X15.  [join_session], [ping] and [send_message] are answered to the
    sender alone: the handler writes one frame, of type [session_joined],
    [pong] or [message_sent], with [success] true, to the socket of the
    connection; it writes to no other connection, calls neither Redis nor
    Kafka, and leaves the registry, the presence store and the typing keys
    as they were. *)
Theorem direct_replies_to_sender_only env c msg sessionID userID userType w :
  msg_Type msg = "join_session" ∨ msg_Type msg = "ping" ∨
  msg_Type msg = "send_message" →
  let r := handleIncomingMessage env c msg sessionID userID userType w in
  ∃ frame,
    events r = [EvWriteJSON c frame (negb (write_fails env c))] ∧
    resp_Type frame =
      (if bool_decide (msg_Type msg = "join_session") then "session_joined"
       else if bool_decide (msg_Type msg = "ping") then "pong"
       else "message_sent") ∧
    resp_Success frame = true ∧
    connections (world r) = connections w ∧
    session_users (world r) = session_users w ∧
    typing_keys (world r) = typing_keys w ∧
    redis_n (world r) = redis_n w ∧ kafka_n (world r) = kafka_n w.
Proof.
  intros Hty. cbv zeta. unfold handleIncomingMessage. cbv zeta.
  destruct Hty as [-> | [-> | ->]]; eexists; repeat split.
Qed.

(** A [ping] of [cust1]. *)
Lemma direct_replies_to_sender_only_witness :
  let msg := mkWebSocketMessage "ping" session1 "cust1" "customer" VNil 0 in
  (msg_Type msg = "join_session" ∨ msg_Type msg = "ping" ∨
   msg_Type msg = "send_message") ∧
  ∃ frame,
    events (handleIncomingMessage all_up 1 msg session1 "cust1" "customer"
              two_users) = [EvWriteJSON 1 frame true] ∧
    resp_Type frame = "pong".
Proof.
  intros msg.
  assert (Hty : msg_Type msg = "join_session" ∨ msg_Type msg = "ping" ∨
                msg_Type msg = "send_message") by (right; left; reflexivity).
  split; [exact Hty|].
  destruct (direct_replies_to_sender_only all_up 1 msg session1 "cust1"
              "customer" two_users Hty) as (frame & Hev & Hframe & _).
  exists frame. split; [exact Hev|exact Hframe].
Defined.

(** X16.  Whatever happens during a connection, its socket is closed once,
    as the very last step, also when the session id is refused; and every
    frame written before to a socket other than its own is a
    [typing_indicator] or a [connection_status_update]: the replies, the
    welcome and the error frames of a connection reach nobody else. *)
Theorem HandleConnection_frames_and_close env c sessionID userID userType
    inbox w :
  ∃ before,
    events (HandleConnection env c sessionID userID userType inbox w) =
      before ++ [EvClose c] ∧
    Forall (own_or_broadcast c) before ∧
    (∀ conn m ok, EvWriteJSON conn m ok ∈ before → conn ≠ c →
       broadcast_type (resp_Type m)) ∧
    (∀ conn, EvClose conn ∉ before).
Proof.
  assert (Hshape : ∃ before,
            events (HandleConnection env c sessionID userID userType inbox w) =
              before ++ [EvClose c] ∧
            Forall (own_or_broadcast c) before).
  { destruct (uuid_Parse env sessionID) as [id|] eqn:Hid.
    - rewrite HandleConnection_events by (by eexists).
      destruct (serve_effect env c sessionID userID userType inbox w
                  (λ _, True)) as (_ & _ & Hserve); [done|done|].
      destruct (closing_effect env c sessionID userID userType
                  (world (serve env c sessionID userID userType inbox w))
                  (λ _, True)) as (_ & _ & before & -> & Hclosing);
        [done|done|].
      exists (events (serve env c sessionID userID userType inbox w) ++ before).
      split; [by rewrite app_assoc|]. apply Forall_app. by split.
    - rewrite invalid_session_id_aux by done.
      eexists [_]. split; [reflexivity|].
      apply Forall_cons; split; [by left|by apply Forall_nil]. }
  destruct Hshape as (before & Hev & Hall). exists before.
  split; [exact Hev|]. split; [exact Hall|].
  rewrite Forall_forall in Hall. split.
  - intros conn m ok Hin Hne. destruct (Hall _ Hin) as [?|?]; done.
  - intros conn Hin. exact (Hall _ Hin).
Qed.

(** X17.  The registry stays one the manager can reach: from a reachable
    registry, a whole connection ([HandleConnection]), a broadcast, and the
    relay of a bus message all end in a reachable registry, so that no
    session key ever holds an empty list. *)
Theorem registry_stays_reachable env c sessionID userID userType inbox message
    busMessage w :
  reachable (connections w) →
  reachable (connections
    (world (HandleConnection env c sessionID userID userType inbox w))) ∧
  reachable (connections (world (broadcastToSession env sessionID message w))) ∧
  reachable (connections (world (relay env busMessage w))) ∧
  no_empty_session (connections
    (world (HandleConnection env c sessionID userID userType inbox w))).
Proof.
  intros Hreach.
  assert (Hrem : ∀ (x : nat) s u reg, write_fails env x = true →
                   reachable reg → reachable (registry_remove s u reg))
    by (intros; by constructor).
  assert (Hbroadcast : ∀ s m,
            reachable (connections (world (broadcastToSession env s m w)))).
  { intros s m. apply (pruned_keeps env s w _ reachable Hrem); [|done].
    right. by rewrite broadcastToSession_run. }
  assert (Hconn : reachable (connections
            (world (HandleConnection env c sessionID userID userType inbox w)))).
  { destruct (uuid_Parse env sessionID) as [id|] eqn:Hid.
    - rewrite HandleConnection_phases by (by eexists). rewrite world_bind.
      destruct (serve_effect env c sessionID userID userType inbox w
                  reachable Hrem) as (_ & Hserve & _); [by constructor|].
      by destruct (closing_effect env c sessionID userID userType
                  (world (serve env c sessionID userID userType inbox w))
                  reachable Hrem) as (_ & Hclosing & _); [by constructor|].
    - by rewrite invalid_session_id_aux. }
  split; [exact Hconn|]. split; [apply Hbroadcast|].
  split; [|by apply reachable_no_empty].
  destruct busMessage; apply Hbroadcast.
Qed.

(** The visit of [cust1]. *)
Lemma registry_stays_reachable_witness :
  reachable (connections agent_waiting) ∧
  reachable (connections (world (cust1_visit socket1_down))).
Proof.
  assert (Hreach : reachable (connections agent_waiting))
    by (repeat constructor).
  split; [exact Hreach|].
  apply (registry_stays_reachable socket1_down 1 session1 "cust1" "customer" []
           (typing_indicator session1 "cust1" "customer" true 0)
           (TypingMessage "typing_indicator" session1 "cust1" "customer" true 0)
           agent_waiting Hreach).
Defined.

(** X18.  A visit leaves no trace: when the session id parses, no socket
    write and no Redis command fails, and the user had neither a connection
    nor an entry in the session, then after [HandleConnection] has returned,
    whatever frames were read, the registry is what it was before and so is
    the presence hash of every session. *)
Theorem visit_leaves_no_trace env c sessionID userID userType inbox w :
  is_Some (uuid_Parse env sessionID) →
  (∀ x, write_fails env x = false) →
  (∀ n, redis_fails env n = false) →
  no_empty_session (connections w) →
  ¬ has_user userID (default [] (connections w !! sessionID)) →
  hash_of (session_users w) sessionID !! userID = None →
  let w' := world (HandleConnection env c sessionID userID userType inbox w) in
  connections w' = connections w ∧
  ∀ s, hash_of (session_users w') s = hash_of (session_users w) s.
Proof.
  intros Hid Hwrite Hredis Hreg Hnew Habsent w'. subst w'.
  rewrite (HandleConnection_phases _ _ _ _ _ _ _ Hid), world_bind.
  set (conn := {| Conn := c; UserID := userID; UserType := userType;
                  SessionID := sessionID |}).
  assert (Hrem : ∀ (P : gmap string (list WSConnection) → Prop) x
                   (s u : string) reg,
            write_fails env x = true → P reg → P (registry_remove s u reg)).
  { intros P x s u reg Hx. by rewrite Hwrite in Hx. }
  destruct (serve_effect env c sessionID userID userType inbox w
              (λ reg, reg = registry_add sessionID conn (connections w))
              (Hrem _) eq_refl) as (Hs0 & Hc0 & _).
  set (w0 := world (serve env c sessionID userID userType inbox w)) in *.
  rewrite Hredis in Hs0.
  destruct (closing_effect env c sessionID userID userType w0
              (λ reg, reg = connections w) (Hrem _)) as (Hs1 & Hc1 & _).
  { rewrite Hc0. by apply (registry_add_then_remove sessionID conn). }
  rewrite Hredis in Hs1.
  split; [exact Hc1|].
  intros s. rewrite Hs1, Hs0.
  destruct (decide (s = sessionID)) as [->|Hne].
  - rewrite hash_of_hdel, hash_of_hset. by apply delete_insert_id.
  - by rewrite hash_of_hdel_ne, hash_of_hset_ne.
Qed.

(** [cust1] visits [agent_waiting], types and pings. *)
Lemma visit_leaves_no_trace_witness :
  let inbox := [typing_start_plain; typing_stop_plain;
                mkWebSocketMessage "ping" session1 "cust1" "customer" VNil 0] in
  is_Some (uuid_Parse all_up session1) ∧
  no_empty_session (connections agent_waiting) ∧
  ¬ has_user "cust1" (default [] (connections agent_waiting !! session1)) ∧
  hash_of (session_users agent_waiting) session1 !! "cust1" = None ∧
  connections (world (HandleConnection all_up 1 session1 "cust1" "customer"
                        inbox agent_waiting)) = connections agent_waiting.
Proof.
  intros inbox.
  assert (Hid : is_Some (uuid_Parse all_up session1)) by (by eexists).
  assert (Hreg : no_empty_session (connections agent_waiting))
    by (apply reachable_no_empty; repeat constructor).
  assert (Hnew : ¬ has_user "cust1"
                     (default [] (connections agent_waiting !! session1))).
  { intros H. vm_compute in H. apply Exists_cons in H as [H|H];
      [discriminate|by apply Exists_nil in H]. }
  split; [exact Hid|]. split; [exact Hreg|]. split; [exact Hnew|].
  split; [reflexivity|].
  apply (visit_leaves_no_trace all_up 1 session1 "cust1" "customer" inbox
           agent_waiting Hid (λ _, eq_refl) (λ _, eq_refl) Hreg Hnew eq_refl).
Defined.

(** ** Bus and status query *)

Lemma broadcast_events_published env sessionID message conns :
  omap published (broadcast_events env sessionID message conns) = [].
Proof.
  unfold broadcast_events. induction conns as [|c rest IH]; [done|].
  simpl. rewrite omap_app, IH. unfold delivery_events.
  by destruct (write_fails env (Conn c)).
Qed.

(** X19.  The handlers of bus messages only broadcast: relaying a typing
    message writes to the local connections of its session the same
    [typing_indicator] frame a local typing event writes, and relaying a
    connection-status message writes the [connection_status_update] frame
    without [event_type] and [event_user_id]; neither calls Redis, neither
    publishes anything back on the bus, and the presence store and the
    typing keys are left as they were. *)
Theorem relay_only_broadcasts env busMessage w :
  let r := relay env busMessage w in
  (∀ type sessionID userID userType isTyping timestamp,
     busMessage = TypingMessage type sessionID userID userType isTyping
                    timestamp →
     events r =
       broadcast_events env sessionID
         (typing_indicator sessionID userID userType isTyping timestamp)
         (default [] (connections w !! sessionID))) ∧
  (∀ type sessionID status timestamp,
     busMessage = ConnectionStatusMessage type sessionID status timestamp →
     let frame := connection_status_update sessionID status timestamp "" "" in
     events r =
       broadcast_events env sessionID frame
         (default [] (connections w !! sessionID)) ∧
     index (resp_Data frame) "connection_status" = Some status ∧
     index (resp_Data frame) "event_type" = None ∧
     index (resp_Data frame) "event_user_id" = None) ∧
  omap published (events r) = [] ∧
  session_users (world r) = session_users w ∧
  typing_keys (world r) = typing_keys w ∧
  redis_n (world r) = redis_n w ∧ kafka_n (world r) = kafka_n w.
Proof.
  cbv zeta. split; [|split].
  - intros type s u t b ts ->. cbn [relay]. unfold HandleTypingIndicator.
    cbv zeta. by rewrite broadcastToSession_run.
  - intros type s st ts ->. cbn [relay]. unfold HandleConnectionStatus.
    cbv zeta. rewrite broadcastToSession_run. cbv zeta.
    rewrite events_triple. split; [reflexivity|].
    split; [|split]; apply connection_status_update_data.
  - destruct busMessage; cbn [relay];
      unfold HandleTypingIndicator, HandleConnectionStatus; cbv zeta;
      rewrite broadcastToSession_run; cbv zeta;
      rewrite world_triple, events_triple, broadcast_events_published;
      by repeat split.
Qed.

(** X20.  What the two handlers publish: [handleTypingIndicator] publishes
    one [TypingMessage] on the topic [typing-indicators], and
    [broadcastConnectionStatusWithContext] one [ConnectionStatusMessage] on
    the topic [connection-status], carrying the canonical session id and
    what the local frame said; nothing is published when the session id
    does not parse, nor, for the status, when the read of the presence store
    failed.  A rejected publication changes nothing of the local state. *)
Theorem bus_publications env sessionID userID userType isTyping eventType
    eventUserID w :
  omap published
    (events (handleTypingIndicator env sessionID userID userType isTyping w)) =
    match uuid_Parse env sessionID with
    | Some id =>
        [("typing-indicators",
          TypingMessage "typing_indicator" id userID userType isTyping
            (clock w),
          negb (kafka_fails env (kafka_n w)))]
    | None => []
    end ∧
  omap published
    (events (broadcastConnectionStatusWithContext env sessionID eventType
               eventUserID w)) =
    match uuid_Parse env sessionID with
    | Some id =>
        if redis_fails env (redis_n w) then []
        else [("connection-status",
               ConnectionStatusMessage "connection_status" id
                 (session_status (hash_of (session_users w) sessionID))
                 (clock w),
               negb (kafka_fails env (kafka_n w)))]
    | None => []
    end.
Proof.
  rewrite handleTypingIndicator_run,
    broadcastConnectionStatusWithContext_run. cbv zeta.
  split.
  - rewrite events_triple. cbn [omap list_omap published].
    rewrite omap_app, broadcast_events_published. unfold kafka_events.
    by destruct (uuid_Parse env sessionID).
  - destruct (redis_fails env (redis_n w)); rewrite events_triple.
    + by destruct (uuid_Parse env sessionID).
    + cbn [omap list_omap published].
      rewrite omap_app, broadcast_events_published. unfold kafka_events.
      by destruct (uuid_Parse env sessionID).
Qed.

(** X21.  From one instance to another: the typing message a typing event
    publishes, relayed on any instance, makes that instance write to its
    connections registered under the canonical session id the
    [typing_indicator] frame built from the fields of the message: the same
    user, role and [is_typing], and the timestamp of the message.  When the
    session id is already canonical these are the connections of that
    session. *)
Theorem typing_publish_then_relay env sessionID userID userType isTyping w
    env' w' id :
  uuid_Parse env sessionID = Some id →
  ∃ topic message ok,
    omap published
      (events (handleTypingIndicator env sessionID userID userType isTyping w))
      = [(topic, message, ok)] ∧
    topic = "typing-indicators" ∧
    events (relay env' message w') =
      broadcast_events env' id
        (typing_indicator id userID userType isTyping (clock w))
        (default [] (connections w' !! id)) ∧
    (id = sessionID →
     ∀ x, x ∈ default [] (connections w' !! sessionID) →
       EvWriteJSON (Conn x)
         (typing_indicator sessionID userID userType isTyping (clock w))
         (negb (write_fails env' (Conn x)))
         ∈ events (relay env' message w')).
Proof.
  intros Hid.
  eexists _, _, _. split; [|split; [reflexivity|split]].
  - rewrite handleTypingIndicator_run. cbv zeta. rewrite events_triple.
    cbn [omap list_omap published].
    rewrite omap_app, broadcast_events_published. unfold kafka_events.
    rewrite Hid. reflexivity.
  - cbn [relay]. unfold HandleTypingIndicator. cbv zeta.
    by rewrite broadcastToSession_run.
  - intros -> x Hx. cbn [relay]. unfold HandleTypingIndicator. cbv zeta.
    rewrite broadcastToSession_run. cbv zeta. rewrite events_triple.
    by apply broadcast_events_write.
Qed.

(** [cust1] types on one instance; [agent1] is connected to another. *)
Lemma typing_publish_then_relay_witness :
  uuid_Parse all_up session1 = Some session1 ∧
  ∃ message,
    omap published
      (events (handleTypingIndicator all_up session1 "cust1" "customer" true
                 two_users)) = [("typing-indicators", message, true)] ∧
    events (relay all_up message agent_waiting) =
      [EvWriteJSON 2
         (typing_indicator session1 "cust1" "customer" true (clock two_users))
         true].
Proof.
  split; [reflexivity|].
  destruct (typing_publish_then_relay all_up session1 "cust1" "customer" true
              two_users all_up agent_waiting session1 eq_refl)
    as (topic & message & ok & Hpub & -> & Hrelay & _).
  exists message.
  assert (ok = true) as ->.
  { pose proof (f_equal (λ l, snd <$> head l) Hpub) as H.
    vm_compute in H. by injection H as <-. }
  split; [exact Hpub|]. rewrite Hrelay. vm_compute. reflexivity.
Defined.

(** X22.  The status query: for a session id that does not parse the answer
    is 400 and Redis is not called; otherwise the hash of the canonical
    session id is read once, and the answer is 500 when that read fails and
    200 with [success] true and, as [data], the status folded from that
    hash when it succeeds: the status a [connection_status_update] frame for
    that session id carries at that moment.  The query changes neither the
    registry, nor the presence store, nor the typing keys. *)
Theorem status_query_answers env texts sessionIDStr w :
  let r := handleGetSessionConnectionStatus env texts sessionIDStr w in
  (uuid_Parse env sessionIDStr = None →
     http_status (result r) = 400%nat ∧ events r = [] ∧ world r = w) ∧
  (∀ id, uuid_Parse env sessionIDStr = Some id →
     events r = [EvRedis (HGETALL id) (negb (redis_fails env (redis_n w)))] ∧
     (redis_fails env (redis_n w) = true →
        http_status (result r) = 500%nat ∧
        index (http_body (result r)) "success" = Some (VBool false)) ∧
     (redis_fails env (redis_n w) = false →
        http_status (result r) = 200%nat ∧
        index (http_body (result r)) "success" = Some (VBool true) ∧
        index (http_body (result r)) "data" =
          Some (session_status (hash_of (session_users w) id)) ∧
        ∀ now eventType eventUserID,
          index (resp_Data (connection_status_update id
                   (session_status (hash_of (session_users w) id)) now
                   eventType eventUserID)) "connection_status" =
          index (http_body (result r)) "data")) ∧
  connections (world r) = connections w ∧
  session_users (world r) = session_users w ∧
  typing_keys (world r) = typing_keys w.
Proof.
  cbv zeta. unfold handleGetSessionConnectionStatus.
  destruct (uuid_Parse env sessionIDStr) as [id|].
  - split; [done|]. unfold bind. rewrite GetSessionUsers_run.
    destruct (redis_fails env (redis_n w)); unfold ret, result, world, events;
      cbn [fst snd app].
    + split; [|done]. intros ? [= <-]. split; [done|]. split; [done|done].
    + split; [|done]. intros ? [= <-]. split; [done|]. split; [done|].
      intros _. split; [done|]. split; [done|]. split; [done|].
      intros now et eu. apply connection_status_update_data.
  - split; [|split; [done|done]]. by split.
Qed.

(** The query on [two_users], and on a text that is no UUID. *)
Lemma status_query_answers_witness :
  let texts := mkErrorTexts (λ _, "invalid UUID length: 10") "connection refused" in
  uuid_Parse all_up "not-a-uuid" = None ∧
  uuid_Parse all_up session1 = Some session1 ∧
  redis_fails all_up (redis_n two_users) = false ∧
  http_status (result (handleGetSessionConnectionStatus all_up texts
                         "not-a-uuid" two_users)) = 400%nat ∧
  http_status (result (handleGetSessionConnectionStatus all_up texts session1
                         two_users)) = 200%nat ∧
  http_status (result (handleGetSessionConnectionStatus redis_down texts
                         session1 two_users)) = 500%nat.
Proof.
  intros texts.
  split; [reflexivity|]. split; [reflexivity|]. split; [reflexivity|].
  destruct (status_query_answers all_up texts "not-a-uuid" two_users)
    as (Hbad & _).
  destruct (status_query_answers all_up texts session1 two_users)
    as (_ & Hgood & _).
  destruct (status_query_answers redis_down texts session1 two_users)
    as (_ & Hdown & _).
  split; [apply (Hbad eq_refl)|].
  split; [apply (Hgood session1 eq_refl)|apply (Hdown session1 eq_refl)];
    reflexivity.
Defined.

(** ** Further examples *)

(** [cust1] opens a second connection in [two_users]. *)
Lemma addConnection_appends_witness :
  let second := mkWSConnection 9 "cust1" "customer" session1 in
  let w' := world (addConnection session1 second two_users) in
  connections w' !! session1 = Some [cust1_conn; agent1_conn; second] ∧
  GetSessionConnectionCount session1 w' = 3%nat ∧
  GetSessionConnectionCount "other" w' = 0%nat.
Proof.
  intros second w'. subst w'.
  destruct (addConnection_appends session1 second two_users)
    as (Hlist & Hcount & Hother & _).
  split; [rewrite Hlist; vm_compute; reflexivity|].
  split; [rewrite Hcount; vm_compute; reflexivity|].
  destruct (Hother "other" ltac:(discriminate)) as [_ Hzero].
  rewrite Hzero. vm_compute. reflexivity.
Defined.

(** A broadcast in [two_tabs] with the socket of tab A broken. *)
Lemma broadcast_one_write_each_witness :
  let message := typing_indicator session1 "u1" "customer" true 0 in
  let r := broadcastToSession socket1_down session1 message two_tabs in
  omap written (events r) = [(2%nat, message, true); (1%nat, message, false)] ∧
  connections (world r) !! "other" = None.
Proof.
  intros message r.
  destruct (broadcast_one_write_each socket1_down session1 message two_tabs)
    as (Hw & _ & Hother & _).
  split; [subst r; rewrite Hw; vm_compute; reflexivity|].
  subst r. rewrite (Hother "other"); [vm_compute; reflexivity|].
  discriminate.
Defined.

(** The visit of [cust1] ends with the closing of its socket, and before
    that it only writes to its own socket or broadcasts. *)
Lemma HandleConnection_frames_and_close_witness :
  ∃ before,
    events (cust1_visit all_up) = before ++ [EvClose 1] ∧
    Forall (own_or_broadcast 1) before.
Proof.
  destruct (HandleConnection_frames_and_close all_up 1 session1 "cust1"
              "customer" [] agent_waiting)
    as (before & Hev & Hall & _).
  exists before. split; [exact Hev|exact Hall].
Defined.

(** A typing message from the bus reaches [agent1] in [agent_waiting]. *)
Lemma relay_only_broadcasts_witness :
  let message :=
    TypingMessage "typing_indicator" session1 "cust1" "customer" true 3 in
  events (relay all_up message agent_waiting) =
    [EvWriteJSON 2 (typing_indicator session1 "cust1" "customer" true 3) true] ∧
  world (relay all_up message agent_waiting) = agent_waiting.
Proof.
  intros message.
  destruct (relay_only_broadcasts all_up message agent_waiting)
    as (Htyping & _ & _).
  split.
  - rewrite (Htyping _ _ _ _ _ _ eq_refl). vm_compute. reflexivity.
  - vm_compute. reflexivity.
Defined.

(** ** Self-healing with distinct user ids *)

Lemma filter_all {A} (P : A → Prop) `{!∀ x, Decision (P x)} (l : list A) :
  Forall P l → filter P l = l.
Proof.
  induction 1 as [|x l Hx _ IH]; [done|].
  by rewrite filter_cons, decide_True, IH.
Qed.

Lemma filter_ext_in {A} (P Q : A → Prop) `{!∀ x, Decision (P x)}
    `{!∀ x, Decision (Q x)} (l : list A) :
  (∀ x, x ∈ l → P x ↔ Q x) → filter P l = filter Q l.
Proof.
  induction l as [|x l IH]; intros Hext; [done|].
  rewrite !filter_cons.
  rewrite IH by (intros y Hy; apply Hext; by apply list_elem_of_further).
  destruct (decide (P x)) as [HP|HP], (decide (Q x)) as [HQ|HQ]; try done.
  - exfalso. apply HQ, (Hext x); [apply list_elem_of_here|done].
  - exfalso. apply HP, (Hext x); [apply list_elem_of_here|done].
Qed.

Lemma NoDup_fmap_same {A B} (f : A → B) (l : list A) x y :
  NoDup (f <$> l) → x ∈ l → y ∈ l → f x = f y → x = y.
Proof.
  induction l as [|z l IH]; [by intros _ Hx; apply elem_of_nil in Hx|].
  rewrite fmap_cons, NoDup_cons. intros [Hz Hl] Hx Hy Hf.
  apply elem_of_cons in Hx as [->|Hx], Hy as [->|Hy]; [done| | |by apply IH].
  - exfalso. apply Hz. rewrite Hf. by apply list_elem_of_fmap_2.
  - exfalso. apply Hz. rewrite <-Hf. by apply list_elem_of_fmap_2.
Qed.

Lemma remove_first_filter userID conns :
  NoDup (UserID <$> conns) →
  remove_first userID conns = filter (λ c, UserID c ≠ userID) conns.
Proof.
  induction conns as [|c l IH]; [done|].
  rewrite fmap_cons, NoDup_cons. intros [Hc Hl].
  rewrite remove_first_cons, filter_cons. case_bool_decide as Hu.
  - rewrite decide_False by (by intros H; apply H).
    symmetry. apply filter_all, Forall_forall. intros x Hx Hxu. apply Hc.
    rewrite Hu, <-Hxu. by apply list_elem_of_fmap_2.
  - rewrite decide_True by done. by rewrite IH.
Qed.

Lemma prune_conns env sessionID conns reg :
  default [] (prune env sessionID conns reg !! sessionID) =
  foldl (λ l x, if write_fails env (Conn x)
                then remove_first (UserID x) l else l)
    (default [] (reg !! sessionID)) conns.
Proof.
  revert reg. induction conns as [|x rest IH]; intros reg; [done|].
  change (prune env sessionID (x :: rest) reg) with
    (prune env sessionID rest
       (if write_fails env (Conn x)
        then registry_remove sessionID (UserID x) reg else reg)).
  rewrite IH. cbn [foldl]. f_equal.
  destruct (write_fails env (Conn x)); [|done].
  apply registry_remove_conns.
Qed.

Lemma broken_users_cons env x conns :
  broken_users env (x :: conns) =
  if write_fails env (Conn x) then UserID x :: broken_users env conns
  else broken_users env conns.
Proof.
  unfold broken_users. rewrite filter_cons.
  case_decide as H; unfold healthy in H;
    destruct (write_fails env (Conn x)); try done.
Qed.

Lemma prune_fold_filter env conns (l : list WSConnection) :
  NoDup (UserID <$> l) →
  foldl (λ l x, if write_fails env (Conn x)
                then remove_first (UserID x) l else l) l conns =
  filter (λ y, UserID y ∉ broken_users env conns) l.
Proof.
  revert l. induction conns as [|x rest IH]; intros l Hl.
  - cbn [foldl]. symmetry. apply filter_all, Forall_forall.
    intros y _. unfold broken_users. rewrite filter_nil. apply not_elem_of_nil.
  - cbn [foldl]. rewrite broken_users_cons.
    destruct (write_fails env (Conn x)); [|by apply IH].
    assert (Hl' : NoDup (UserID <$> remove_first (UserID x) l)).
    { rewrite remove_first_filter by done.
      apply (sublist_NoDup _ (UserID <$> l)); [done|].
      apply fmap_sublist, sublist_filter. }
    rewrite IH by done. rewrite remove_first_filter by done.
    rewrite list_filter_filter. apply list_filter_iff.
    intros y. rewrite not_elem_of_cons. tauto.
Qed.

(** X24.  With distinct user ids in the session, a broadcast prunes exactly
    the connections whose write failed: the session is left with the
    connections that took the message, in their order. *)
Theorem broadcast_keeps_the_healthy env sessionID message w conns :
  connections w !! sessionID = Some conns →
  NoDup (UserID <$> conns) →
  default []
    (connections (world (broadcastToSession env sessionID message w))
       !! sessionID) =
  filter (healthy env) conns.
Proof.
  intros Hs Hids. rewrite broadcastToSession_run. cbv zeta.
  rewrite world_triple. cbn [connections set_connections].
  rewrite prune_conns, Hs. cbn [default from_option id].
  rewrite prune_fold_filter by done.
  apply filter_ext_in. intros y Hy. unfold broken_users.
  rewrite list_elem_of_fmap. split.
  - intros Hno. destruct (decide (healthy env y)) as [?|Hbad]; [done|].
    exfalso. apply Hno. exists y. split; [done|].
    by apply list_elem_of_filter.
  - intros Hok (z & Hz & Hin). apply list_elem_of_filter in Hin as [Hbad Hin].
    apply Hbad. by rewrite (NoDup_fmap_same UserID conns z y).
Qed.

(** In [two_users] the socket of [cust1] is broken: [agent1] stays. *)
Lemma broadcast_keeps_the_healthy_witness :
  connections two_users !! session1 = Some [cust1_conn; agent1_conn] ∧
  NoDup (UserID <$> [cust1_conn; agent1_conn]) ∧
  ∀ message,
    default []
      (connections (world (broadcastToSession socket1_down session1 message
                             two_users)) !! session1) = [agent1_conn].
Proof.
  assert (Hs : connections two_users !! session1 =
               Some [cust1_conn; agent1_conn]) by (vm_compute; reflexivity).
  assert (Hids : NoDup (UserID <$> [cust1_conn; agent1_conn])).
  { apply NoDup_cons. split.
    - intros H. apply list_elem_of_singleton in H. discriminate H.
    - apply NoDup_singleton. }
  split; [exact Hs|]. split; [exact Hids|]. intros message.
  rewrite (broadcast_keeps_the_healthy socket1_down session1 message two_users
             _ Hs Hids).
  vm_compute. reflexivity.
Defined.

(** ** Connecting *)

(** X23.  On connect, when the session id parses and the store accepts the
    entry and answers the read, every connection of the session, the new one
    included, is written the [connection_status_update] frame with event
    type [user_connected]; its status is computed from the hash with the
    entry of the new user in it: the user is listed and counted once under
    its role. *)
Theorem connect_status_includes_newcomer env c sessionID userID userType inbox
    w :
  is_Some (uuid_Parse env sessionID) →
  redis_fails env (redis_n w) = false →
  redis_fails env (S (redis_n w)) = false →
  let conn := {| Conn := c; UserID := userID; UserType := userType;
                 SessionID := sessionID |} in
  let users' :=
    <[userID := presence_entry userID userType (clock w)]>
      (hash_of (session_users w) sessionID) in
  let frame :=
    connection_status_update sessionID (session_status users') (clock w)
      "user_connected" userID in
  (∀ x, x ∈ default [] (connections w !! sessionID) ++ [conn] →
     EvWriteJSON (Conn x) frame (negb (write_fails env (Conn x)))
       ∈ events (HandleConnection env c sessionID userID userType inbox w)) ∧
  index (resp_Data frame) "connection_status" = Some (session_status users') ∧
  index (resp_Data frame) "event_type" = Some (VStr "user_connected") ∧
  (∃ usersMap userInfo,
     index (session_status users') "users" = Some (VMap usersMap) ∧
     usersMap !! userID = Some userInfo ∧
     index userInfo "user_type" = Some (VStr userType)) ∧
  entries_with_role userType users' =
    S (entries_with_role userType
         (delete userID (hash_of (session_users w) sessionID))).
Proof.
  intros Hid Hjoin Hread conn users' frame.
  split; [|split; [|split; [|split]]].
  - intros x Hx.
    rewrite (HandleConnection_events _ _ _ _ _ _ _ Hid).
    apply elem_of_app. left.
    destruct (serve_events env c sessionID userID userType inbox w)
      as [mid Hserve].
    cbv zeta in Hserve. rewrite Hserve, Hjoin. cbn [negb].
    do 2 apply list_elem_of_further. apply elem_of_app. left.
    rewrite broadcastConnectionStatusWithContext_run. cbv zeta.
    cbn [redis_n tick_redis set_session_users set_connections].
    rewrite Hread, events_triple.
    apply list_elem_of_further, elem_of_app. left.
    cbn [session_users connections clock tick_redis set_session_users
         set_connections].
    rewrite hash_of_hset, registry_add_lookup. cbn [default from_option id].
    fold users'. fold frame. by apply broadcast_events_write.
  - apply connection_status_update_data.
  - apply connection_status_update_data.
  - eexists _, _. split; [by rewrite session_status_eq|].
    split; [rewrite lookup_omap; subst users'; rewrite lookup_insert_eq;
            reflexivity|reflexivity].
  - subst users'.
    rewrite (entries_with_role_split userType _ userID
               (presence_entry userID userType (clock w)))
      by apply lookup_insert_eq.
    rewrite role_of_presence_entry, bool_decide_eq_true_2 by done.
    by rewrite delete_insert_eq.
Qed.

(** [cust1] connects to [agent_waiting]: both sockets get the frame, which
    counts one customer and one agent. *)
Lemma connect_status_includes_newcomer_witness :
  let users' :=
    <["cust1" := presence_entry "cust1" "customer" (clock agent_waiting)]>
      (hash_of (session_users agent_waiting) session1) in
  let frame :=
    connection_status_update session1 (session_status users')
      (clock agent_waiting) "user_connected" "cust1" in
  is_Some (uuid_Parse all_up session1) ∧
  redis_fails all_up (redis_n agent_waiting) = false ∧
  redis_fails all_up (S (redis_n agent_waiting)) = false ∧
  EvWriteJSON 2 frame true ∈ events (cust1_visit all_up) ∧
  EvWriteJSON 1 frame true ∈ events (cust1_visit all_up) ∧
  entries_with_role "customer" users' = 1%nat.
Proof.
  intros users' frame.
  assert (Hid : is_Some (uuid_Parse all_up session1)) by (by eexists).
  split; [exact Hid|]. split; [reflexivity|]. split; [reflexivity|].
  destruct (connect_status_includes_newcomer all_up 1 session1 "cust1"
              "customer" [] agent_waiting Hid eq_refl eq_refl)
    as (Hall & _ & _ & _ & Hcount).
  split; [|split].
  - apply (Hall agent1_conn). vm_compute. apply list_elem_of_here.
  - apply (Hall cust1_conn). vm_compute.
    apply list_elem_of_further, list_elem_of_here.
  - subst users'. rewrite Hcount. vm_compute. reflexivity.
Defined.
